(** * ian-games: the motion dance game, gesture classifier and arrow engine

    A shallow embedding of
      - [src/lib/gameConstants] (scoring tables, hit zones, combo tiers),
      - [src/lib/gestureDetection.ts] (wave and jump classifier),
      - [calculateCalibration] of [CalibrationScreen.tsx],
      - [src/hooks/useGameEngine.ts] (session life cycle, tick, hit matching),
    followed by the properties of the specification that were checked on it.

    Conventions of the embedding.
      - A JavaScript [number] that carries a measurement (a position, a
        time stamp, a coordinate) is an exact rational [Q]: every operation
        the code applies to them is [+], [-], [*], [/], [Math.max],
        [Math.min], [Math.abs] and an order comparison.  Rounding, NaN and
        the infinities are outside the model; the two infinities that
        [detectWave] uses as initial extrema are an [option].
      - A [number] that counts (score, combo, hits, misses) is a [Z].
      - Reads of the environment ([Date.now()], [performance.now()],
        [Math.random()]) are explicit arguments.
      - The React hook is a record of its state cells and refs; a callback
        is a function from that record to the next one, and the collaborator
        callbacks ([onHit], [onMiss], ...) append to a log.
      - A state cell holds the state with the queued updaters applied, in
        the order React will apply them: it is the [prev] of the next
        updater.  [gameStateRef] is written by the effect of a render only
        ([commit]); between two renders the callbacks read the session of
        the last render through it. *)

From Stdlib Require Import ZArith QArith Qabs Qround Bool List Sorted Lia Lqa.
Import ListNotations.

(* ================================================================== *)
(** * Part I: the embedding                                            *)
(* ================================================================== *)

(** ** Numbers *)

Module Num.

Open Scope Q_scope.

(** [a < b] and [a <= b] as the booleans JavaScript computes. *)
Definition ltb (a b : Q) : bool := negb (Qle_bool b a).
Definition leb (a b : Q) : bool := Qle_bool a b.

(** [Math.max], [Math.min] and [Math.abs]. *)
Definition max (a b : Q) : Q := if leb a b then b else a.
Definition min (a b : Q) : Q := if leb a b then a else b.
Definition abs (a : Q) : Q := Qabs a.

End Num.

(** ** gameConstants *)

Module GameConstants.

Open Scope Q_scope.

Inductive HitRating := Perfect | Good | Miss.

Inductive Difficulty := Easy | Medium | Hard.

Inductive Gesture := WaveLeft | WaveRight | Jump.

(** [SCORING] *)
Definition PERFECT_POINTS : Z := 100.
Definition GOOD_POINTS : Z := 50.
Definition MISS_POINTS : Z := 0.

(** [COMBO_MULTIPLIERS]: (threshold, multiplier), in table order. *)
Definition COMBO_MULTIPLIERS : list (Z * Z) :=
  [(0, 1); (10, 2); (25, 3); (50, 4)]%Z.

(** [HIT_ZONE] *)
Definition PERFECT_START : Q := 95 # 100.
Definition PERFECT_END : Q := 1.
Definition GOOD_START : Q := 85 # 100.
Definition GOOD_END : Q := 95 # 100.

(** [DIFFICULTY_SETTINGS] *)
Definition arrowTravelTime (d : Difficulty) : Q :=
  match d with Easy => 3000 | Medium => 2000 | Hard => 1500 end.

Definition spawnInterval (d : Difficulty) : Q :=
  match d with Easy => 2000 | Medium => 1500 | Hard => 1000 end.

(** [GESTURE_TO_LANE]; the lookup is total on the three gesture types,
    so the [undefined] branch of the caller is never taken. *)
Definition GESTURE_TO_LANE (g : Gesture) : nat :=
  match g with WaveLeft => 0 | Jump => 1 | WaveRight => 2 end%nat.

(** [ARROW_PATTERNS]: (lane, delay). *)
Definition Pattern := list (nat * Q).

Definition singleLeft : Pattern := [(0%nat, 0)].
Definition singleCenter : Pattern := [(1%nat, 0)].
Definition singleRight : Pattern := [(2%nat, 0)].
Definition doubleLeftRight : Pattern := [(0%nat, 0); (2%nat, 200)].
Definition doubleCenterLeft : Pattern := [(1%nat, 0); (0%nat, 200)].
Definition doubleCenterRight : Pattern := [(1%nat, 0); (2%nat, 200)].
Definition tripleSequence : Pattern := [(0%nat, 0); (1%nat, 300); (2%nat, 600)].
Definition tripleReverse : Pattern := [(2%nat, 0); (1%nat, 300); (0%nat, 600)].

(** [PATTERN_WEIGHTS] *)
Definition weightSingle (d : Difficulty) : Q :=
  match d with Easy => 9 # 10 | Medium => 6 # 10 | Hard => 4 # 10 end.
Definition weightDouble (d : Difficulty) : Q :=
  match d with Easy => 1 # 10 | Medium => 3 # 10 | Hard => 4 # 10 end.

(** [getComboMultiplier]: the loop over the tier table, last match wins. *)
Definition getComboMultiplier (combo : Z) : Z :=
  fold_left
    (fun multiplier tier =>
       if (combo >=? fst tier)%Z then snd tier else multiplier)
    COMBO_MULTIPLIERS 1%Z.

(** [calculateHitScore]; its [rating] argument has type
    ['perfect' | 'good'], every rating but [Perfect] scores as good. *)
Definition calculateHitScore (rating : HitRating) (combo : Z) : Z :=
  let basePoints :=
    match rating with Perfect => PERFECT_POINTS | _ => GOOD_POINTS end in
  (basePoints * getComboMultiplier combo)%Z.

(** [getHitRating] *)
Definition getHitRating (position : Q) : HitRating :=
  if Num.leb PERFECT_START position && Num.leb position PERFECT_END
  then Perfect
  else if Num.leb GOOD_START position && Num.ltb position PERFECT_START
  then Good
  else Miss.

(** [isInHitZone] *)
Definition isInHitZone (position : Q) : bool :=
  Num.leb GOOD_START position && Num.leb position PERFECT_END.

(** [hasMissedHitZone] *)
Definition hasMissedHitZone (position : Q) : bool :=
  Num.ltb PERFECT_END position.

(** [selectRandomPattern]; [random] and [random2] are the two draws of
    [Math.random()], each in [0, 1). *)
Definition selectRandomPattern (d : Difficulty) (random random2 : Q) : Pattern :=
  let availablePatterns :=
    if Num.ltb random (weightSingle d)
    then [singleLeft; singleCenter; singleRight]
    else if Num.ltb random (weightSingle d + weightDouble d)
    then [doubleLeftRight; doubleCenterLeft; doubleCenterRight]
    else [tripleSequence; tripleReverse] in
  let randomIndex :=
    Qfloor (random2 * inject_Z (Z.of_nat (length availablePatterns))) in
  nth (Z.to_nat randomIndex) availablePatterns [].

End GameConstants.

(** ** types: landmarks, poses, calibration *)

Module Types.

Open Scope Q_scope.

(** [Landmark]; [visibility] is an optional field. *)
Record Landmark := mkLandmark {
  lm_x : Q;
  lm_y : Q;
  lm_z : Q;
  lm_visibility : option Q
}.

(** [PoseResult]; [worldLandmarks] is read by no function modelled here. *)
Record PoseResult := mkPose {
  landmarks : list Landmark;
  pose_timestamp : Q
}.

Record CalibrationData := mkCalibration {
  leftHip : Landmark;
  rightHip : Landmark;
  leftShoulder : Landmark;
  rightShoulder : Landmark;
  nose : Landmark;
  leftWrist : Landmark;
  rightWrist : Landmark;
  hipCenterY : Q;
  shoulderCenterY : Q;
  cal_timestamp : Q
}.

(** [POSE_LANDMARKS], the indices the modelled code reads. *)
Definition NOSE : nat := 0.
Definition LEFT_SHOULDER : nat := 11.
Definition RIGHT_SHOULDER : nat := 12.
Definition LEFT_WRIST : nat := 15.
Definition RIGHT_WRIST : nat := 16.
Definition LEFT_HIP : nat := 23.
Definition RIGHT_HIP : nat := 24.
Definition LEFT_ANKLE : nat := 27.
Definition RIGHT_ANKLE : nat := 28.

(** [(lm.visibility ?? 0) > 0.5] *)
Definition visible (lm : Landmark) : bool :=
  Num.ltb (1 # 2)
    (match lm_visibility lm with Some v => v | None => 0 end).

End Types.

(** ** gestureDetection.ts *)

Module GestureDetection.

Import GameConstants Types.
Open Scope Q_scope.

Record PositionSample := mkSample {
  ps_y : Q;
  ps_timestamp : Q
}.

Record WristTrackingState := mkWrist {
  samples : list PositionSample;
  wrist_lastGestureTime : Q
}.

Record JumpTrackingState := mkJump {
  isInJump : bool;
  jump_lastGestureTime : Q
}.

Record GestureTrackingState := mkTracking {
  st_leftWrist : WristTrackingState;
  st_rightWrist : WristTrackingState;
  st_jump : JumpTrackingState
}.

Record GestureOptions := mkOptions {
  waveThreshold : Q;
  waveTimeWindow : Q;
  jumpThreshold : Q;
  debounceTime : Q
}.

Definition DEFAULT_GESTURE_OPTIONS : GestureOptions :=
  {| waveThreshold := 5 # 100;
     waveTimeWindow := 500;
     jumpThreshold := 8 # 100;
     debounceTime := 500 |}.

Definition createInitialGestureState : GestureTrackingState :=
  {| st_leftWrist := {| samples := []; wrist_lastGestureTime := 0 |};
     st_rightWrist := {| samples := []; wrist_lastGestureTime := 0 |};
     st_jump := {| isInJump := false; jump_lastGestureTime := 0 |} |}.

(** [addPositionSample] *)
Definition addPositionSample (state : WristTrackingState) (y timestamp timeWindow : Q)
  : WristTrackingState :=
  let cutoffTime := timestamp - timeWindow in
  {| samples :=
       filter (fun s => Num.ltb cutoffTime (ps_timestamp s)) (samples state)
         ++ [ {| ps_y := y; ps_timestamp := timestamp |} ];
     wrist_lastGestureTime := wrist_lastGestureTime state |}.

(** The four locals of the scan in [detectWave].  [minY = None] stands
    for the initial [Infinity] and [maxY = None] for [-Infinity]. *)
Record Extrema := mkExtrema {
  minY : option Q;
  maxY : option Q;
  minTime : Q;
  maxTime : Q
}.

Definition initialExtrema : Extrema :=
  {| minY := None; maxY := None; minTime := 0; maxTime := 0 |}.

(** One iteration of [for (const sample of samples)]. *)
Definition scanSample (e : Extrema) (sample : PositionSample) : Extrema :=
  let e1 :=
    if match minY e with None => true | Some m => Num.ltb (ps_y sample) m end
    then {| minY := Some (ps_y sample); maxY := maxY e;
            minTime := ps_timestamp sample; maxTime := maxTime e |}
    else e in
  if match maxY e1 with None => true | Some m => Num.ltb m (ps_y sample) end
  then {| minY := minY e1; maxY := Some (ps_y sample);
          minTime := minTime e1; maxTime := ps_timestamp sample |}
  else e1.

Record WaveResult := mkWaveResult {
  wave_detected : bool;
  wave_confidence : Q
}.

(** [detectWave]; [threshold] is not zero (the division). *)
Definition detectWave (samples : list PositionSample) (threshold : Q) : WaveResult :=
  if (length samples <? 3)%nat
  then {| wave_detected := false; wave_confidence := 0 |}
  else
    let e := fold_left scanSample samples initialExtrema in
    match minY e, maxY e with
    | Some lo, Some hi =>
        let amplitude := hi - lo in
        if Num.ltb amplitude threshold
        then {| wave_detected := false; wave_confidence := 0 |}
        else
          let hasOscillation := Num.ltb 50 (Num.abs (minTime e - maxTime e)) in
          if negb hasOscillation
          then {| wave_detected := false; wave_confidence := 0 |}
          else {| wave_detected := true;
                  wave_confidence := Num.min 1 (amplitude / (threshold * 2)) |}
    | _, _ =>
        (* no sample was scanned: the amplitude is [-Infinity] *)
        {| wave_detected := false; wave_confidence := 0 |}
    end.

Record JumpResult := mkJumpResult {
  jump_detected : bool;
  jump_newState : JumpTrackingState;
  jump_confidence : Q
}.

(** [detectJump]; [dateNow] is the value [Date.now()] returns during the
    call.  [calibration.leftHip && calibration.rightHip] holds for every
    [CalibrationData]. *)
Definition detectJump (lms : list Landmark) (calibration : CalibrationData)
    (state : JumpTrackingState) (threshold : Q) (dateNow : Q) : JumpResult :=
  match nth_error lms LEFT_HIP, nth_error lms RIGHT_HIP with
  | Some lHip, Some rHip =>
      let leftVisible := visible lHip in
      let rightVisible := visible rHip in
      if negb leftVisible && negb rightVisible
      then {| jump_detected := false; jump_newState := state; jump_confidence := 0 |}
      else
        let currentHipY := (lm_y lHip + lm_y rHip) / 2 in
        let baselineHipY := hipCenterY calibration in
        let rise := baselineHipY - currentHipY in
        let ankleRise :=
          match nth_error lms LEFT_ANKLE, nth_error lms RIGHT_ANKLE with
          | Some lAnkle, Some rAnkle =>
              let baselineAnkleY := hipCenterY calibration + (3 # 10) in
              let currentAnkleY := (lm_y lAnkle + lm_y rAnkle) / 2 in
              baselineAnkleY - currentAnkleY
          | _, _ => 0
          end in
        let isJumping := Num.ltb threshold rise in
        if isJumping && negb (isInJump state)
        then
          let jumpConfidence := Num.min 1 (rise / (threshold * 2)) in
          let ankleBonus :=
            if Num.ltb (threshold * (1 # 2)) ankleRise then 1 # 10 else 0 in
          {| jump_detected := true;
             jump_newState :=
               {| isInJump := true; jump_lastGestureTime := dateNow |};
             jump_confidence := Num.min 1 (jumpConfidence + ankleBonus) |}
        else if negb isJumping && isInJump state
        then
          {| jump_detected := false;
             jump_newState :=
               {| isInJump := false;
                  jump_lastGestureTime := jump_lastGestureTime state |};
             jump_confidence := 0 |}
        else {| jump_detected := false; jump_newState := state; jump_confidence := 0 |}
  | _, _ => {| jump_detected := false; jump_newState := state; jump_confidence := 0 |}
  end.

Record FrameResult := mkFrameResult {
  gesture : option Gesture;
  newState : GestureTrackingState;
  confidence : Q
}.

(** One wrist block of [processGestureFrame] (the left and the right block
    are the same code up to the side): the block's guard on the landmark,
    the append, the debounce test and the detection.  Returns the wrist
    state the block leaves in [newState], and the confidence when the block
    detected a wave. *)
Definition wristBlock (wrist : option Landmark) (ws : WristTrackingState)
    (timestamp : Q) (options : GestureOptions)
  : WristTrackingState * option Q :=
  match wrist with
  | Some lm =>
      if visible lm
      then
        let added := addPositionSample ws (lm_y lm) timestamp (waveTimeWindow options) in
        let timeSinceLastGesture := timestamp - wrist_lastGestureTime ws in
        if Num.ltb (debounceTime options) timeSinceLastGesture
        then
          let waveResult := detectWave (samples added) (waveThreshold options) in
          if wave_detected waveResult
          then ({| samples := []; wrist_lastGestureTime := timestamp |},
                Some (wave_confidence waveResult))
          else (added, None)
        else (added, None)
      else (ws, None)
  | None => (ws, None)
  end.

(** [processGestureFrame]; [dateNow] as in [detectJump]. *)
Definition processGestureFrame (lms : list Landmark) (calibration : CalibrationData)
    (state : GestureTrackingState) (timestamp : Q) (options : GestureOptions)
    (dateNow : Q) : FrameResult :=
  let leftW := nth_error lms LEFT_WRIST in
  let rightW := nth_error lms RIGHT_WRIST in
  (* left wrist *)
  let '(newLeft, leftWave) :=
    wristBlock leftW (st_leftWrist state) timestamp options in
  (* right wrist, only if no left wave was detected *)
  let '(newRight, rightWave) :=
    match leftWave with
    | Some _ => (st_rightWrist state, None)
    | None => wristBlock rightW (st_rightWrist state) timestamp options
    end in
  match leftWave, rightWave with
  | Some c, _ =>
      {| gesture := Some WaveLeft;
         newState := {| st_leftWrist := newLeft; st_rightWrist := newRight;
                        st_jump := st_jump state |};
         confidence := c |}
  | None, Some c =>
      {| gesture := Some WaveRight;
         newState := {| st_leftWrist := newLeft; st_rightWrist := newRight;
                        st_jump := st_jump state |};
         confidence := c |}
  | None, None =>
      (* jump, only if no wave was detected *)
      let timeSinceLastJump := timestamp - jump_lastGestureTime (st_jump state) in
      let jumpResult :=
        detectJump lms calibration (st_jump state) (jumpThreshold options) dateNow in
      if Num.ltb (debounceTime options) timeSinceLastJump
      then
        {| gesture := if jump_detected jumpResult then Some Jump else None;
           newState := {| st_leftWrist := newLeft; st_rightWrist := newRight;
                          st_jump := jump_newState jumpResult |};
           confidence :=
             if jump_detected jumpResult then jump_confidence jumpResult else 0 |}
      else
        {| gesture := None;
           newState :=
             {| st_leftWrist := newLeft; st_rightWrist := newRight;
                st_jump :=
                  {| isInJump := isInJump (jump_newState jumpResult);
                     jump_lastGestureTime := jump_lastGestureTime (st_jump state) |} |};
           confidence := 0 |}
  end.

End GestureDetection.

(** ** calculateCalibration (CalibrationScreen.tsx) *)

Module Calibration.

Import Types.
Open Scope Q_scope.

(** The five accumulators of [averageLandmark]. *)
Record Sums := mkSums {
  sumX : Q;
  sumY : Q;
  sumZ : Q;
  sumVis : Q;
  count : nat
}.

Definition noSums : Sums :=
  {| sumX := 0; sumY := 0; sumZ := 0; sumVis := 0; count := 0 |}.

(** One iteration of [for (const pose of poses)], with its test
    [lm && (lm.visibility ?? 0) > 0.5] on [lm = pose.landmarks[i]]. *)
Definition accumulate (landmarkIndex : nat) (acc : Sums) (pose : PoseResult) : Sums :=
  match nth_error (landmarks pose) landmarkIndex with
  | Some lm =>
      if visible lm
      then {| sumX := sumX acc + lm_x lm;
              sumY := sumY acc + lm_y lm;
              sumZ := sumZ acc + lm_z lm;
              sumVis := sumVis acc
                        + match lm_visibility lm with Some v => v | None => 1 end;
              count := S (count acc) |}
      else acc
  | None => acc
  end.

Definition countQ (n : nat) : Q := inject_Z (Z.of_nat n).

Definition defaultLandmark : Landmark :=
  {| lm_x := 1 # 2; lm_y := 1 # 2; lm_z := 0; lm_visibility := Some 0 |}.

(** [averageLandmark], the closure of [calculateCalibration]. *)
Definition averageLandmark (poses : list PoseResult) (landmarkIndex : nat) : Landmark :=
  let acc := fold_left (accumulate landmarkIndex) poses noSums in
  if (count acc =? 0)%nat
  then defaultLandmark
  else {| lm_x := sumX acc / countQ (count acc);
          lm_y := sumY acc / countQ (count acc);
          lm_z := sumZ acc / countQ (count acc);
          lm_visibility := Some (sumVis acc / countQ (count acc)) |}.

(** [calculateCalibration]; [dateNow] is the value of [Date.now()]. *)
Definition calculateCalibration (poses : list PoseResult) (dateNow : Q)
  : CalibrationData :=
  let lHip := averageLandmark poses LEFT_HIP in
  let rHip := averageLandmark poses RIGHT_HIP in
  let lShoulder := averageLandmark poses LEFT_SHOULDER in
  let rShoulder := averageLandmark poses RIGHT_SHOULDER in
  {| leftHip := lHip;
     rightHip := rHip;
     leftShoulder := lShoulder;
     rightShoulder := rShoulder;
     nose := averageLandmark poses NOSE;
     leftWrist := averageLandmark poses LEFT_WRIST;
     rightWrist := averageLandmark poses RIGHT_WRIST;
     hipCenterY := (lm_y lHip + lm_y rHip) / 2;
     shoulderCenterY := (lm_y lShoulder + lm_y rShoulder) / 2;
     cal_timestamp := dateNow |}.

End Calibration.

(** ** useGameEngine.ts *)

Module GameEngine.

Import GameConstants.
Open Scope Q_scope.

Inductive GameStatus := Idle | Countdown | Playing | Paused | Ended.

Definition status_eqb (a b : GameStatus) : bool :=
  match a, b with
  | Idle, Idle | Countdown, Countdown | Playing, Playing
  | Paused, Paused | Ended, Ended => true
  | _, _ => false
  end.

(** The id string [arrow-${counter}-${Date.now()}], as its two numbers. *)
Record ArrowId := mkArrowId {
  id_counter : Z;
  id_date : Z
}.

Definition id_eqb (a b : ArrowId) : bool :=
  (id_counter a =? id_counter b)%Z && (id_date a =? id_date b)%Z.

Record Arrow := mkArrow {
  arrow_id : ArrowId;
  lane : nat;
  spawnTime : Q;
  position : Q;
  hit : bool;
  missed : bool;
  hitRating : option HitRating
}.

Record GameState := mkGameState {
  status : GameStatus;
  score : Z;
  combo : Z;
  maxCombo : Z;
  perfectHits : Z;
  goodHits : Z;
  misses : Z;
  arrows : list Arrow;
  difficulty : Difficulty
}.

Record GameStats := mkGameStats {
  stats_score : Z;
  stats_maxCombo : Z;
  stats_perfectHits : Z;
  stats_goodHits : Z;
  stats_misses : Z;
  stats_totalArrows : Z;
  stats_accuracy : Q;
  stats_duration : Q
}.

Record HitResult := mkHitResult {
  hr_hit : bool;
  hr_arrow : option Arrow;
  hr_rating : option HitRating;
  hr_score : option Z
}.

Record GestureEvent := mkGestureEvent {
  ev_type : Gesture;
  ev_timestamp : Q;
  ev_confidence : Q
}.

(** A call of one of the collaborator callbacks of [UseGameEngineOptions]. *)
Inductive Notification :=
| OnHit (result : HitResult)
| OnMiss (arrow : Arrow)
| OnComboChange (combo multiplier : Z)
| OnGameEnd (stats : GameStats).

(** The cells of the hook: the four [useState] cells, then the refs.
    [animationFrameRef] is [true] while the ref holds a frame handle (the
    code only tests the handle for truthiness); [countdownIntervalRef]
    holds, while the ref holds the handle of a live interval of [start],
    the [count] variable the callback of that interval closes over;
    [leakedIntervals] are the [count] variables of the intervals that are
    alive although the ref holds their handle no more ([start] overwrites
    the ref without clearing the interval it held); [notifications] is the
    log of collaborator calls, oldest first: an event logs the calls its
    handler makes itself, then the calls of the state updater it queues,
    which React makes when it runs the updater. *)
Record Engine := mkEngine {
  gameState : GameState;
  countdown : option Z;
  gameDuration : Q;
  finalStats : option GameStats;
  gameStateRef : GameState;
  animationFrameRef : bool;
  lastFrameTimeRef : Q;
  gameStartTimeRef : Q;
  lastSpawnTimeRef : Q;
  arrowIdCounterRef : Z;
  countdownIntervalRef : option Z;
  leakedIntervals : list Z;
  totalArrowsSpawnedRef : Z;
  notifications : list Notification
}.

(** [createInitialGameState] *)
Definition createInitialGameState (d : Difficulty) : GameState :=
  {| status := Idle; score := 0; combo := 0; maxCombo := 0;
     perfectHits := 0; goodHits := 0; misses := 0;
     arrows := []; difficulty := d |}.

(** The hook after its first render, with [initialDifficulty = d]. *)
Definition initialEngine (d : Difficulty) : Engine :=
  {| gameState := createInitialGameState d;
     countdown := None;
     gameDuration := 0;
     finalStats := None;
     gameStateRef := createInitialGameState d;
     animationFrameRef := false;
     lastFrameTimeRef := 0;
     gameStartTimeRef := 0;
     lastSpawnTimeRef := 0;
     arrowIdCounterRef := 0;
     countdownIntervalRef := None;
     leakedIntervals := [];
     totalArrowsSpawnedRef := 0;
     notifications := [] |}.

(** [{...prev, status: s}] *)
Definition withStatus (prev : GameState) (s : GameStatus) : GameState :=
  {| status := s; score := score prev; combo := combo prev;
     maxCombo := maxCombo prev; perfectHits := perfectHits prev;
     goodHits := goodHits prev; misses := misses prev;
     arrows := arrows prev; difficulty := difficulty prev |}.

(** [{...prev, difficulty: d}] *)
Definition withDifficulty (prev : GameState) (d : Difficulty) : GameState :=
  {| status := status prev; score := score prev; combo := combo prev;
     maxCombo := maxCombo prev; perfectHits := perfectHits prev;
     goodHits := goodHits prev; misses := misses prev;
     arrows := arrows prev; difficulty := d |}.

(** [setGameState]: the state cell changes, the ref does not. *)
Definition setGameState (e : Engine) (gs : GameState) : Engine :=
  {| gameState := gs;
     countdown := countdown e;
     gameDuration := gameDuration e;
     finalStats := finalStats e;
     gameStateRef := gameStateRef e;
     animationFrameRef := animationFrameRef e;
     lastFrameTimeRef := lastFrameTimeRef e;
     gameStartTimeRef := gameStartTimeRef e;
     lastSpawnTimeRef := lastSpawnTimeRef e;
     arrowIdCounterRef := arrowIdCounterRef e;
     countdownIntervalRef := countdownIntervalRef e;
     leakedIntervals := leakedIntervals e;
     totalArrowsSpawnedRef := totalArrowsSpawnedRef e;
     notifications := notifications e |}.

(** A collaborator callback is called. *)
Definition notify (e : Engine) (ns : list Notification) : Engine :=
  {| gameState := gameState e;
     countdown := countdown e;
     gameDuration := gameDuration e;
     finalStats := finalStats e;
     gameStateRef := gameStateRef e;
     animationFrameRef := animationFrameRef e;
     lastFrameTimeRef := lastFrameTimeRef e;
     gameStartTimeRef := gameStartTimeRef e;
     lastSpawnTimeRef := lastSpawnTimeRef e;
     arrowIdCounterRef := arrowIdCounterRef e;
     countdownIntervalRef := countdownIntervalRef e;
     leakedIntervals := leakedIntervals e;
     totalArrowsSpawnedRef := totalArrowsSpawnedRef e;
     notifications := notifications e ++ ns |}.

(** The effect [gameStateRef.current = gameState], run after a render. *)
Definition commit (e : Engine) : Engine :=
  {| gameState := gameState e;
     countdown := countdown e;
     gameDuration := gameDuration e;
     finalStats := finalStats e;
     gameStateRef := gameState e;
     animationFrameRef := animationFrameRef e;
     lastFrameTimeRef := lastFrameTimeRef e;
     gameStartTimeRef := gameStartTimeRef e;
     lastSpawnTimeRef := lastSpawnTimeRef e;
     arrowIdCounterRef := arrowIdCounterRef e;
     countdownIntervalRef := countdownIntervalRef e;
     leakedIntervals := leakedIntervals e;
     totalArrowsSpawnedRef := totalArrowsSpawnedRef e;
     notifications := notifications e |}.

(** *** Arrow helpers of the game loop *)

(** [pattern.map(p => ({ id: generateArrowId(), ... }))]: each arrow
    increments the id counter before using it.  [dateNow] is the value of
    [Date.now()], taken as the same for the arrows of one pattern. *)
Fixpoint makeArrows (pattern : Pattern) (currentTime : Q) (counter dateNow : Z)
  : list Arrow :=
  match pattern with
  | [] => []
  | (l, delay) :: rest =>
      {| arrow_id := {| id_counter := counter + 1; id_date := dateNow |};
         lane := l;
         spawnTime := currentTime + delay;
         position := 0;
         hit := false;
         missed := false;
         hitRating := None |}
      :: makeArrows rest currentTime (counter + 1) dateNow
  end.

(** [spawnArrows]: the new arrows, and the three refs it writes
    ([lastSpawnTimeRef], [arrowIdCounterRef], [totalArrowsSpawnedRef]). *)
Definition spawnArrows (lastSpawn : Q) (idCounter total : Z)
    (currentTime : Q) (d : Difficulty) (random random2 : Q) (dateNow : Z)
  : list Arrow * (Q * Z * Z) :=
  let timeSinceLastSpawn := currentTime - lastSpawn in
  if Num.ltb timeSinceLastSpawn (spawnInterval d)
  then ([], (lastSpawn, idCounter, total))
  else
    let pattern := selectRandomPattern d random random2 in
    let newArrows := makeArrows pattern currentTime idCounter dateNow in
    (newArrows,
     (currentTime,
      (idCounter + Z.of_nat (length newArrows))%Z,
      (total + Z.of_nat (length newArrows))%Z)).

(** [{...arrow, position}] *)
Definition withPosition (arrow : Arrow) (p : Q) : Arrow :=
  {| arrow_id := arrow_id arrow; lane := lane arrow;
     spawnTime := spawnTime arrow; position := p;
     hit := hit arrow; missed := missed arrow;
     hitRating := hitRating arrow |}.

(** [updateArrowPositions] *)
Definition updateArrowPositions (arrs : list Arrow) (currentTime : Q) (d : Difficulty)
  : list Arrow :=
  map (fun arrow =>
         if hit arrow || missed arrow
         then arrow
         else
           let timeSinceSpawn := currentTime - spawnTime arrow in
           withPosition arrow (Num.max 0 (timeSinceSpawn / arrowTravelTime d)))
      arrs.

(** [{...arrow, missed: true, hitRating: 'miss'}] *)
Definition asMissed (arrow : Arrow) : Arrow :=
  {| arrow_id := arrow_id arrow; lane := lane arrow;
     spawnTime := spawnTime arrow; position := position arrow;
     hit := hit arrow; missed := true;
     hitRating := Some Miss |}.

(** [checkMissedArrows]: (updatedArrows, missCount, missedArrows). *)
Fixpoint checkMissedArrows (arrs : list Arrow) : list Arrow * Z * list Arrow :=
  match arrs with
  | [] => ([], 0%Z, [])
  | arrow :: rest =>
      let '(updated, missCount, missedArrows) := checkMissedArrows rest in
      if hit arrow || missed arrow
      then (arrow :: updated, missCount, missedArrows)
      else if hasMissedHitZone (position arrow)
      then (asMissed arrow :: updated, (missCount + 1)%Z, asMissed arrow :: missedArrows)
      else (arrow :: updated, missCount, missedArrows)
  end.

(** [cleanupArrows] *)
Definition cleanupArrows (arrs : list Arrow) : list Arrow :=
  filter (fun arrow => if Num.ltb (15 # 10) (position arrow) then false else true) arrs.

(** *** The game loop *)

(** The frame callback [gameLoopRef.current(timestamp)].  It reads the
    session through [gameStateRef] and writes it through the updater of
    [setGameState], whose [prev] is the state cell. *)
Definition gameLoop (timestamp random random2 : Q) (dateNow : Z) (e : Engine) : Engine :=
  let state := gameStateRef e in
  if negb (status_eqb (status state) Playing)
  then e
  else
    let currentGameDuration := timestamp - gameStartTimeRef e in
    let '(newArrows, (lastSpawn', idCounter', total')) :=
      spawnArrows (lastSpawnTimeRef e) (arrowIdCounterRef e) (totalArrowsSpawnedRef e)
                  timestamp (difficulty state) random random2 dateNow in
    let updated :=
      updateArrowPositions (arrows state ++ newArrows) timestamp (difficulty state) in
    let '(arrowsAfterMiss, missCount, missedArrows) := checkMissedArrows updated in
    let updatedArrows := cleanupArrows arrowsAfterMiss in
    let prev := gameState e in
    let newCombo := if (missCount >? 0)%Z then 0%Z else combo prev in
    {| gameState :=
         {| status := status prev; score := score prev; combo := newCombo;
            maxCombo := maxCombo prev; perfectHits := perfectHits prev;
            goodHits := goodHits prev; misses := (misses prev + missCount)%Z;
            arrows := updatedArrows; difficulty := difficulty prev |};
       countdown := countdown e;
       gameDuration := currentGameDuration;
       finalStats := finalStats e;
       gameStateRef := gameStateRef e;
       animationFrameRef := true;
       lastFrameTimeRef := timestamp;
       gameStartTimeRef := gameStartTimeRef e;
       lastSpawnTimeRef := lastSpawn';
       arrowIdCounterRef := idCounter';
       countdownIntervalRef := countdownIntervalRef e;
       leakedIntervals := leakedIntervals e;
       totalArrowsSpawnedRef := total';
       notifications :=
         notifications e
         ++ map OnMiss missedArrows
         ++ (if (newCombo =? combo prev)%Z then []
             else [OnComboChange newCombo (getComboMultiplier newCombo)]) |}.

(** *** Life cycle *)

(** [start].  [setInterval] installs a new interval and its handle
    replaces the one in [countdownIntervalRef]; an interval the ref held
    is not cleared and goes on ticking. *)
Definition start (e : Engine) : Engine :=
  {| gameState :=
       withStatus (createInitialGameState (difficulty (gameState e))) Countdown;
     countdown := Some 3%Z;
     gameDuration := gameDuration e;
     finalStats := None;
     gameStateRef := gameStateRef e;
     animationFrameRef := animationFrameRef e;
     lastFrameTimeRef := lastFrameTimeRef e;
     gameStartTimeRef := gameStartTimeRef e;
     lastSpawnTimeRef := lastSpawnTimeRef e;
     arrowIdCounterRef := 0;
     countdownIntervalRef := Some 3%Z;
     leakedIntervals :=
       match countdownIntervalRef e with
       | Some count => leakedIntervals e ++ [count]
       | None => leakedIntervals e
       end;
     totalArrowsSpawnedRef := 0;
     notifications := notifications e |}.

(** The interval callback that [start] installs; it fires only while the
    interval is alive.  [perfNow] is the value of [performance.now()]. *)
Definition countdownTick (perfNow : Q) (e : Engine) : Engine :=
  match countdownIntervalRef e with
  | None => e
  | Some count =>
      let count' := (count - 1)%Z in
      if (count' >? 0)%Z
      then
        {| gameState := gameState e;
           countdown := Some count';
           gameDuration := gameDuration e;
           finalStats := finalStats e;
           gameStateRef := gameStateRef e;
           animationFrameRef := animationFrameRef e;
           lastFrameTimeRef := lastFrameTimeRef e;
           gameStartTimeRef := gameStartTimeRef e;
           lastSpawnTimeRef := lastSpawnTimeRef e;
           arrowIdCounterRef := arrowIdCounterRef e;
           countdownIntervalRef := Some count';
           leakedIntervals := leakedIntervals e;
           totalArrowsSpawnedRef := totalArrowsSpawnedRef e;
           notifications := notifications e |}
      else
        {| gameState := withStatus (gameState e) Playing;
           countdown := None;
           gameDuration := gameDuration e;
           finalStats := finalStats e;
           gameStateRef := gameStateRef e;
           animationFrameRef := true;
           lastFrameTimeRef := perfNow;
           gameStartTimeRef := perfNow;
           lastSpawnTimeRef := perfNow;
           arrowIdCounterRef := arrowIdCounterRef e;
           countdownIntervalRef := None;
           leakedIntervals := leakedIntervals e;
           totalArrowsSpawnedRef := totalArrowsSpawnedRef e;
           notifications := notifications e |}
  end.

(** The same callback, firing for the [i]-th of the intervals that the
    ref does not hold: it counts on its own [count]; when that is used up
    it clears the interval the ref holds at that moment, not itself, and
    starts the game, and it does so again at each later tick. *)
Definition leakedTick (i : nat) (perfNow : Q) (e : Engine) : Engine :=
  match nth_error (leakedIntervals e) i with
  | None => e
  | Some count =>
      let count' := (count - 1)%Z in
      let leaked' :=
        firstn i (leakedIntervals e) ++ count' :: skipn (S i) (leakedIntervals e) in
      if (count' >? 0)%Z
      then
        {| gameState := gameState e;
           countdown := Some count';
           gameDuration := gameDuration e;
           finalStats := finalStats e;
           gameStateRef := gameStateRef e;
           animationFrameRef := animationFrameRef e;
           lastFrameTimeRef := lastFrameTimeRef e;
           gameStartTimeRef := gameStartTimeRef e;
           lastSpawnTimeRef := lastSpawnTimeRef e;
           arrowIdCounterRef := arrowIdCounterRef e;
           countdownIntervalRef := countdownIntervalRef e;
           leakedIntervals := leaked';
           totalArrowsSpawnedRef := totalArrowsSpawnedRef e;
           notifications := notifications e |}
      else
        {| gameState := withStatus (gameState e) Playing;
           countdown := None;
           gameDuration := gameDuration e;
           finalStats := finalStats e;
           gameStateRef := gameStateRef e;
           animationFrameRef := true;
           lastFrameTimeRef := perfNow;
           gameStartTimeRef := perfNow;
           lastSpawnTimeRef := perfNow;
           arrowIdCounterRef := arrowIdCounterRef e;
           countdownIntervalRef := None;
           leakedIntervals := leaked';
           totalArrowsSpawnedRef := totalArrowsSpawnedRef e;
           notifications := notifications e |}
  end.

(** [pause] *)
Definition pause (e : Engine) : Engine :=
  if negb (status_eqb (status (gameStateRef e)) Playing)
  then e
  else
    {| gameState := withStatus (gameState e) Paused;
       countdown := countdown e;
       gameDuration := gameDuration e;
       finalStats := finalStats e;
       gameStateRef := gameStateRef e;
       animationFrameRef := false;
       lastFrameTimeRef := lastFrameTimeRef e;
       gameStartTimeRef := gameStartTimeRef e;
       lastSpawnTimeRef := lastSpawnTimeRef e;
       arrowIdCounterRef := arrowIdCounterRef e;
       countdownIntervalRef := countdownIntervalRef e;
       leakedIntervals := leakedIntervals e;
       totalArrowsSpawnedRef := totalArrowsSpawnedRef e;
       notifications := notifications e |}.

(** [resume]; [perfNow] is the value of [performance.now()]. *)
Definition resume (perfNow : Q) (e : Engine) : Engine :=
  if negb (status_eqb (status (gameStateRef e)) Paused)
  then e
  else
    {| gameState := withStatus (gameState e) Playing;
       countdown := countdown e;
       gameDuration := gameDuration e;
       finalStats := finalStats e;
       gameStateRef := gameStateRef e;
       animationFrameRef := true;
       lastFrameTimeRef := perfNow;
       gameStartTimeRef := gameStartTimeRef e;
       lastSpawnTimeRef := lastSpawnTimeRef e;
       arrowIdCounterRef := arrowIdCounterRef e;
       countdownIntervalRef := countdownIntervalRef e;
       leakedIntervals := leakedIntervals e;
       totalArrowsSpawnedRef := totalArrowsSpawnedRef e;
       notifications := notifications e |}.

(** The [stats] object that [end] builds. *)
Definition computeStats (state : GameState) (totalArrowsSpawned : Z) (duration : Q)
  : GameStats :=
  let totalHits := (perfectHits state + goodHits state)%Z in
  let totalAttempts := (totalHits + misses state)%Z in
  {| stats_score := score state;
     stats_maxCombo := maxCombo state;
     stats_perfectHits := perfectHits state;
     stats_goodHits := goodHits state;
     stats_misses := misses state;
     stats_totalArrows := totalArrowsSpawned;
     stats_accuracy :=
       if (totalAttempts >? 0)%Z
       then (inject_Z totalHits / inject_Z totalAttempts) * 100
       else 0;
     stats_duration := duration |}.

(** [end]; the function tests no status.  [duration] is the
    [gameDuration] of the render that made the callback; the state cell
    stands for it, which is that value whenever [end] is called on a
    rendered hook. *)
Definition end_ (e : Engine) : Engine :=
  let stats :=
    computeStats (gameStateRef e) (totalArrowsSpawnedRef e) (gameDuration e) in
  {| gameState := withStatus (gameState e) Ended;
     countdown := None;
     gameDuration := gameDuration e;
     finalStats := Some stats;
     gameStateRef := gameStateRef e;
     animationFrameRef := false;
     lastFrameTimeRef := lastFrameTimeRef e;
     gameStartTimeRef := gameStartTimeRef e;
     lastSpawnTimeRef := lastSpawnTimeRef e;
     arrowIdCounterRef := arrowIdCounterRef e;
     countdownIntervalRef := None;
     leakedIntervals := leakedIntervals e;
     totalArrowsSpawnedRef := totalArrowsSpawnedRef e;
     notifications := notifications e ++ [OnGameEnd stats] |}.

(** [reset] *)
Definition reset (e : Engine) : Engine :=
  {| gameState := createInitialGameState (difficulty (gameState e));
     countdown := None;
     gameDuration := 0;
     finalStats := None;
     gameStateRef := gameStateRef e;
     animationFrameRef := false;
     lastFrameTimeRef := lastFrameTimeRef e;
     gameStartTimeRef := gameStartTimeRef e;
     lastSpawnTimeRef := lastSpawnTimeRef e;
     arrowIdCounterRef := 0;
     countdownIntervalRef := None;
     leakedIntervals := leakedIntervals e;
     totalArrowsSpawnedRef := 0;
     notifications := notifications e |}.

(** [setDifficulty] *)
Definition setDifficulty (d : Difficulty) (e : Engine) : Engine :=
  setGameState e (withDifficulty (gameState e) d).

(** *** Hit matching *)

(** [Math.abs(a.position - HIT_ZONE.PERFECT_START)] *)
Definition perfectDistance (a : Arrow) : Q :=
  Num.abs (position a - PERFECT_START).

(** [Array.prototype.sort] with the comparator [aDist - bDist]: the sort
    is stable, so it is determined by the comparator; here as an
    insertion sort that keeps equal keys in their order. *)
Fixpoint insertByDistance (a : Arrow) (sorted : list Arrow) : list Arrow :=
  match sorted with
  | [] => [a]
  | b :: rest =>
      if Num.leb (perfectDistance a) (perfectDistance b)
      then a :: b :: rest
      else b :: insertByDistance a rest
  end.

Definition sortByDistance (arrs : list Arrow) : list Arrow :=
  fold_right insertByDistance [] arrs.

(** The predicate of the [filter] in [processGesture]. *)
Definition isTarget (gestureLane : nat) (arrow : Arrow) : bool :=
  (lane arrow =? gestureLane)%nat
  && negb (hit arrow) && negb (missed arrow)
  && isInHitZone (position arrow).

(** [{...arrow, hit: true, hitRating: rating}] *)
Definition asHit (arrow : Arrow) (rating : HitRating) : Arrow :=
  {| arrow_id := arrow_id arrow; lane := lane arrow;
     spawnTime := spawnTime arrow; position := position arrow;
     hit := true; missed := missed arrow;
     hitRating := Some rating |}.

Definition noHit : HitResult :=
  {| hr_hit := false; hr_arrow := None; hr_rating := None; hr_score := None |}.

(** [processGesture]: the returned [HitResult] and the hook afterwards.
    As in [gameLoop], the session is read through [gameStateRef] and
    written through the updater on the state cell.  [onHit] is called by
    the handler, [onComboChange] by the updater it has queued. *)
Definition processGesture (g : GestureEvent) (e : Engine) : HitResult * Engine :=
  let state := gameStateRef e in
  if negb (status_eqb (status state) Playing)
  then (noHit, e)
  else
    let gestureLane := GESTURE_TO_LANE (ev_type g) in
    let targetArrows :=
      sortByDistance (filter (isTarget gestureLane) (arrows state)) in
    match targetArrows with
    | [] => (noHit, e)
    | hitArrow :: _ =>
        let rating := getHitRating (position hitArrow) in
        match rating with
        | Miss => (noHit, e)
        | _ =>
            let newCombo := (combo state + 1)%Z in
            let points := calculateHitScore rating newCombo in
            let prev := gameState e in
            let result :=
              {| hr_hit := true; hr_arrow := Some hitArrow;
                 hr_rating := Some rating; hr_score := Some points |} in
            (result,
             notify
               (setGameState e
                  {| status := status prev;
                     score := (score prev + points)%Z;
                     combo := newCombo;
                     maxCombo := Z.max (maxCombo prev) newCombo;
                     perfectHits :=
                       match rating with
                       | Perfect => (perfectHits prev + 1)%Z
                       | _ => perfectHits prev
                       end;
                     goodHits :=
                       match rating with
                       | Good => (goodHits prev + 1)%Z
                       | _ => goodHits prev
                       end;
                     misses := misses prev;
                     arrows :=
                       map (fun arrow =>
                              if id_eqb (arrow_id arrow) (arrow_id hitArrow)
                              then asHit arrow rating
                              else arrow)
                           (arrows prev);
                     difficulty := difficulty prev |})
               [OnHit result;
                OnComboChange newCombo (getComboMultiplier newCombo)])
        end
    end.

(** *** Runs of the hook *)

(** The events that can reach the hook. *)
Inductive Op :=
| OpStart
| OpCountdownTick (perfNow : Q)
| OpLeakedTick (i : nat) (perfNow : Q)
| OpFrame (timestamp random random2 : Q) (dateNow : Z)
| OpGesture (g : GestureEvent)
| OpPause
| OpResume (perfNow : Q)
| OpEnd
| OpReset
| OpSetDifficulty (d : Difficulty).

(** What an event does by itself: [gameStateRef] stays as it is until the
    hook renders. *)
Definition handle (e : Engine) (op : Op) : Engine :=
  match op with
  | OpStart => start e
  | OpCountdownTick perfNow => countdownTick perfNow e
  | OpLeakedTick i perfNow => leakedTick i perfNow e
  | OpFrame timestamp random random2 dateNow =>
      gameLoop timestamp random random2 dateNow e
  | OpGesture g => snd (processGesture g e)
  | OpPause => pause e
  | OpResume perfNow => resume perfNow e
  | OpEnd => end_ e
  | OpReset => reset e
  | OpSetDifficulty d => setDifficulty d e
  end.

(** The executions of the hook: events, and renders wherever React
    places them.  The frame callback and the pose callback of one
    animation frame run with no render between them. *)
Inductive Event :=
| Handle (op : Op)
| Render.

Definition react (e : Engine) (ev : Event) : Engine :=
  match ev with
  | Handle op => handle e op
  | Render => commit e
  end.

Definition exec (e : Engine) (evs : list Event) : Engine := fold_left react evs e.

(** The executions in which every event is followed by a render, which
    brings [gameStateRef] up to date before the next event. *)
Definition step (e : Engine) (op : Op) : Engine := commit (handle e op).

Definition run (e : Engine) (ops : list Op) : Engine := fold_left step ops e.

(** [start] and [reset] are the events that empty the arrow collection. *)
Definition clearsArrows (op : Op) : bool :=
  match op with OpStart | OpReset => true | _ => false end.

(** An arrow is resolved once one of its two flags is set. *)
Definition resolved (a : Arrow) : bool := hit a || missed a.

End GameEngine.

From Stdlib Require String.

(** ** Lane tables and labels *)

Module LaneTables.

Import GameConstants.
Import String.

(** [LANE_TO_GESTURE] of gameConstants: a lookup by lane number; [None] is
    the [undefined] of a missing key. *)
Definition LANE_TO_GESTURE (l : nat) : option Gesture :=
  match l with
  | 0%nat => Some WaveLeft
  | 1%nat => Some Jump
  | 2%nat => Some WaveRight
  | _ => None
  end.

(** [getGestureLane] of gestureDetection.ts; its argument is a
    [GestureType], which includes [null]. *)
Definition getGestureLane (g : option Gesture) : option nat :=
  match g with
  | Some WaveLeft => Some 0%nat
  | Some Jump => Some 1%nat
  | Some WaveRight => Some 2%nat
  | None => None
  end.

End LaneTables.

(** ** GameOverModal.tsx: the helpers above the component *)

Module GameOverModal.

Import String.
Open Scope Q_scope.

(** [getRatingMessage]: (message, color). *)
Definition getRatingMessage (accuracy : Q) : string * string :=
  if Num.leb 95 accuracy then ("PERFECT!", "text-sonic-accent")%string
  else if Num.leb 85 accuracy then ("AMAZING!", "text-sonic-speed")%string
  else if Num.leb 70 accuracy then ("GREAT!", "text-green-400")%string
  else if Num.leb 50 accuracy then ("GOOD!", "text-yellow-400")%string
  else ("KEEP TRYING!", "text-white/70")%string.

End GameOverModal.

(** ** GestureRecognizer: the confidence level shown with a gesture *)

Module GestureRecognizer.

Import String.
Import GameConstants GameEngine.
Open Scope Q_scope.

(** The [useMemo] that computes [confidenceLevel] from [lastGestureEvent]. *)
Definition confidenceLevel (lastGestureEvent : option GestureEvent) : option string :=
  match lastGestureEvent with
  | None => None
  | Some ev =>
      if Num.leb (8 # 10) (ev_confidence ev) then Some "high"%string
      else if Num.leb (5 # 10) (ev_confidence ev) then Some "medium"%string
      else Some "low"%string
  end.

End GestureRecognizer.

(** ** useGestureDetection.ts *)

Module UseGestureDetection.

Import GameConstants Types GestureDetection GameEngine.
Open Scope Q_scope.

(** [GestureDetectionOptions]: every field is optional. *)
Record GestureDetectionOptions := mkHookOptions {
  opt_waveThreshold : option Q;
  opt_waveTimeWindow : option Q;
  opt_jumpThreshold : option Q;
  opt_debounceTime : option Q
}.

(** The destructuring with defaults at the head of the hook. *)
Definition withDefaults (o : GestureDetectionOptions) : GestureOptions :=
  {| waveThreshold :=
       match opt_waveThreshold o with
       | Some v => v | None => waveThreshold DEFAULT_GESTURE_OPTIONS end;
     waveTimeWindow :=
       match opt_waveTimeWindow o with
       | Some v => v | None => waveTimeWindow DEFAULT_GESTURE_OPTIONS end;
     jumpThreshold :=
       match opt_jumpThreshold o with
       | Some v => v | None => jumpThreshold DEFAULT_GESTURE_OPTIONS end;
     debounceTime :=
       match opt_debounceTime o with
       | Some v => v | None => debounceTime DEFAULT_GESTURE_OPTIONS end |}.

(** The cells of the hook: four [useState] cells, the tracking-state ref,
    whether the timeout that clears [currentGesture] is pending, and the
    calls of [onGesture], oldest first. *)
Record Hook := mkHook {
  currentGesture : option Gesture;
  lastGestureEvent : option GestureEvent;
  gestureCount : Z;
  isEnabled : bool;
  gestureStateRef : GestureTrackingState;
  gestureTimeoutPending : bool;
  delivered : list GestureEvent
}.

(** The hook after its first render, with [enabled = initialEnabled]. *)
Definition initialHook (initialEnabled : bool) : Hook :=
  {| currentGesture := None;
     lastGestureEvent := None;
     gestureCount := 0;
     isEnabled := initialEnabled;
     gestureStateRef := createInitialGestureState;
     gestureTimeoutPending := false;
     delivered := [] |}.

(** [processPose]; [calibration] and [options] are the arguments of the
    hook, [dateNow] the value of [Date.now()] during the call. *)
Definition processPose (calibration : option CalibrationData)
    (options : GestureDetectionOptions) (pose : option PoseResult) (dateNow : Q)
    (h : Hook) : Hook :=
  match calibration, pose with
  | Some cal, Some p =>
      if negb (isEnabled h)
      then h
      else
        let timestamp := pose_timestamp p in
        let result :=
          processGestureFrame (landmarks p) cal (gestureStateRef h) timestamp
            (withDefaults options) dateNow in
        match gesture result with
        | Some g =>
            let gestureEvent :=
              {| ev_type := g; ev_timestamp := timestamp;
                 ev_confidence := confidence result |} in
            {| currentGesture := Some g;
               lastGestureEvent := Some gestureEvent;
               gestureCount := (gestureCount h + 1)%Z;
               isEnabled := isEnabled h;
               gestureStateRef := newState result;
               gestureTimeoutPending := true;
               delivered := delivered h ++ [gestureEvent] |}
        | None =>
            {| currentGesture := currentGesture h;
               lastGestureEvent := lastGestureEvent h;
               gestureCount := gestureCount h;
               isEnabled := isEnabled h;
               gestureStateRef := newState result;
               gestureTimeoutPending := gestureTimeoutPending h;
               delivered := delivered h |}
        end
  | _, _ => h
  end.

(** The timeout installed by [clearGestureAfterDelay] fires. *)
Definition gestureTimeout (h : Hook) : Hook :=
  if gestureTimeoutPending h
  then
    {| currentGesture := None;
       lastGestureEvent := lastGestureEvent h;
       gestureCount := gestureCount h;
       isEnabled := isEnabled h;
       gestureStateRef := gestureStateRef h;
       gestureTimeoutPending := false;
       delivered := delivered h |}
  else h.

(** [reset] *)
Definition reset (h : Hook) : Hook :=
  {| currentGesture := None;
     lastGestureEvent := None;
     gestureCount := 0;
     isEnabled := isEnabled h;
     gestureStateRef := createInitialGestureState;
     gestureTimeoutPending := false;
     delivered := delivered h |}.

(** [enable] *)
Definition enable (h : Hook) : Hook :=
  {| currentGesture := currentGesture h;
     lastGestureEvent := lastGestureEvent h;
     gestureCount := gestureCount h;
     isEnabled := true;
     gestureStateRef := gestureStateRef h;
     gestureTimeoutPending := gestureTimeoutPending h;
     delivered := delivered h |}.

(** [disable] *)
Definition disable (h : Hook) : Hook :=
  {| currentGesture := None;
     lastGestureEvent := lastGestureEvent h;
     gestureCount := gestureCount h;
     isEnabled := false;
     gestureStateRef := gestureStateRef h;
     gestureTimeoutPending := gestureTimeoutPending h;
     delivered := delivered h |}.

(** The events that reach the hook. *)
Inductive HookOp :=
| HPose (pose : option PoseResult) (dateNow : Q)
| HTimeout
| HReset
| HEnable
| HDisable.

Definition hookStep (calibration : option CalibrationData)
    (options : GestureDetectionOptions) (h : Hook) (op : HookOp) : Hook :=
  match op with
  | HPose pose dateNow => processPose calibration options pose dateNow h
  | HTimeout => gestureTimeout h
  | HReset => reset h
  | HEnable => enable h
  | HDisable => disable h
  end.

Definition hookRun (calibration : option CalibrationData)
    (options : GestureDetectionOptions) (h : Hook) (ops : list HookOp) : Hook :=
  fold_left (hookStep calibration options) ops h.

End UseGestureDetection.


(** ** CalibrationScreen: the capture of the baseline frames *)

Module CalibrationScreen.

Import Types Calibration.
Open Scope Q_scope.

Inductive CalibrationStep :=
| WaitingCamera | WaitingPose | Countdown | Capturing | Complete.

Inductive CameraState :=
| CamIdle | CamRequesting | CamActive | CamDenied | CamError.

Definition step_eqb (a b : CalibrationStep) : bool :=
  match a, b with
  | WaitingCamera, WaitingCamera | WaitingPose, WaitingPose
  | Countdown, Countdown | Capturing, Capturing | Complete, Complete => true
  | _, _ => false
  end.

Definition COUNTDOWN_SECONDS : Z := 3.
Definition CAPTURE_FRAMES : nat := 15.

(** The state cells and refs of the component.  [countdownIntervalRef]
    tells whether the ref holds an interval handle; [calibrations] is the
    log of the calls of [onCalibrationComplete].  [mediaPipeState] is only
    displayed and is left out. *)
Record Screen := mkScreen {
  step : CalibrationStep;
  cameraState : CameraState;
  countdown : Z;
  poseDetected : bool;
  captureProgress : Q;
  capturedPosesRef : list PoseResult;
  countdownIntervalRef : bool;
  calibrations : list CalibrationData
}.

Definition initialScreen : Screen :=
  {| step := WaitingCamera;
     cameraState := CamIdle;
     countdown := COUNTDOWN_SECONDS;
     poseDetected := false;
     captureProgress := 0;
     capturedPosesRef := [];
     countdownIntervalRef := false;
     calibrations := [] |}.

Definition setStep (v : CalibrationStep) (s : Screen) : Screen :=
  {| step := v;
     cameraState := cameraState s;
     countdown := countdown s;
     poseDetected := poseDetected s;
     captureProgress := captureProgress s;
     capturedPosesRef := capturedPosesRef s;
     countdownIntervalRef := countdownIntervalRef s;
     calibrations := calibrations s |}.

Definition setCameraState (v : CameraState) (s : Screen) : Screen :=
  {| step := step s;
     cameraState := v;
     countdown := countdown s;
     poseDetected := poseDetected s;
     captureProgress := captureProgress s;
     capturedPosesRef := capturedPosesRef s;
     countdownIntervalRef := countdownIntervalRef s;
     calibrations := calibrations s |}.

Definition setCountdown (v : Z) (s : Screen) : Screen :=
  {| step := step s;
     cameraState := cameraState s;
     countdown := v;
     poseDetected := poseDetected s;
     captureProgress := captureProgress s;
     capturedPosesRef := capturedPosesRef s;
     countdownIntervalRef := countdownIntervalRef s;
     calibrations := calibrations s |}.

Definition setPoseDetected (v : bool) (s : Screen) : Screen :=
  {| step := step s;
     cameraState := cameraState s;
     countdown := countdown s;
     poseDetected := v;
     captureProgress := captureProgress s;
     capturedPosesRef := capturedPosesRef s;
     countdownIntervalRef := countdownIntervalRef s;
     calibrations := calibrations s |}.

Definition setCaptureProgress (v : Q) (s : Screen) : Screen :=
  {| step := step s;
     cameraState := cameraState s;
     countdown := countdown s;
     poseDetected := poseDetected s;
     captureProgress := v;
     capturedPosesRef := capturedPosesRef s;
     countdownIntervalRef := countdownIntervalRef s;
     calibrations := calibrations s |}.

Definition setCapturedPoses (v : list PoseResult) (s : Screen) : Screen :=
  {| step := step s;
     cameraState := cameraState s;
     countdown := countdown s;
     poseDetected := poseDetected s;
     captureProgress := captureProgress s;
     capturedPosesRef := v;
     countdownIntervalRef := countdownIntervalRef s;
     calibrations := calibrations s |}.

Definition setCountdownInterval (v : bool) (s : Screen) : Screen :=
  {| step := step s;
     cameraState := cameraState s;
     countdown := countdown s;
     poseDetected := poseDetected s;
     captureProgress := captureProgress s;
     capturedPosesRef := capturedPosesRef s;
     countdownIntervalRef := v;
     calibrations := calibrations s |}.

(** A call of [onCalibrationComplete]. *)
Definition calibrationComplete (data : CalibrationData) (s : Screen) : Screen :=
  {| step := step s;
     cameraState := cameraState s;
     countdown := countdown s;
     poseDetected := poseDetected s;
     captureProgress := captureProgress s;
     capturedPosesRef := capturedPosesRef s;
     countdownIntervalRef := countdownIntervalRef s;
     calibrations := calibrations s ++ [data] |}.

(** [(pose.landmarks[i]?.visibility ?? 0) > 0.5] *)
Definition visibleAt (pose : PoseResult) (i : nat) : bool :=
  match nth_error (landmarks pose) i with
  | Some lm => visible lm
  | None => false
  end.

(** [pose !== null && pose.landmarks.length >= 33] *)
Definition hasPose (pose : option PoseResult) : bool :=
  match pose with
  | Some p => (33 <=? length (landmarks p))%nat
  | None => false
  end.

(** [handlePoseUpdate].  [stepSeen] is the [step] of the render whose
    callback runs, which the callback closes over; [dateNow] is the
    [Date.now()] that [calculateCalibration] reads. *)
Definition handlePoseUpdate (stepSeen : CalibrationStep)
    (pose : option PoseResult) (dateNow : Q) (s : Screen) : Screen :=
  let s0 := setPoseDetected (hasPose pose) s in
  match pose with
  | Some p =>
      if hasPose pose then
        let hasKeyLandmarks :=
          visibleAt p LEFT_HIP && visibleAt p RIGHT_HIP
          && visibleAt p LEFT_SHOULDER && visibleAt p RIGHT_SHOULDER in
        let s1 :=
          if hasKeyLandmarks && step_eqb stepSeen WaitingPose
          then setCountdown COUNTDOWN_SECONDS (setStep Countdown s0)
          else s0 in
        if step_eqb stepSeen Capturing
           && (length (capturedPosesRef s1) <? CAPTURE_FRAMES)%nat
        then
          let captured := capturedPosesRef s1 ++ [p] in
          let s2 :=
            setCaptureProgress (countQ (length captured) / countQ CAPTURE_FRAMES)
              (setCapturedPoses captured s1) in
          if (CAPTURE_FRAMES <=? length captured)%nat
          then calibrationComplete (calculateCalibration captured dateNow)
                 (setStep Complete s2)
          else s2
        else s1
      else if step_eqb stepSeen Countdown
      then setCountdownInterval false
             (setCountdown COUNTDOWN_SECONDS (setStep WaitingPose s0))
      else s0
  | None =>
      if step_eqb stepSeen Countdown
      then setCountdownInterval false
             (setCountdown COUNTDOWN_SECONDS (setStep WaitingPose s0))
      else s0
  end.

(** [handleCameraStateChange] *)
Definition handleCameraStateChange (state : CameraState) (s : Screen) : Screen :=
  let s0 := setCameraState state s in
  match state with
  | CamActive => setStep WaitingPose s0
  | _ => s0
  end.

(** The body of the countdown effect, run after a render whose [step] is
    [stepSeen]: it installs the interval. *)
Definition countdownEffect (stepSeen : CalibrationStep) (s : Screen) : Screen :=
  if step_eqb stepSeen Countdown then setCountdownInterval true s else s.

(** A tick of the interval: the updater passed to [setCountdown], with
    what it does besides computing the next count.  [clearInterval] leaves
    the ref as it is. *)
Definition countdownTick (s : Screen) : Screen :=
  if (countdown s <=? 1)%Z
  then setCountdown 0
         (setCaptureProgress 0 (setCapturedPoses [] (setStep Capturing s)))
  else setCountdown (countdown s - 1) s.

(** The events that reach the component. *)
Inductive ScreenEvent :=
| EvPose (stepSeen : CalibrationStep) (pose : option PoseResult) (dateNow : Q)
| EvCamera (state : CameraState)
| EvEffect (stepSeen : CalibrationStep)
| EvTick.

Definition screenStep (s : Screen) (ev : ScreenEvent) : Screen :=
  match ev with
  | EvPose stepSeen pose dateNow => handlePoseUpdate stepSeen pose dateNow s
  | EvCamera state => handleCameraStateChange state s
  | EvEffect stepSeen => countdownEffect stepSeen s
  | EvTick => countdownTick s
  end.

Definition screenRun (s : Screen) (evs : list ScreenEvent) : Screen :=
  fold_left screenStep evs s.

End CalibrationScreen.
(** ** Calibration averaging, as the specification words it *)

Module CalibrationSpec.

Import Types Calibration.
Open Scope Q_scope.

(** The samples that contribute to the average of landmark [i]: from each
    frame its landmark [i], when present with visibility above 0.5. *)
Definition qualifyingSamples (poses : list PoseResult) (i : nat) : list Landmark :=
  flat_map
    (fun pose =>
       match nth_error (landmarks pose) i with
       | Some lm => if visible lm then [lm] else []
       | None => []
       end)
    poses.

Definition total (f : Landmark -> Q) (l : list Landmark) : Q :=
  fold_left (fun a lm => a + f lm) l 0.

Definition visibilityOf (lm : Landmark) : Q :=
  match lm_visibility lm with Some v => v | None => 0 end.

(** The average of a list of samples, and the default when it is empty. *)
Definition averageOf (l : list Landmark) : Landmark :=
  match l with
  | [] => {| lm_x := 1 # 2; lm_y := 1 # 2; lm_z := 0; lm_visibility := Some 0 |}
  | _ :: _ =>
      {| lm_x := total lm_x l / countQ (length l);
         lm_y := total lm_y l / countQ (length l);
         lm_z := total lm_z l / countQ (length l);
         lm_visibility := Some (total visibilityOf l / countQ (length l)) |}
  end.

End CalibrationSpec.

(** ** Vocabulary of the classifier properties *)

Module GestureSpec.

Import GestureDetection.
Open Scope Q_scope.

(** A monotonic sequence of samples: each height above the one before. *)
Fixpoint rising (l : list PositionSample) : Prop :=
  match l with
  | a :: (b :: _) as rest => ps_y a < ps_y b /\ rising rest
  | _ => True
  end.

End GestureSpec.

(** ** Vocabulary of the engine properties *)

Module EngineSpec.

Import GameConstants GameEngine.
Open Scope Q_scope.

(** The ref mirrors the state cell: the hook has rendered since the last
    update of the session. *)
Definition synced (e : Engine) : Prop := gameStateRef e = gameState e.

(** A candidate for a gesture of lane [l]: an arrow of the session in that
    lane, neither hit nor missed, with its position in [0.85, 1.0]. *)
Definition Candidate (gs : GameState) (l : nat) (a : Arrow) : Prop :=
  In a (arrows gs) /\ lane a = l /\ hit a = false /\ missed a = false
  /\ 85 # 100 <= position a /\ position a <= 1.

(** The arrows of a frame after the spawn and advance steps of
    [gameLoop], before miss detection. *)
Definition frameArrows (timestamp random random2 : Q) (dateNow : Z) (e : Engine)
  : list Arrow :=
  let state := gameStateRef e in
  updateArrowPositions
    (arrows state
       ++ fst (spawnArrows (lastSpawnTimeRef e) (arrowIdCounterRef e)
                 (totalArrowsSpawnedRef e) timestamp (difficulty state)
                 random random2 dateNow))
    timestamp (difficulty state).

(** An arrow that the miss detection of this frame marks: unresolved and
    past the hit line. *)
Definition becomesMissed (a : Arrow) : bool :=
  negb (resolved a) && Num.ltb 1 (position a).

(** What the miss detection of a frame does to one arrow. *)
Definition markIfMissed (a : Arrow) : Arrow :=
  if becomesMissed a then asMissed a else a.

(** The order the comparator of [processGesture] sorts by. *)
Definition byDistance (a b : Arrow) : Prop :=
  perfectDistance a <= perfectDistance b.

(** The session still holds arrow [a], resolved and where it was. *)
Definition Kept (a : Arrow) (e : Engine) : Prop :=
  exists a',
    In a' (arrows (gameState e))
    /\ arrow_id a' = arrow_id a
    /\ position a' = position a
    /\ resolved a' = true.

(** The number that [generateArrowId] gave an arrow. *)
Definition counterOf (a : Arrow) : Z := id_counter (arrow_id a).

(** The arrows of the session carry distinct numbers, all handed out
    already. *)
Definition idsInOrder (e : Engine) : Prop :=
  NoDup (map counterOf (arrows (gameState e)))
  /\ Forall (fun a => (counterOf a <= arrowIdCounterRef e)%Z) (arrows (gameState e)).

(** Runs that neither start nor reset the session. *)
Definition keepsArrows (ops : list Op) : Prop :=
  Forall (fun op => clearsArrows op = false) ops.

(** The events [ops], each followed by a render. *)
Definition rendered (ops : list Op) : list Event :=
  flat_map (fun op => [Handle op; Render]) ops.

(** The arrow of the collection that [generateArrowId] numbered [n]. *)
Definition arrowNumbered (n : Z) (gs : GameState) : option Arrow :=
  find (fun a => (counterOf a =? n)%Z) (arrows gs).

(** What the examples show of an arrow: its two flags, its rating, and
    whether it is drawn at position [p]. *)
Definition rating_eqb (a b : option HitRating) : bool :=
  match a, b with
  | Some Perfect, Some Perfect | Some Good, Some Good | Some Miss, Some Miss
  | None, None => true
  | _, _ => false
  end.

Definition shows (hitFlag missedFlag : bool) (rating : option HitRating) (p : Q)
    (a : option Arrow) : bool :=
  match a with
  | Some arrow =>
      Bool.eqb (hit arrow) hitFlag && Bool.eqb (missed arrow) missedFlag
      && rating_eqb (hitRating arrow) rating && Qeq_bool (position arrow) p
  | None => false
  end.

End EngineSpec.

(** ** Concrete inputs used by the examples of Part II *)

Module Scenarios.

Import GameConstants Types GestureDetection.
Open Scope Q_scope.

(** Three samples that only rise: 0.50, 0.55, 0.60 at 0, 150, 300 ms. *)
Definition monotonicRise : list PositionSample :=
  [ {| ps_y := 50 # 100; ps_timestamp := 0 |};
    {| ps_y := 55 # 100; ps_timestamp := 150 |};
    {| ps_y := 60 # 100; ps_timestamp := 300 |} ].

(** The same rise of 0.10 over 300 ms, followed by a fall. *)
Definition riseThenFall : list PositionSample :=
  monotonicRise
    ++ [ {| ps_y := 54 # 100; ps_timestamp := 400 |};
         {| ps_y := 50 # 100; ps_timestamp := 480 |} ].

(** A landmark at height [y] with the given visibility. *)
Definition at_height (y vis : Q) : Landmark :=
  {| lm_x := 1 # 2; lm_y := y; lm_z := 0; lm_visibility := Some vis |}.

(** A 33-slot pose: every landmark at height 0.5 with visibility [vis],
    but the wrists (slots 15, 16), which get visibility [wristVis], and
    the hips (slots 23, 24), which are at height [hipY]. *)
Definition poseWith (vis wristVis hipY : Q) : list Landmark :=
  repeat (at_height (1 # 2) vis) 15
    ++ [at_height (1 # 2) wristVis; at_height (1 # 2) wristVis]
    ++ repeat (at_height (1 # 2) vis) 6
    ++ [at_height hipY vis; at_height hipY vis]
    ++ repeat (at_height (1 # 2) vis) 8.

(** A baseline with the hips at height 0.6. *)
Definition baseline : CalibrationData :=
  {| leftHip := at_height (6 # 10) (9 # 10);
     rightHip := at_height (6 # 10) (9 # 10);
     leftShoulder := at_height (3 # 10) (9 # 10);
     rightShoulder := at_height (3 # 10) (9 # 10);
     nose := at_height (1 # 10) (9 # 10);
     leftWrist := at_height (5 # 10) (9 # 10);
     rightWrist := at_height (5 # 10) (9 # 10);
     hipCenterY := 6 # 10;
     shoulderCenterY := 3 # 10;
     cal_timestamp := 0 |}.

(** A frame in which the player has jumped: hips at 0.4, wrists hidden. *)
Definition jumpFrame : list Landmark := poseWith (9 # 10) (1 # 10) (4 # 10).

(** Standing frames, with the wrists in view and out of view. *)
Definition wristsSeen : list Landmark := poseWith (9 # 10) (9 # 10) (6 # 10).
Definition wristsHidden : list Landmark := poseWith (9 # 10) (3 # 10) (6 # 10).

(** A calibration frame: every landmark at height 0.5 and visibility 0.9,
    but the left hip (slot 23) and the right hip (slot 24). *)
Definition hipsFrame (lHipY lHipVis rHipY rHipVis : Q) : PoseResult :=
  {| landmarks :=
       repeat (at_height (1 # 2) (9 # 10)) 23
         ++ [at_height lHipY lHipVis; at_height rHipY rHipVis]
         ++ repeat (at_height (1 # 2) (9 # 10)) 8;
     pose_timestamp := 0 |}.

(** Three captured frames; in the second the left hip has visibility 0.3. *)
Definition capturedFrames : list PoseResult :=
  [ hipsFrame (60 # 100) (9 # 10) (60 # 100) (9 # 10);
    hipsFrame (90 # 100) (3 # 10) (66 # 100) (9 # 10);
    hipsFrame (60 # 100) (9 # 10) (60 # 100) (9 # 10) ].

(** Frames in which no nose is ever visible enough. *)
Definition noVisibleLandmark : list PoseResult :=
  [ {| landmarks := repeat (at_height (1 # 2) (5 # 10)) 33; pose_timestamp := 0 |};
    {| landmarks := []; pose_timestamp := 16 |} ].

Import GameEngine.

(** An unresolved arrow with id counter [n], in lane [l], spawned at
    [spawned] and drawn at position [p]. *)
Definition arrowAt (n : Z) (l : nat) (spawned p : Q) : Arrow :=
  {| arrow_id := {| id_counter := n; id_date := 0 |};
     lane := l; spawnTime := spawned; position := p;
     hit := false; missed := false; hitRating := None |}.

(** A rendered hook whose session is playing on [Easy] with the given
    arrows (numbered from 1, as the id counter hands them out) and combo. *)
Definition playingWith (arrs : list Arrow) (c : Z) : Engine :=
  let gs :=
    {| status := Playing; score := 0; combo := c; maxCombo := c;
       perfectHits := 0; goodHits := 0; misses := 0;
       arrows := arrs; difficulty := Easy |} in
  {| gameState := gs;
     countdown := None;
     gameDuration := 0;
     finalStats := None;
     gameStateRef := gs;
     animationFrameRef := true;
     lastFrameTimeRef := 0;
     gameStartTimeRef := 0;
     lastSpawnTimeRef := 0;
     arrowIdCounterRef := Z.of_nat (length arrs);
     countdownIntervalRef := None;
     leakedIntervals := [];
     totalArrowsSpawnedRef := Z.of_nat (length arrs);
     notifications := [] |}.

(** Two hittable arrows in lane 0, at 0.90 and 0.97, and one in lane 1. *)
Definition twoInLane : Engine :=
  playingWith
    [ arrowAt 1 0 0 (90 # 100); arrowAt 2 0 0 (97 # 100); arrowAt 3 1 0 (97 # 100) ]
    0.


(** An arrow missed at position 1.2, next to one still on its way. *)
Definition missedAt12 : Arrow := asMissed (arrowAt 1 2 0 (12 # 10)).

Definition withMissedArrow : Engine :=
  playingWith [ missedAt12; arrowAt 2 0 3000 0 ] 0.

(** Frames, a gesture, a pause and an end; no start and no reset. *)
Definition someEvents : list Op :=
  [ OpFrame 5880 (1 # 2) (1 # 2) 0;
    OpGesture {| ev_type := WaveLeft; ev_timestamp := 5880; ev_confidence := 1 |};
    OpPause;
    OpResume 9000;
    OpFrame 9016 (1 # 2) (1 # 2) 0;
    OpSetDifficulty Hard;
    OpEnd ].

(** From the mount: start, the three ticks of the countdown (the game
    starts at time 0), a frame at 2000 ms that spawns [singleLeft], and a
    frame at 4910 ms that brings that arrow to 0.97. *)
Definition firstArrowAt97 : list Op :=
  [ OpStart;
    OpCountdownTick 0; OpCountdownTick 0; OpCountdownTick 0;
    OpFrame 2000 0 0 1700000002000;
    OpFrame 4910 0 0 1700000004910 ].

Definition waveLeft : GestureEvent :=
  {| ev_type := WaveLeft; ev_timestamp := 0; ev_confidence := 1 |}.

Definition waveRight : GestureEvent :=
  {| ev_type := WaveRight; ev_timestamp := 0; ev_confidence := 1 |}.

(** [start] and the three ticks of its countdown; the game starts at
    3000 ms of [performance.now()]. *)
Definition countdownDone : list Op :=
  [ OpStart; OpCountdownTick 1000; OpCountdownTick 2000; OpCountdownTick 3000 ].

(** From the mount, with a render after every event: the countdown, a
    frame at 5000 ms that spawns [singleLeft] as arrow 1, and the frame at
    7984 ms that brings arrow 1 to 0.9947 (and spawns [singleCenter]).
    Then, with no render after it, the frame callback of the next
    animation frame, at 8001 ms: arrow 1 is past the hit line. *)
Definition arrowMissedThisFrame : list Event :=
  EngineSpec.rendered
    (countdownDone
       ++ [ OpFrame 5000 0 0 1700000005000;
            OpFrame 7984 0 (1 # 2) 1700000007984 ])
    ++ [ Handle (OpFrame 8001 0 0 1700000008001) ].

(** The same, but the next animation frame comes only at 9600 ms, the
    page having been in the background: arrow 1 is past 1.5. *)
Definition arrowGoneThisFrame : list Event :=
  EngineSpec.rendered
    (countdownDone
       ++ [ OpFrame 5000 0 0 1700000005000;
            OpFrame 7984 0 (1 # 2) 1700000007984 ])
    ++ [ Handle (OpFrame 9600 0 0 1700000009600) ].

(** From the mount, with a render after every event: the countdown, a
    frame at 5000 ms that spawns [singleLeft] as arrow 1, a frame at
    7000 ms that spawns [doubleLeftRight] as arrows 2 (lane 0) and 3
    (lane 2, 200 ms later), a frame at 7910 ms with arrow 1 at 0.97, a
    [wave-left] that hits it (combo 1), and the frame at 9984 ms with
    arrow 2 at 0.9947 and arrow 3 at 0.928.  Then, with no render after
    it, the frame callback of the next animation frame, at 10001 ms:
    arrow 2 is past the hit line, arrow 3 is at 0.9337. *)
Definition missThisFrame : list Event :=
  EngineSpec.rendered
    (countdownDone
       ++ [ OpFrame 5000 0 0 1700000005000;
            OpFrame 7000 (19 # 20) 0 1700000007000;
            OpFrame 7910 0 0 1700000007910;
            OpGesture waveLeft;
            OpFrame 9984 0 (1 # 2) 1700000009984 ])
    ++ [ Handle (OpFrame 10001 0 0 1700000010001) ].

(** From the mount, with a render after every event: the countdown, a
    frame at 5000 ms that spawns [singleLeft] as arrow 1, and a frame at
    7910 ms with arrow 1 at 0.97.  Then, with no render after it, the pose
    callback of the next animation frame delivers a [wave-left]. *)
Definition hitThisFrame : list Event :=
  EngineSpec.rendered
    (countdownDone
       ++ [ OpFrame 5000 0 0 1700000005000;
            OpFrame 7910 0 (1 # 2) 1700000007910 ])
    ++ [ Handle (OpGesture waveLeft) ].

(** The frame callback of that same animation frame, at 7927 ms. *)
Definition frameOfSameAnimationFrame : Event :=
  Handle (OpFrame 7927 0 0 1700000007927).

End Scenarios.

(** ** Vocabulary of the further properties *)

Module PolicySpec.

Import GameConstants.
Open Scope Q_scope.

(** The eight entries of [ARROW_PATTERNS]. *)
Definition ARROW_PATTERNS : list Pattern :=
  [ singleLeft; singleCenter; singleRight;
    doubleLeftRight; doubleCenterLeft; doubleCenterRight;
    tripleSequence; tripleReverse ].

(** A pattern a spawn can use: one to three arrows, in distinct lanes
    among 0, 1, 2, the first without delay, none later than 600 ms. *)
Definition playable (p : Pattern) : Prop :=
  (1 <= length p <= 3)%nat
  /\ NoDup (map fst p)
  /\ Forall (fun entry => (fst entry < 3)%nat /\ 0 <= snd entry /\ snd entry <= 600) p
  /\ (exists l rest, p = (l, 0) :: rest).

End PolicySpec.

Module ClassifierSpec.

Import GameConstants Types GestureDetection GameEngine.
Open Scope Q_scope.

(** [e] holds the extrema of the samples scanned so far: nothing yet, or
    the heights and time stamps of a lowest and a highest sample. *)
Definition extremaOf (seen : list PositionSample) (e : Extrema) : Prop :=
  match seen with
  | [] => e = initialExtrema
  | _ :: _ =>
      exists lo hi,
        In lo seen /\ In hi seen
        /\ minY e = Some (ps_y lo) /\ minTime e = ps_timestamp lo
        /\ maxY e = Some (ps_y hi) /\ maxTime e = ps_timestamp hi
        /\ forall s, In s seen -> ps_y lo <= ps_y s /\ ps_y s <= ps_y hi
  end.

(** The hips of the frame are there, at least one of them visible, and
    their centre is more than [thr] above the baseline. *)
Definition risen (cal : CalibrationData) (thr : Q) (lms : list Landmark) : Prop :=
  exists lHip rHip,
    nth_error lms LEFT_HIP = Some lHip
    /\ nth_error lms RIGHT_HIP = Some rHip
    /\ (visible lHip = true \/ visible rHip = true)
    /\ thr < hipCenterY cal - (lm_y lHip + lm_y rHip) / 2.

(** The same, with the centre of the hips not above the baseline by more
    than [thr]. *)
Definition landed (cal : CalibrationData) (thr : Q) (lms : list Landmark) : Prop :=
  exists lHip rHip,
    nth_error lms LEFT_HIP = Some lHip
    /\ nth_error lms RIGHT_HIP = Some rHip
    /\ (visible lHip = true \/ visible rHip = true)
    /\ hipCenterY cal - (lm_y lHip + lm_y rHip) / 2 <= thr.

(** [detectJump] over successive frames, each call on the state the call
    before returned: the detections, and the state at the end. *)
Fixpoint detectJumps (frames : list (list Landmark * Q)) (cal : CalibrationData)
    (st : JumpTrackingState) (thr : Q) : list bool * JumpTrackingState :=
  match frames with
  | [] => ([], st)
  | (lms, dateNow) :: rest =>
      let r := detectJump lms cal st thr dateNow in
      let '(ds, final) := detectJumps rest cal (jump_newState r) thr in
      (jump_detected r :: ds, final)
  end.

(** Runs of the gesture hook without a reset. *)
Definition noReset (ops : list UseGestureDetection.HookOp) : Prop :=
  Forall (fun op => op <> UseGestureDetection.HReset) ops.

End ClassifierSpec.

Module SequenceSpec.

Import GameConstants Types GestureDetection.
Open Scope Q_scope.

(** A frame as the classifier receives it: the landmarks, the time stamp
    of the pose, and the value of [Date.now()] during the call. *)
Record Frame := mkFrame {
  f_landmarks : list Landmark;
  f_timestamp : Q;
  f_dateNow : Q
}.

(** [processGestureFrame] over successive frames, each call on the
    [newState] of the call before: every frame with its result. *)
Fixpoint processFrames (frames : list Frame) (cal : CalibrationData)
    (st : GestureTrackingState) (opts : GestureOptions)
  : list (Frame * FrameResult) :=
  match frames with
  | [] => []
  | f :: rest =>
      let r := processGestureFrame (f_landmarks f) cal st (f_timestamp f) opts
                 (f_dateNow f) in
      (f, r) :: processFrames rest cal (newState r) opts
  end.

Definition reports (g : Gesture) (r : FrameResult) : bool :=
  match gesture r, g with
  | Some WaveLeft, WaveLeft | Some WaveRight, WaveRight | Some Jump, Jump => true
  | _, _ => false
  end.

(** Every report of the wave [g] comes at a time stamp more than [d] above
    the time stamp of the report of [g] before it ([prev] for the first). *)
Fixpoint wavesSpaced (d : Q) (g : Gesture) (prev : Q) (log : list (Frame * FrameResult))
  : Prop :=
  match log with
  | [] => True
  | (f, r) :: rest =>
      if reports g r
      then d < f_timestamp f - prev /\ wavesSpaced d g (f_timestamp f) rest
      else wavesSpaced d g prev rest
  end.

(** Every report of a jump comes at a time stamp more than [d] above the
    wall-clock reading taken at the jump report before it ([prevClock] for
    the first). *)
Fixpoint jumpsSpaced (d : Q) (prevClock : Q) (log : list (Frame * FrameResult)) : Prop :=
  match log with
  | [] => True
  | (f, r) :: rest =>
      if reports Jump r
      then d < f_timestamp f - prevClock /\ jumpsSpaced d (f_dateNow f) rest
      else jumpsSpaced d prevClock rest
  end.

End SequenceSpec.

Module HookSpec.

Import GameConstants GameEngine UseGestureDetection.
Open Scope Q_scope.


(** The bookkeeping of the hook. *)
Definition booked (h : Hook) : Prop :=
  (0 <= gestureCount h <= Z.of_nat (length (delivered h)))%Z
  /\ (gestureCount h = 0%Z <-> lastGestureEvent h = None)
  /\ (forall ev, lastGestureEvent h = Some ev ->
        exists before, delivered h = before ++ [ev])
  /\ (forall g, currentGesture h = Some g ->
        exists ev, lastGestureEvent h = Some ev /\ ev_type ev = g).

(** The confidence of the event lies in [0.5, 1]. *)
Definition confident (ev : GestureEvent) : Prop :=
  1 # 2 <= ev_confidence ev /\ ev_confidence ev <= 1.

End HookSpec.

(** ** Further concrete inputs *)

Module MoreScenarios.

Import GameConstants Types GestureDetection GameEngine UseGestureDetection.
Open Scope Q_scope.

(** A pose at time [t] with the left wrist in view at height [leftY], the
    right wrist out of view, and the hips standing at the baseline. *)
Definition leftWristPose (leftY t : Q) : PoseResult :=
  {| landmarks :=
       repeat (Scenarios.at_height (1 # 2) (9 # 10)) 15
         ++ [Scenarios.at_height leftY (9 # 10); Scenarios.at_height (1 # 2) (1 # 10)]
         ++ repeat (Scenarios.at_height (1 # 2) (9 # 10)) 6
         ++ [Scenarios.at_height (6 # 10) (9 # 10); Scenarios.at_height (6 # 10) (9 # 10)]
         ++ repeat (Scenarios.at_height (1 # 2) (9 # 10)) 8;
     pose_timestamp := t |}.

(** The left wrist moving by 0.12 over 200 ms, from 600 ms on. *)
Definition leftWaveOps : list HookOp :=
  [ HPose (Some (leftWristPose (50 # 100) 600)) 0;
    HPose (Some (leftWristPose (56 # 100) 700)) 0;
    HPose (Some (leftWristPose (62 # 100) 800)) 0 ].

(** The options of a caller that passes none. *)
Definition noOptions : GestureDetectionOptions :=
  {| opt_waveThreshold := None; opt_waveTimeWindow := None;
     opt_jumpThreshold := None; opt_debounceTime := None |}.

End MoreScenarios.

(** ** Vocabulary of the further engine properties *)

Module SessionSpec.

Import GameConstants GameEngine EngineSpec.
Open Scope Q_scope.

Definition unresolved (a : Arrow) : bool := negb (resolved a).

(** The numbers of unresolved and of hit arrows in a collection. *)
Definition unresolvedCount (arrs : list Arrow) : Z :=
  Z.of_nat (length (filter unresolved arrs)).

Definition hitCount (arrs : list Arrow) : Z :=
  Z.of_nat (length (filter hit arrs)).

(** The data-model invariant of an arrow: a lane among 0, 1, 2, a position
    that is not negative, and exactly one of three conditions: unresolved,
    without a rating and not past the hit line; hit, inside the hit zone
    and rated perfect or good as its position says; missed, past the hit
    line and rated miss. *)
Definition wellFormedArrow (a : Arrow) : Prop :=
  (lane a < 3)%nat
  /\ 0 <= position a
  /\ match hit a, missed a with
     | false, false => hitRating a = None /\ position a <= 1
     | true, false =>
         85 # 100 <= position a /\ position a <= 1
         /\ hitRating a = Some (getHitRating (position a))
         /\ getHitRating (position a) <> Miss
     | false, true => hitRating a = Some Miss /\ 1 < position a
     | true, true => False
     end.

(** The counters of the session are consistent with each other. *)
Definition tallied (gs : GameState) : Prop :=
  (0 <= combo gs <= maxCombo gs)%Z
  /\ (0 <= perfectHits gs)%Z /\ (0 <= goodHits gs)%Z /\ (0 <= misses gs)%Z
  /\ (combo gs <= perfectHits gs + goodHits gs)%Z
  /\ (maxCombo gs <= perfectHits gs + goodHits gs)%Z
  /\ (100 * perfectHits gs + 50 * goodHits gs <= score gs)%Z
  /\ (score gs <= 400 * perfectHits gs + 200 * goodHits gs)%Z.

(** Every arrow spawned since the start is accounted for once: as a hit,
    as a miss, or as an unresolved arrow of the collection; and the hit
    counters count the hit arrows of the collection. *)
Definition accounted (e : Engine) : Prop :=
  let gs := gameState e in
  totalArrowsSpawnedRef e
  = (perfectHits gs + goodHits gs + misses gs + unresolvedCount (arrows gs))%Z
  /\ hitCount (arrows gs) = (perfectHits gs + goodHits gs)%Z
  /\ arrowIdCounterRef e = totalArrowsSpawnedRef e.

(** The invariant of the hook along its runs. *)
Definition sound (e : Engine) : Prop :=
  synced e /\ idsInOrder e
  /\ Forall wellFormedArrow (arrows (gameState e))
  /\ tallied (gameState e)
  /\ accounted e.

(** The session counters of [later] are not below those of [earlier]. *)
Definition notBelow (earlier later : Engine) : Prop :=
  (score (gameState earlier) <= score (gameState later))%Z
  /\ (maxCombo (gameState earlier) <= maxCombo (gameState later))%Z
  /\ (perfectHits (gameState earlier) <= perfectHits (gameState later))%Z
  /\ (goodHits (gameState earlier) <= goodHits (gameState later))%Z
  /\ (misses (gameState earlier) <= misses (gameState later))%Z
  /\ (totalArrowsSpawnedRef earlier <= totalArrowsSpawnedRef later)%Z.

(** An arrow as the spawner creates it at time [t]. *)
Definition fresh (t : Q) (a : Arrow) : Prop :=
  hit a = false /\ missed a = false /\ hitRating a = None
  /\ position a = 0 /\ (lane a < 3)%nat /\ t <= spawnTime a.

(** The advance step of [updateArrowPositions] on one arrow. *)
Definition advance (t : Q) (d : Difficulty) (arrow : Arrow) : Arrow :=
  if hit arrow || missed arrow
  then arrow
  else withPosition arrow (Num.max 0 ((t - spawnTime arrow) / arrowTravelTime d)).

(** Events that are ticks of the countdown interval. *)
Definition countdownTicks (op : Op) : Prop :=
  match op with OpCountdownTick _ => True | _ => False end.

(** Events that are frames or gestures. *)
Definition frameOrGesture (op : Op) : Prop :=
  match op with OpFrame _ _ _ _ | OpGesture _ => True | _ => False end.

(** What holds of the counters of a session on every execution, rendered
    or not: none is negative, the combo is at most the best combo, and
    the score lies within the bounds of the hits. *)
Definition counted (gs : GameState) : Prop :=
  (0 <= combo gs <= maxCombo gs)%Z
  /\ (0 <= perfectHits gs)%Z /\ (0 <= goodHits gs)%Z /\ (0 <= misses gs)%Z
  /\ (100 * perfectHits gs + 50 * goodHits gs <= score gs)%Z
  /\ (score gs <= 400 * perfectHits gs + 200 * goodHits gs)%Z.

(** Executions that neither start nor reset the session. *)
Definition keepsSession (evs : list Event) : Prop :=
  Forall (fun ev => match ev with
                    | Handle op => clearsArrows op = false
                    | Render => True
                    end) evs.

End SessionSpec.

Module EngineScenarios.

Import GameConstants GameEngine.
Open Scope Q_scope.

(** The run of [Scenarios.firstArrowAt97], then the wave that hits the
    arrow at 0.97. *)
Definition firstArrowHit : list Op :=
  Scenarios.firstArrowAt97 ++ [OpGesture Scenarios.waveLeft].

(** The first arrow of the collection after a run from the mount on
    [Easy]. *)
Definition firstArrowAfter (ops : list Op) : Arrow :=
  nth 0 (arrows (gameState (run (initialEngine Easy) ops)))
      (Scenarios.arrowAt 0 0 0 0).

(** A session in countdown, one tick after its start. *)
Definition countingDown : Engine :=
  run (initialEngine Easy) [OpStart; OpCountdownTick 0].

End EngineScenarios.


(** ** The capture of the calibration screen *)

Module CaptureSpec.

Import Types Calibration CalibrationScreen.
Open Scope Q_scope.

(** A frame with a pose of at least 33 landmarks. *)
Definition fullPose (p : PoseResult) : Prop := (33 <= length (landmarks p))%nat.

(** A calibration computed from [CAPTURE_FRAMES] frames with full poses. *)
Definition fromFullCapture (c : CalibrationData) : Prop :=
  exists frames dateNow,
    c = calculateCalibration frames dateNow
    /\ length frames = CAPTURE_FRAMES
    /\ Forall fullPose frames.

(** What holds of the screen whatever happened. *)
Definition captureInvariant (s : Screen) : Prop :=
  (length (capturedPosesRef s) <= CAPTURE_FRAMES)%nat
  /\ Forall fullPose (capturedPosesRef s)
  /\ captureProgress s
     == countQ (length (capturedPosesRef s)) / countQ CAPTURE_FRAMES
  /\ Forall fromFullCapture (calibrations s).

(** An event that does not empty the capture buffer. *)
Definition keepsBuffer (ev : ScreenEvent) : Prop :=
  match ev with EvTick => False | _ => True end.

(** The pose updates of a list of frames, each seen by a render in the
    capturing step; a frame comes with the clock reading of its update. *)
Definition captureOf (frames : list (PoseResult * Q)) : list ScreenEvent :=
  map (fun f => EvPose Capturing (Some (fst f)) (snd f)) frames.

Definition capturing : Screen :=
  countdownTick (setCountdown 1 initialScreen).

(** A frame of 33 landmarks, all at the centre, of visibility [v]. *)
Definition uniformPose (v : Q) (t : Q) : PoseResult :=
  {| landmarks := repeat {| lm_x := 1 # 2; lm_y := 1 # 2; lm_z := 0;
                            lm_visibility := Some v |} 33;
     pose_timestamp := t |}.

Definition fourteenHidden : list (PoseResult * Q) :=
  map (fun k => (uniformPose (1 # 10) (inject_Z (Z.of_nat k)),
                 inject_Z (Z.of_nat k)))
      (seq 1 14).

End CaptureSpec.
(* ================================================================== *)
(** * Part II: properties                                              *)
(* ================================================================== *)

(** ** Comparisons *)

Module NumFacts.

Open Scope Q_scope.

Lemma leb_le (a b : Q) : Num.leb a b = true <-> a <= b.
Proof. unfold Num.leb. apply Qle_bool_iff. Qed.

Lemma leb_gt (a b : Q) : Num.leb a b = false <-> b < a.
Proof.
  unfold Num.leb. split; intro H.
  - apply Qnot_le_lt. intro Hle. apply Qle_bool_iff in Hle. congruence.
  - destruct (Qle_bool a b) eqn:E; [|reflexivity].
    apply Qle_bool_iff in E. exfalso. exact (Qlt_not_le _ _ H E).
Qed.

Lemma ltb_lt (a b : Q) : Num.ltb a b = true <-> a < b.
Proof.
  unfold Num.ltb. rewrite negb_true_iff. apply (leb_gt b a).
Qed.

Lemma ltb_ge (a b : Q) : Num.ltb a b = false <-> b <= a.
Proof.
  unfold Num.ltb. rewrite negb_false_iff. apply (leb_le b a).
Qed.

(** Case analysis on a comparison, with the order fact in the context. *)
Lemma leb_spec (a b : Q) : BoolSpec (a <= b) (b < a) (Num.leb a b).
Proof.
  destruct (Num.leb a b) eqn:E; constructor.
  - now apply leb_le.
  - now apply leb_gt.
Qed.

Lemma ltb_spec (a b : Q) : BoolSpec (a < b) (b <= a) (Num.ltb a b).
Proof.
  destruct (Num.ltb a b) eqn:E; constructor.
  - now apply ltb_lt.
  - now apply ltb_ge.
Qed.

End NumFacts.

(** ** Scoring policy *)

Module ScoringFacts.

Import GameConstants.

(** The loop of [getComboMultiplier], unrolled over the table. *)
Lemma getComboMultiplier_cases (c : Z) :
  getComboMultiplier c =
    (if 50 <=? c then 4 else if 25 <=? c then 3 else if 10 <=? c then 2 else 1)%Z.
Proof.
  unfold getComboMultiplier, COMBO_MULTIPLIERS. cbn [fold_left fst snd].
  rewrite !Z.geb_leb.
  destruct (Z.leb_spec 50 c), (Z.leb_spec 25 c), (Z.leb_spec 10 c),
    (Z.leb_spec 0 c); try reflexivity; lia.
Qed.

(** C9.  The combo multiplier is the step function of the tier table
    (4 from 50, 3 from 25, 2 from 10, 1 below), it never decreases when
    the combo grows, and it takes the values 1, 2, 3, 4 at 9, 10, 49, 50. *)
Theorem getComboMultiplier_step_function :
  (forall c : Z,
      getComboMultiplier c =
        (if 50 <=? c then 4 else if 25 <=? c then 3
         else if 10 <=? c then 2 else 1)%Z)
  /\ (forall c d : Z, (c <= d)%Z -> (getComboMultiplier c <= getComboMultiplier d)%Z)
  /\ getComboMultiplier 9 = 1%Z
  /\ getComboMultiplier 10 = 2%Z
  /\ getComboMultiplier 49 = 3%Z
  /\ getComboMultiplier 50 = 4%Z.
Proof.
  split; [exact getComboMultiplier_cases|].
  split; [|repeat split; reflexivity].
  intros c d Hcd. rewrite !getComboMultiplier_cases.
  destruct (Z.leb_spec 50 c), (Z.leb_spec 25 c), (Z.leb_spec 10 c),
    (Z.leb_spec 50 d), (Z.leb_spec 25 d), (Z.leb_spec 10 d); lia.
Qed.

Lemma getComboMultiplier_step_function_witness :
  (24 <= 25)%Z /\ (getComboMultiplier 24 <= getComboMultiplier 25)%Z.
Proof.
  split; [lia|].
  apply (proj1 (proj2 getComboMultiplier_step_function) 24%Z 25%Z). lia.
Defined.

Open Scope Q_scope.

(** C6.  [getHitRating p] is perfect exactly on [0.95, 1.0], good exactly
    on [0.85, 0.95) and miss everywhere else; the five boundary samples of
    the specification evaluate accordingly. *)
Theorem getHitRating_zones :
  (forall p : Q,
      (getHitRating p = Perfect <-> 95 # 100 <= p /\ p <= 1)
      /\ (getHitRating p = Good <-> 85 # 100 <= p /\ p < 95 # 100)
      /\ (getHitRating p = Miss <-> p < 85 # 100 \/ 1 < p))
  /\ getHitRating (95 # 100) = Perfect
  /\ getHitRating (94999 # 100000) = Good
  /\ getHitRating (849999 # 1000000) = Miss
  /\ getHitRating 1 = Perfect
  /\ getHitRating (10001 # 10000) = Miss.
Proof.
  split; [|repeat split; reflexivity].
  intro p. unfold getHitRating, PERFECT_START, PERFECT_END, GOOD_START.
  destruct (NumFacts.leb_spec (95 # 100) p), (NumFacts.leb_spec p 1),
    (NumFacts.leb_spec (85 # 100) p), (NumFacts.ltb_spec p (95 # 100));
    cbn [andb];
    (split; [|split]); (split; intro Hx);
    try discriminate Hx; try reflexivity; try lra.
Qed.

End ScoringFacts.

(** ** Gesture classifier *)

Module GestureFacts.

Import GameConstants Types GestureDetection GestureSpec.
Open Scope Q_scope.

(** *** detectWave *)

Lemma last_default_irrelevant {A} (x y : A) l d d' :
  last (x :: y :: l) d = last (y :: l) d'.
Proof.
  revert x y. induction l as [|z l IH]; intros x y; [reflexivity|].
  change (last (x :: y :: z :: l) d) with (last (y :: z :: l) d).
  change (last (y :: z :: l) d') with (last (z :: l) d').
  apply IH.
Qed.

(** The scan over a rising sequence, entered with both extrema known and
    below the first sample: the minimum stays, the maximum ends at the
    last sample. *)
Lemma scan_rising l :
  forall e lo hi,
    minY e = Some lo -> maxY e = Some hi -> lo <= hi ->
    match l with [] => True | a :: _ => hi < ps_y a end ->
    rising l ->
    let e' := fold_left scanSample l e in
    minY e' = Some lo
    /\ minTime e' = minTime e
    /\ maxY e' = Some (last (map ps_y l) hi)
    /\ maxTime e' = last (map ps_timestamp l) (maxTime e).
Proof.
  induction l as [|a l IH]; intros e lo hi Hmin Hmax Hle Hfirst Hrise.
  - cbn. repeat split; assumption.
  - cbn [fold_left].
    assert (Hstep : scanSample e a
                    = {| minY := Some lo; maxY := Some (ps_y a);
                         minTime := minTime e; maxTime := ps_timestamp a |}).
    { unfold scanSample. rewrite Hmin.
      rewrite (proj2 (NumFacts.ltb_ge (ps_y a) lo)) by lra.
      rewrite Hmax, Hmin.
      now rewrite (proj2 (NumFacts.ltb_lt hi (ps_y a)) Hfirst). }
    rewrite Hstep.
    assert (Hnext : match l with [] => True | b :: _ => ps_y a < ps_y b end).
    { destruct l as [|b l']; [exact I|]. exact (proj1 Hrise). }
    assert (Hrise' : rising l).
    { destruct l as [|b l']; [exact I|]. exact (proj2 Hrise). }
    destruct (IH {| minY := Some lo; maxY := Some (ps_y a);
                    minTime := minTime e; maxTime := ps_timestamp a |}
                 lo (ps_y a) eq_refl eq_refl ltac:(lra) Hnext Hrise')
      as (H1 & H2 & H3 & H4).
    cbv zeta. rewrite H1, H2, H3, H4. cbn [minTime maxTime].
    repeat split; destruct l as [|b l']; try reflexivity;
      cbn [map];
      first [ rewrite (last_default_irrelevant _ _ _ hi (ps_y a))
            | rewrite (last_default_irrelevant _ _ _ (maxTime e) (ps_timestamp a)) ];
      reflexivity.
Qed.

(** Every rising sequence of at least three samples whose total rise
    reaches the threshold, over more than 50 ms, is reported as a wave. *)
Lemma detectWave_accepts_every_rise s0 s1 s2 rest threshold :
  rising (s0 :: s1 :: s2 :: rest) ->
  threshold <= last (map ps_y (s1 :: s2 :: rest)) (ps_y s0) - ps_y s0 ->
  50 < Qabs (ps_timestamp s0
             - last (map ps_timestamp (s1 :: s2 :: rest)) (ps_timestamp s0)) ->
  wave_detected (detectWave (s0 :: s1 :: s2 :: rest) threshold) = true.
Proof.
  intros Hrise Hamp Hspan. unfold detectWave.
  cbn [length Nat.ltb Nat.leb]. cbn [fold_left].
  assert (H0 : scanSample initialExtrema s0
               = {| minY := Some (ps_y s0); maxY := Some (ps_y s0);
                    minTime := ps_timestamp s0; maxTime := ps_timestamp s0 |})
    by reflexivity.
  rewrite H0.
  change (fold_left scanSample rest (scanSample (scanSample ?e s1) s2))
    with (fold_left scanSample (s1 :: s2 :: rest) e).
  destruct (scan_rising (s1 :: s2 :: rest)
              {| minY := Some (ps_y s0); maxY := Some (ps_y s0);
                 minTime := ps_timestamp s0; maxTime := ps_timestamp s0 |}
              (ps_y s0) (ps_y s0)
              eq_refl eq_refl ltac:(lra) (proj1 Hrise) (proj2 Hrise))
    as (H1 & H2 & H3 & H4).
  rewrite H1, H3, H2, H4. cbn [minTime maxTime].
  rewrite (proj2 (NumFacts.ltb_ge _ _) Hamp).
  unfold Num.abs. now rewrite (proj2 (NumFacts.ltb_lt _ _) Hspan).
Qed.

(** C2.  On three samples that rise monotonically by 0.10 over 300 ms,
    [detectWave] with threshold 0.05 reports a wave (with confidence 1):
    the test on the extrema's time stamps accepts a sequence that never
    turns back.  On the same rise followed by a fall it reports a wave as
    well. *)
Theorem detectWave_accepts_monotonic_rise :
  wave_detected (detectWave Scenarios.monotonicRise (5 # 100)) = true
  /\ wave_confidence (detectWave Scenarios.monotonicRise (5 # 100)) == 1
  /\ wave_detected (detectWave Scenarios.riseThenFall (5 # 100)) = true.
Proof. repeat split; vm_compute; reflexivity. Qed.

(** *** processGestureFrame and the wall clock *)

(** When [detectJump] detects, the state it returns carries the value of
    [Date.now()], not a function of its arguments. *)
Lemma detectJump_stamps_dateNow lms cal st thr dateNow :
  jump_detected (detectJump lms cal st thr dateNow) = true ->
  jump_lastGestureTime (jump_newState (detectJump lms cal st thr dateNow)) = dateNow.
Proof.
  unfold detectJump.
  destruct (nth_error lms LEFT_HIP) as [lHip|]; [|discriminate].
  destruct (nth_error lms RIGHT_HIP) as [rHip|]; [|discriminate].
  destruct (negb (visible lHip) && negb (visible rHip)); [discriminate|].
  cbv zeta.
  destruct (Num.ltb thr _ && negb (isInJump st)); [reflexivity|].
  destruct (negb (Num.ltb thr _) && isInJump st); discriminate.
Qed.

(** The clock reaches the result of [detectJump] only through the time
    stamp of a detection. *)
Lemma detectJump_clock lms cal st thr now1 now2 :
  jump_detected (detectJump lms cal st thr now1)
  = jump_detected (detectJump lms cal st thr now2)
  /\ isInJump (jump_newState (detectJump lms cal st thr now1))
     = isInJump (jump_newState (detectJump lms cal st thr now2))
  /\ jump_confidence (detectJump lms cal st thr now1)
     = jump_confidence (detectJump lms cal st thr now2)
  /\ (jump_detected (detectJump lms cal st thr now1) = false ->
      detectJump lms cal st thr now1 = detectJump lms cal st thr now2).
Proof.
  unfold detectJump.
  destruct (nth_error lms LEFT_HIP) as [lHip|]; [|repeat split].
  destruct (nth_error lms RIGHT_HIP) as [rHip|]; [|repeat split].
  destruct (negb (visible lHip) && negb (visible rHip)); [repeat split|].
  cbv zeta.
  destruct (Num.ltb thr _ && negb (isInJump st)).
  - cbn. repeat split. discriminate.
  - destruct (negb (Num.ltb thr _) && isInJump st); repeat split.
Qed.

(** A call that reports no jump returns the same result at every
    wall-clock instant. *)
Lemma processGestureFrame_clock_only_on_jump lms cal st t opts now1 now2 :
  gesture (processGestureFrame lms cal st t opts now1) <> Some Jump ->
  processGestureFrame lms cal st t opts now1
  = processGestureFrame lms cal st t opts now2.
Proof.
  unfold processGestureFrame.
  destruct (wristBlock (nth_error lms LEFT_WRIST) _ t opts) as [nl [c|]];
    [reflexivity|].
  destruct (wristBlock (nth_error lms RIGHT_WRIST) _ t opts) as [nr [c|]];
    [reflexivity|].
  cbv zeta.
  destruct (detectJump_clock lms cal (st_jump st) (jumpThreshold opts) now1 now2)
    as (Hd & Hin & Hc & Hsame).
  destruct (Num.ltb _ _).
  - cbn [gesture].
    destruct (jump_detected (detectJump lms cal (st_jump st) (jumpThreshold opts) now1))
      eqn:E; [congruence|].
    intros _. rewrite <- Hd, (Hsame eq_refl). reflexivity.
  - intros _. now rewrite Hin.
Qed.

(** C3.  Two calls of [processGestureFrame] on the same landmarks,
    calibration, tracking state, time stamp and options, made at two
    different wall-clock instants, return different results: both detect
    the jump, and each stores its own [Date.now()] in the jump state. *)
Theorem processGestureFrame_depends_on_wall_clock :
  let call :=
    processGestureFrame Scenarios.jumpFrame Scenarios.baseline
      createInitialGestureState 1000 DEFAULT_GESTURE_OPTIONS in
  gesture (call 1700000000000) = Some Jump
  /\ gesture (call 1700000000016) = Some Jump
  /\ jump_lastGestureTime (st_jump (newState (call 1700000000000))) = 1700000000000
  /\ jump_lastGestureTime (st_jump (newState (call 1700000000016))) = 1700000000016
  /\ call 1700000000000 <> call 1700000000016.
Proof.
  cbv zeta. repeat split; try (vm_compute; reflexivity).
  intro H.
  apply (f_equal (fun r => jump_lastGestureTime (st_jump (newState r)))) in H.
  vm_compute in H. discriminate H.
Qed.

(** *** The sliding windows *)

(** What [addPositionSample] keeps is younger than the cut-off, and what
    it appends is the current sample. *)
Lemma addPositionSample_window ws y t w :
  0 <= w ->
  Forall (fun s => t - w <= ps_timestamp s) (samples (addPositionSample ws y t w)).
Proof.
  intro Hw. unfold addPositionSample. cbn [samples].
  apply Forall_app. split.
  - apply Forall_forall. intros s Hs. apply filter_In in Hs.
    destruct Hs as [_ Hs]. apply NumFacts.ltb_lt in Hs. lra.
  - constructor; [|constructor]. cbn [ps_timestamp]. lra.
Qed.

(** A wrist block that sees its wrist leaves a pruned window. *)
Lemma wristBlock_window lm ws t opts :
  0 <= waveTimeWindow opts ->
  visible lm = true ->
  Forall (fun s => t - waveTimeWindow opts <= ps_timestamp s)
         (samples (fst (wristBlock (Some lm) ws t opts))).
Proof.
  intros Hw Hvis. unfold wristBlock. rewrite Hvis. cbv zeta.
  destruct (Num.ltb _ _).
  - destruct (wave_detected _); cbn [fst samples].
    + constructor.
    + now apply addPositionSample_window.
  - cbn [fst]. now apply addPositionSample_window.
Qed.

(** A wrist block that does not see its wrist leaves the window as it is. *)
Lemma wristBlock_unseen wrist ws t opts :
  match wrist with Some lm => visible lm = false | None => True end ->
  wristBlock wrist ws t opts = (ws, None).
Proof.
  intro H. unfold wristBlock. destruct wrist as [lm|]; [|reflexivity].
  now rewrite H.
Qed.

(** The windows that [processGestureFrame] returns, by wrist block. *)
Lemma processGestureFrame_left lms cal st t opts now :
  st_leftWrist (newState (processGestureFrame lms cal st t opts now))
  = fst (wristBlock (nth_error lms LEFT_WRIST) (st_leftWrist st) t opts).
Proof.
  unfold processGestureFrame.
  destruct (wristBlock (nth_error lms LEFT_WRIST) _ t opts) as [nl [c|]].
  - reflexivity.
  - destruct (wristBlock (nth_error lms RIGHT_WRIST) _ t opts) as [nr [c|]].
    + reflexivity.
    + cbv zeta. destruct (Num.ltb _ _); reflexivity.
Qed.

Lemma processGestureFrame_right lms cal st t opts now :
  gesture (processGestureFrame lms cal st t opts now) <> Some WaveLeft ->
  st_rightWrist (newState (processGestureFrame lms cal st t opts now))
  = fst (wristBlock (nth_error lms RIGHT_WRIST) (st_rightWrist st) t opts).
Proof.
  unfold processGestureFrame.
  destruct (wristBlock (nth_error lms LEFT_WRIST) _ t opts) as [nl [c|]].
  - cbn [gesture]. congruence.
  - intros _.
    destruct (wristBlock (nth_error lms RIGHT_WRIST) _ t opts) as [nr [c|]].
    + reflexivity.
    + cbv zeta. destruct (Num.ltb _ _); reflexivity.
Qed.

(** C7, as the code has it.  After a call at time stamp [t], the window
    of a wrist whose block ran on a visible landmark (for the right wrist:
    in a frame without a left wave) holds no sample older than
    [t - waveTimeWindow]; the window of a wrist that was not visible in the
    frame is returned as it was. *)
Theorem window_pruned_when_wrist_sampled lms cal st t opts now :
  0 <= waveTimeWindow opts ->
  let r := processGestureFrame lms cal st t opts now in
  (forall lm, nth_error lms LEFT_WRIST = Some lm -> visible lm = true ->
     Forall (fun s => t - waveTimeWindow opts <= ps_timestamp s)
            (samples (st_leftWrist (newState r))))
  /\ (forall lm, nth_error lms RIGHT_WRIST = Some lm -> visible lm = true ->
        gesture r <> Some WaveLeft ->
        Forall (fun s => t - waveTimeWindow opts <= ps_timestamp s)
               (samples (st_rightWrist (newState r))))
  /\ (match nth_error lms LEFT_WRIST with
      | Some lm => visible lm = false | None => True end ->
      st_leftWrist (newState r) = st_leftWrist st)
  /\ (match nth_error lms RIGHT_WRIST with
      | Some lm => visible lm = false | None => True end ->
      st_rightWrist (newState r) = st_rightWrist st).
Proof.
  intros Hw r. subst r. repeat split.
  - intros lm Hlm Hvis. rewrite processGestureFrame_left, Hlm.
    now apply wristBlock_window.
  - intros lm Hlm Hvis Hg. rewrite processGestureFrame_right, Hlm by exact Hg.
    now apply wristBlock_window.
  - intro H. rewrite processGestureFrame_left.
    now rewrite (wristBlock_unseen _ _ _ _ H).
  - intro H.
    destruct (gesture (processGestureFrame lms cal st t opts now)) as [[| |]|] eqn:Hg.
    + (* a left wave: the right block did not run *)
      revert Hg. unfold processGestureFrame.
      destruct (wristBlock (nth_error lms LEFT_WRIST) _ t opts) as [nl [c|]];
        [reflexivity|].
      destruct (wristBlock (nth_error lms RIGHT_WRIST) _ t opts) as [nr [c|]];
        [discriminate|].
      cbv zeta. destruct (Num.ltb _ _); cbn [gesture];
        [destruct (jump_detected _)|]; discriminate.
    + rewrite processGestureFrame_right by congruence.
      now rewrite (wristBlock_unseen _ _ _ _ H).
    + rewrite processGestureFrame_right by congruence.
      now rewrite (wristBlock_unseen _ _ _ _ H).
    + rewrite processGestureFrame_right by congruence.
      now rewrite (wristBlock_unseen _ _ _ _ H).
Qed.

Lemma window_pruned_when_wrist_sampled_witness :
  0 <= waveTimeWindow DEFAULT_GESTURE_OPTIONS
  /\ Forall (fun s => 100 - waveTimeWindow DEFAULT_GESTURE_OPTIONS <= ps_timestamp s)
       (samples (st_leftWrist (newState
          (processGestureFrame Scenarios.wristsSeen Scenarios.baseline
             createInitialGestureState 100 DEFAULT_GESTURE_OPTIONS 0)))).
Proof.
  assert (Hw : 0 <= waveTimeWindow DEFAULT_GESTURE_OPTIONS)
    by (vm_compute; discriminate).
  split; [exact Hw|].
  apply (proj1 (window_pruned_when_wrist_sampled Scenarios.wristsSeen
                  Scenarios.baseline createInitialGestureState 100
                  DEFAULT_GESTURE_OPTIONS 0 Hw)
           (Scenarios.at_height (1 # 2) (9 # 10)));
    vm_compute; reflexivity.
Defined.

(** C7, counterexample.  Two calls with increasing time stamps, 100 and
    1000, the left wrist in view in the first and out of view in the
    second: after the second call the left window still holds the sample
    of time 100, older than 1000 - 500. *)
Lemma window_keeps_sample_of_hidden_wrist :
  let r1 :=
    processGestureFrame Scenarios.wristsSeen Scenarios.baseline
      createInitialGestureState 100 DEFAULT_GESTURE_OPTIONS 0 in
  let r2 :=
    processGestureFrame Scenarios.wristsHidden Scenarios.baseline
      (newState r1) 1000 DEFAULT_GESTURE_OPTIONS 0 in
  exists s,
    In s (samples (st_leftWrist (newState r2)))
    /\ ps_timestamp s < 1000 - waveTimeWindow DEFAULT_GESTURE_OPTIONS.
Proof.
  cbv zeta. exists {| ps_y := 1 # 2; ps_timestamp := 100 |}. split.
  - vm_compute. left. reflexivity.
  - vm_compute. reflexivity.
Qed.

End GestureFacts.

(** ** Calibration *)

Module CalibrationFacts.

Import Types Calibration CalibrationSpec.
Open Scope Q_scope.

(** *** The loop computes it *)

Lemma visible_has_visibility lm :
  visible lm = true ->
  match lm_visibility lm with Some v => v | None => 1 end = visibilityOf lm.
Proof.
  unfold visible, visibilityOf. destruct (lm_visibility lm); [reflexivity|].
  intro H. apply NumFacts.ltb_lt in H. lra.
Qed.

Lemma fold_accumulate i poses acc :
  fold_left (accumulate i) poses acc =
    let q := qualifyingSamples poses i in
    {| sumX := fold_left (fun a lm => a + lm_x lm) q (sumX acc);
       sumY := fold_left (fun a lm => a + lm_y lm) q (sumY acc);
       sumZ := fold_left (fun a lm => a + lm_z lm) q (sumZ acc);
       sumVis := fold_left (fun a lm => a + visibilityOf lm) q (sumVis acc);
       count := (count acc + length q)%nat |}.
Proof.
  revert acc. induction poses as [|pose poses IH]; intro acc.
  - cbn. rewrite Nat.add_0_r. now destruct acc.
  - cbn [fold_left qualifyingSamples flat_map]. rewrite IH. clear IH.
    unfold accumulate.
    destruct (nth_error (landmarks pose) i) as [lm|]; [|reflexivity].
    destruct (visible lm) eqn:Hv; [|reflexivity].
    cbn [app fold_left length sumX sumY sumZ sumVis count].
    rewrite (visible_has_visibility _ Hv), <- Nat.add_succ_comm.
    reflexivity.
Qed.

Lemma averageLandmark_spec poses i :
  averageLandmark poses i = averageOf (qualifyingSamples poses i).
Proof.
  unfold averageLandmark. rewrite fold_accumulate. cbv zeta.
  cbn [count sumX sumY sumZ sumVis noSums Nat.add].
  destruct (qualifyingSamples poses i) as [|lm q]; reflexivity.
Qed.

(** The qualifying samples of landmark [i] are the landmarks [i] of the
    frames that carry a visibility above 0.5. *)
Lemma qualifyingSamples_In poses i lm :
  In lm (qualifyingSamples poses i)
  <-> exists pose v,
        In pose poses
        /\ nth_error (landmarks pose) i = Some lm
        /\ lm_visibility lm = Some v
        /\ 1 # 2 < v.
Proof.
  unfold qualifyingSamples. rewrite in_flat_map. split.
  - intros (pose & Hpose & Hin).
    destruct (nth_error (landmarks pose) i) as [lm'|] eqn:Hnth; [|destruct Hin].
    destruct (visible lm') eqn:Hv; [|destruct Hin].
    destruct Hin as [->|[]].
    unfold visible in Hv. apply NumFacts.ltb_lt in Hv.
    destruct (lm_visibility lm) as [v|] eqn:Hvis; [|lra].
    exists pose, v. repeat split; assumption.
  - intros (pose & v & Hpose & Hnth & Hvis & Hv).
    exists pose. split; [exact Hpose|]. rewrite Hnth.
    unfold visible. rewrite Hvis.
    rewrite (proj2 (NumFacts.ltb_lt _ _) Hv). now left.
Qed.

(** C8.  Each of the seven baseline landmarks of [calculateCalibration]
    is the average of that landmark's own qualifying samples (the frames
    in which this landmark is present with a visibility above 0.5, whatever
    the other landmarks of the frame), or the default landmark when there
    is none; [hipCenterY] is the mean of the two hip heights so obtained.  On three frames whose second one has a left hip
    of visibility 0.3, the left hip averages two samples and the right hip
    all three. *)
Theorem calculateCalibration_per_landmark :
  (forall poses now,
      let cal := calculateCalibration poses now in
      leftHip cal = averageOf (qualifyingSamples poses LEFT_HIP)
      /\ rightHip cal = averageOf (qualifyingSamples poses RIGHT_HIP)
      /\ leftShoulder cal = averageOf (qualifyingSamples poses LEFT_SHOULDER)
      /\ rightShoulder cal = averageOf (qualifyingSamples poses RIGHT_SHOULDER)
      /\ nose cal = averageOf (qualifyingSamples poses NOSE)
      /\ leftWrist cal = averageOf (qualifyingSamples poses LEFT_WRIST)
      /\ rightWrist cal = averageOf (qualifyingSamples poses RIGHT_WRIST)
      /\ hipCenterY cal = (lm_y (leftHip cal) + lm_y (rightHip cal)) / 2)
  /\ (forall poses i lm,
        In lm (qualifyingSamples poses i)
        <-> exists pose v,
              In pose poses
              /\ nth_error (landmarks pose) i = Some lm
              /\ lm_visibility lm = Some v
              /\ 1 # 2 < v)
  /\ (forall poses i,
        qualifyingSamples poses i = [] ->
        averageLandmark poses i
        = {| lm_x := 1 # 2; lm_y := 1 # 2; lm_z := 0; lm_visibility := Some 0 |})
  /\ (let cal := calculateCalibration Scenarios.capturedFrames 0 in
      length (qualifyingSamples Scenarios.capturedFrames LEFT_HIP) = 2%nat
      /\ length (qualifyingSamples Scenarios.capturedFrames RIGHT_HIP) = 3%nat
      /\ lm_y (leftHip cal) == 60 # 100
      /\ lm_y (rightHip cal) == 62 # 100
      /\ hipCenterY cal == 61 # 100).
Proof.
  split; [|split; [exact qualifyingSamples_In|split]].
  - intros poses now. cbv zeta. unfold calculateCalibration.
    cbn [leftHip rightHip leftShoulder rightShoulder nose leftWrist rightWrist
         hipCenterY].
    rewrite !averageLandmark_spec. repeat split; reflexivity.
  - intros poses i Hq. now rewrite averageLandmark_spec, Hq.
  - cbv zeta. repeat split; vm_compute; reflexivity.
Qed.

Lemma calculateCalibration_per_landmark_witness :
  qualifyingSamples Scenarios.noVisibleLandmark NOSE = []
  /\ averageLandmark Scenarios.noVisibleLandmark NOSE
     = {| lm_x := 1 # 2; lm_y := 1 # 2; lm_z := 0; lm_visibility := Some 0 |}.
Proof.
  split; [reflexivity|].
  apply (proj1 (proj2 (proj2 calculateCalibration_per_landmark))
           Scenarios.noVisibleLandmark NOSE).
  reflexivity.
Defined.

End CalibrationFacts.

(** ** Game engine *)

Module EngineFacts.

Import GameConstants GameEngine EngineSpec.
Open Scope Q_scope.

(** *** Rendering *)

Lemma step_synced e op : synced (step e op).
Proof. reflexivity. Qed.

Lemma run_synced ops : forall e, synced e -> synced (run e ops).
Proof.
  unfold run. induction ops as [|op ops IH]; intros e He; [exact He|].
  cbn [fold_left]. apply IH, step_synced.
Qed.

(** The run of events is the execution in which a render follows every
    event. *)
Lemma exec_rendered ops : forall e, exec e (rendered ops) = run e ops.
Proof.
  unfold exec, run, rendered.
  induction ops as [|op ops IH]; intro e; [reflexivity|].
  cbn [flat_map app fold_left react]. apply IH.
Qed.

Lemma status_eqb_eq a b : status_eqb a b = true <-> a = b.
Proof. destruct a, b; cbn; split; congruence. Qed.

Lemma status_eqb_neq a b : status_eqb a b = false <-> a <> b.
Proof. destruct a, b; cbn; split; congruence. Qed.

Lemma id_eqb_eq a b : id_eqb a b = true <-> a = b.
Proof.
  destruct a as [c1 d1], b as [c2 d2]. unfold id_eqb. cbn.
  rewrite andb_true_iff, !Z.eqb_eq. split.
  - intros [-> ->]. reflexivity.
  - intro H. injection H. auto.
Qed.

(** *** Life cycle *)




(** [start] while a countdown is running leaves the interval of the
    first [start] alive: its third tick clears the interval of the second
    [start] and starts the game, and it keeps firing afterwards: after
    [end] its next tick makes the session playing again. *)
Example start_twice_leaks_interval :
  let twice := run (initialEngine Easy) [OpStart; OpStart] in
  let started :=
    run twice [OpLeakedTick 0 1000; OpLeakedTick 0 2000; OpLeakedTick 0 3000] in
  let again := run started [OpEnd; OpLeakedTick 0 4000] in
  leakedIntervals twice = [3%Z]
  /\ countdownIntervalRef twice = Some 3%Z
  /\ status (gameState started) = Playing
  /\ countdownIntervalRef started = None
  /\ leakedIntervals started = [0%Z]
  /\ status (gameState (step started OpEnd)) = Ended
  /\ status (gameState again) = Playing.
Proof. cbv zeta. repeat split; vm_compute; reflexivity. Qed.

(** *** The frame steps *)

Lemma checkMissedArrows_spec l :
  checkMissedArrows l
  = (map markIfMissed l,
     Z.of_nat (length (filter becomesMissed l)),
     map asMissed (filter becomesMissed l)).
Proof.
  induction l as [|a l IH]; [reflexivity|].
  cbn [checkMissedArrows map filter]. rewrite IH.
  unfold markIfMissed, becomesMissed, resolved, hasMissedHitZone, PERFECT_END.
  destruct (hit a || missed a); cbn [negb andb]; [reflexivity|].
  destruct (Num.ltb 1 (position a)); [|reflexivity].
  cbn [length map]. do 2 f_equal. lia.
Qed.

(** The session after a frame of a playing game. *)
Lemma gameLoop_playing timestamp random random2 dateNow e :
  status (gameStateRef e) = Playing ->
  let fa := frameArrows timestamp random random2 dateNow e in
  let n := Z.of_nat (length (filter becomesMissed fa)) in
  let e' := gameLoop timestamp random random2 dateNow e in
  arrows (gameState e') = cleanupArrows (map markIfMissed fa)
  /\ combo (gameState e') = (if (n >? 0)%Z then 0%Z else combo (gameState e))
  /\ misses (gameState e') = (misses (gameState e) + n)%Z
  /\ status (gameState e') = status (gameState e)
  /\ notifications e'
     = notifications e
       ++ map OnMiss (map asMissed (filter becomesMissed fa))
       ++ (if ((if (n >? 0)%Z then 0 else combo (gameState e)) =? combo (gameState e))%Z
           then []
           else [OnComboChange 0 1]).
Proof.
  intro Hst. cbv zeta. unfold gameLoop, frameArrows. rewrite Hst.
  cbn [status_eqb negb].
  destruct (spawnArrows _ _ _ _ _ _ _ _) as [newArrows [[ls ic] tot]].
  cbn [fst]. rewrite checkMissedArrows_spec.
  cbn [gameState arrows combo misses status notifications].
  repeat split.
  destruct (_ >? 0)%Z; [|now rewrite Z.eqb_refl].
  destruct (0 =? combo (gameState e))%Z; reflexivity.
Qed.

Lemma gameLoop_not_playing timestamp random random2 dateNow e :
  status (gameStateRef e) <> Playing ->
  gameLoop timestamp random random2 dateNow e = e.
Proof.
  intro H. unfold gameLoop. apply status_eqb_neq in H. now rewrite H.
Qed.

(** *** Hit matching: the sort *)

Lemma insertByDistance_In x a l :
  In x (insertByDistance a l) <-> x = a \/ In x l.
Proof.
  induction l as [|b l IH]; cbn [insertByDistance].
  - cbn. intuition congruence.
  - destruct (Num.leb _ _); cbn [In]; [intuition congruence|].
    rewrite IH. intuition congruence.
Qed.

Lemma insertByDistance_sorted a l :
  StronglySorted byDistance l -> StronglySorted byDistance (insertByDistance a l).
Proof.
  induction 1 as [|b l Hl IH Hb]; cbn [insertByDistance].
  - constructor; constructor.
  - destruct (NumFacts.leb_spec (perfectDistance a) (perfectDistance b)) as [Hab|Hba].
    + constructor; [constructor; assumption|].
      constructor; [exact Hab|].
      eapply Forall_impl; [|exact Hb].
      intros c Hc. unfold byDistance in *. lra.
    + constructor; [exact IH|].
      apply Forall_forall. intros c Hc.
      apply insertByDistance_In in Hc. destruct Hc as [->|Hc].
      * unfold byDistance. lra.
      * rewrite Forall_forall in Hb. now apply Hb.
Qed.

Lemma sortByDistance_In x l : In x (sortByDistance l) <-> In x l.
Proof.
  unfold sortByDistance. induction l as [|a l IH]; cbn [fold_right In].
  - reflexivity.
  - rewrite insertByDistance_In, IH. intuition congruence.
Qed.

Lemma sortByDistance_sorted l : StronglySorted byDistance (sortByDistance l).
Proof.
  unfold sortByDistance. induction l as [|a l IH]; cbn [fold_right].
  - constructor.
  - now apply insertByDistance_sorted.
Qed.

(** The first element of the sorted candidates is one of them, and none
    is closer to the start of the perfect zone. *)
Lemma sortByDistance_head l h t :
  sortByDistance l = h :: t ->
  In h l /\ forall c, In c l -> perfectDistance h <= perfectDistance c.
Proof.
  intro H.
  pose proof (sortByDistance_sorted l) as Hs. rewrite H in Hs.
  split.
  - apply sortByDistance_In. rewrite H. now left.
  - intros c Hc. apply sortByDistance_In in Hc. rewrite H in Hc.
    apply StronglySorted_inv in Hs. destruct Hs as [_ Hall].
    destruct Hc as [->|Hc]; [lra|].
    rewrite Forall_forall in Hall. now apply Hall.
Qed.

Lemma sortByDistance_nil l : sortByDistance l = [] -> l = [].
Proof.
  destruct l as [|a l]; [reflexivity|]. intro H. exfalso.
  assert (Hin : In a (sortByDistance (a :: l)))
    by (apply sortByDistance_In; now left).
  rewrite H in Hin. exact Hin.
Qed.

(** *** Hit matching: candidates *)

Lemma isTarget_Candidate gs l a :
  In a (filter (isTarget l) (arrows gs)) <-> Candidate gs l a.
Proof.
  rewrite filter_In. unfold Candidate, isTarget, isInHitZone, GOOD_START, PERFECT_END.
  rewrite !andb_true_iff, !negb_true_iff, Nat.eqb_eq, !NumFacts.leb_le.
  tauto.
Qed.

Lemma rating_in_hit_zone p :
  85 # 100 <= p -> p <= 1 -> getHitRating p <> Miss.
Proof.
  intros Hlo Hhi. unfold getHitRating, PERFECT_START, PERFECT_END, GOOD_START.
  destruct (NumFacts.leb_spec (95 # 100) p), (NumFacts.leb_spec p 1),
    (NumFacts.leb_spec (85 # 100) p), (NumFacts.ltb_spec p (95 # 100));
    cbn [andb]; try discriminate; lra.
Qed.

(** With distinct ids, the update of [processGesture] rewrites the chosen
    arrow in place and nothing else. *)
Lemma mark_hit_unique l h r :
  NoDup (map arrow_id l) -> In h l ->
  exists pre post,
    l = pre ++ h :: post
    /\ map (fun a => if id_eqb (arrow_id a) (arrow_id h) then asHit a r else a) l
       = pre ++ asHit h r :: post.
Proof.
  intros Hnd Hin.
  destruct (in_split _ _ Hin) as [pre [post ->]].
  exists pre, post. split; [reflexivity|].
  rewrite map_app in Hnd. cbn [map] in Hnd.
  pose proof (NoDup_remove_2 _ _ _ Hnd) as Hnotin.
  assert (Hother : forall xs, (forall a, In a xs -> arrow_id a <> arrow_id h) ->
            map (fun a => if id_eqb (arrow_id a) (arrow_id h) then asHit a r else a) xs
            = xs).
  { induction xs as [|x xs IHxs]; intro Hxs; [reflexivity|].
    cbn [map]. rewrite IHxs by (intros a Ha; apply Hxs; now right).
    destruct (id_eqb (arrow_id x) (arrow_id h)) eqn:E; [|reflexivity].
    apply id_eqb_eq in E. exfalso. apply (Hxs x); [now left|exact E]. }
  rewrite map_app. cbn [map].
  rewrite (proj2 (id_eqb_eq (arrow_id h) (arrow_id h)) eq_refl).
  rewrite !Hother; [reflexivity| |].
  - intros a Ha E. apply Hnotin. apply in_or_app. right.
    rewrite <- E. now apply in_map.
  - intros a Ha E. apply Hnotin. apply in_or_app. left.
    rewrite <- E. now apply in_map.
Qed.

(** The arrow collection after [processGesture]: the old one, or the old
    one with the arrows of one id marked hit. *)
Lemma processGesture_arrows g e :
  arrows (gameState (snd (processGesture g e))) = arrows (gameState e)
  \/ exists h r,
       arrows (gameState (snd (processGesture g e)))
       = map (fun arrow => if id_eqb (arrow_id arrow) (arrow_id h)
                           then asHit arrow r else arrow)
             (arrows (gameState e)).
Proof.
  unfold processGesture.
  destruct (negb (status_eqb (status (gameStateRef e)) Playing)); [now left|].
  cbv zeta.
  destruct (sortByDistance _) as [|h t]; [now left|].
  destruct (getHitRating (position h)) eqn:Hr; [right|right|now left];
    exists h; eexists; reflexivity.
Qed.

(** *** Arrow ids along a run *)

Lemma makeArrows_counters pattern t dateNow :
  forall c,
    Forall (fun a => (c < counterOf a <= c + Z.of_nat (length pattern))%Z)
           (makeArrows pattern t c dateNow)
    /\ NoDup (map counterOf (makeArrows pattern t c dateNow))
    /\ length (makeArrows pattern t c dateNow) = length pattern.
Proof.
  induction pattern as [|[l delay] rest IH]; intro c.
  - cbn. repeat split; constructor.
  - cbn [makeArrows map length].
    destruct (IH (c + 1)%Z) as (Hall & Hnd & Hlen).
    split; [|split].
    + constructor; [unfold counterOf; cbn; lia|].
      eapply Forall_impl; [|exact Hall]. cbn beta. intros a Ha. lia.
    + constructor; [|exact Hnd].
      intro Hin. apply in_map_iff in Hin. destruct Hin as (a & Ha & Hin).
      rewrite Forall_forall in Hall. specialize (Hall a Hin).
      unfold counterOf in Ha at 2. cbn in Ha. lia.
    + now rewrite Hlen.
Qed.

Lemma spawnArrows_counters lastSpawn c total t d random random2 dateNow :
  let new := fst (spawnArrows lastSpawn c total t d random random2 dateNow) in
  let c' := snd (fst (snd (spawnArrows lastSpawn c total t d random random2 dateNow))) in
  (c <= c')%Z
  /\ Forall (fun a => (c < counterOf a <= c')%Z) new
  /\ NoDup (map counterOf new).
Proof.
  cbv zeta. unfold spawnArrows. destruct (Num.ltb _ _); cbn [fst snd].
  - split; [lia|]. split; constructor.
  - destruct (makeArrows_counters (selectRandomPattern d random random2) t dateNow c)
      as (Hall & Hnd & Hlen).
    rewrite Hlen. split; [lia|]. split; assumption.
Qed.

Lemma counters_markIfMissed l : map counterOf (map markIfMissed l) = map counterOf l.
Proof.
  rewrite map_map. apply map_ext. intro a. unfold markIfMissed.
  now destruct (becomesMissed a).
Qed.

Lemma counters_updateArrowPositions l t d :
  map counterOf (updateArrowPositions l t d) = map counterOf l.
Proof.
  unfold updateArrowPositions. rewrite map_map. apply map_ext. intro a.
  now destruct (hit a || missed a).
Qed.

Lemma counters_mark_hit l h r :
  map counterOf
    (map (fun a => if id_eqb (arrow_id a) (arrow_id h) then asHit a r else a) l)
  = map counterOf l.
Proof.
  rewrite map_map. apply map_ext. intro a.
  now destruct (id_eqb (arrow_id a) (arrow_id h)).
Qed.

Lemma NoDup_map_filter {A B} (f : A -> B) (p : A -> bool) l :
  NoDup (map f l) -> NoDup (map f (filter p l)).
Proof.
  induction l as [|a l IH]; cbn [map filter]; intro H; [constructor|].
  inversion H as [|x xs Hnotin Hnd]; subst.
  destruct (p a); [|now apply IH].
  cbn [map]. constructor; [|now apply IH].
  intro Hin. apply Hnotin. apply in_map_iff in Hin.
  destruct Hin as (b & Hb & Hin). apply filter_In in Hin.
  rewrite <- Hb. apply in_map. tauto.
Qed.

(** The arrows and the id counter after a frame of a playing game. *)
Lemma gameLoop_playing_ids timestamp random random2 dateNow e :
  status (gameStateRef e) = Playing ->
  let e' := gameLoop timestamp random random2 dateNow e in
  exists new,
    arrows (gameState e')
    = cleanupArrows
        (map markIfMissed
           (updateArrowPositions (arrows (gameStateRef e) ++ new) timestamp
              (difficulty (gameStateRef e))))
    /\ (arrowIdCounterRef e <= arrowIdCounterRef e')%Z
    /\ Forall (fun a => (arrowIdCounterRef e < counterOf a <= arrowIdCounterRef e')%Z) new
    /\ NoDup (map counterOf new).
Proof.
  intro Hst. cbv zeta.
  pose proof (spawnArrows_counters (lastSpawnTimeRef e) (arrowIdCounterRef e)
                (totalArrowsSpawnedRef e) timestamp (difficulty (gameStateRef e))
                random random2 dateNow) as Hsp.
  cbv zeta in Hsp. unfold gameLoop. rewrite Hst. cbn [status_eqb negb].
  destruct (spawnArrows _ _ _ _ _ _ _ _) as [new [[ls ic] tot]].
  cbn [fst snd] in Hsp. exists new.
  rewrite checkMissedArrows_spec. cbn. split; [reflexivity|exact Hsp].
Qed.

Lemma step_idsInOrder e op : synced e -> idsInOrder e -> idsInOrder (step e op).
Proof.
  unfold synced, idsInOrder. intros Hs [Hnd Hall]. unfold step.
  change (gameState (commit ?x)) with (gameState x).
  change (arrowIdCounterRef (commit ?x)) with (arrowIdCounterRef x).
  destruct op; cbn [handle].
  - (* start *) cbn. split; constructor.
  - (* countdown tick *)
    unfold countdownTick. destruct (countdownIntervalRef e); [|now split].
    destruct (_ >? 0)%Z; now split.
  - (* tick of a leaked interval *)
    unfold leakedTick. destruct (nth_error _ _); [|now split].
    destruct (_ >? 0)%Z; now split.
  - (* frame *)
    destruct (status_eqb (status (gameStateRef e)) Playing) eqn:Hst.
    + apply status_eqb_eq in Hst.
      destruct (gameLoop_playing_ids timestamp random random2 dateNow e Hst)
        as (new & -> & Hle & Hnew & Hndnew).
      rewrite Hs. split.
      * unfold cleanupArrows. apply NoDup_map_filter.
        rewrite counters_markIfMissed, counters_updateArrowPositions, map_app.
        apply NoDup_app; [exact Hnd|exact Hndnew|].
        intros c Hold Hnewc.
        apply in_map_iff in Hold. destruct Hold as (a & <- & Ha).
        apply in_map_iff in Hnewc. destruct Hnewc as (b & Hb & Hbin).
        rewrite Forall_forall in Hall, Hnew.
        specialize (Hall a Ha). specialize (Hnew b Hbin). lia.
      * apply Forall_forall. intros a Ha.
        apply (in_map counterOf) in Ha. unfold cleanupArrows in Ha.
        apply in_map_iff in Ha. destruct Ha as (b & Hb & Hbin).
        apply filter_In in Hbin. destruct Hbin as [Hbin _].
        apply (in_map counterOf) in Hbin.
        rewrite counters_markIfMissed, counters_updateArrowPositions, map_app in Hbin.
        rewrite Hb in Hbin. apply in_app_or in Hbin.
        rewrite Forall_forall in Hall, Hnew.
        destruct Hbin as [Hin|Hin]; apply in_map_iff in Hin;
          destruct Hin as (x & Hx & Hxin).
        -- specialize (Hall x Hxin). lia.
        -- specialize (Hnew x Hxin). lia.
    + apply status_eqb_neq in Hst. rewrite gameLoop_not_playing by exact Hst.
      now split.
  - (* gesture *)
    assert (Hc : arrowIdCounterRef (snd (processGesture g e)) = arrowIdCounterRef e).
    { unfold processGesture. destruct (negb _); [reflexivity|]. cbv zeta.
      destruct (sortByDistance _) as [|h t]; [reflexivity|].
      destruct (getHitRating (position h)); reflexivity. }
    rewrite Hc.
    destruct (processGesture_arrows g e) as [->|(h & r & ->)]; [now split|].
    split; [now rewrite counters_mark_hit|].
    apply Forall_forall. intros a Ha. apply in_map_iff in Ha.
    destruct Ha as (b & <- & Hb). rewrite Forall_forall in Hall.
    specialize (Hall b Hb).
    now destruct (id_eqb (arrow_id b) (arrow_id h)).
  - (* pause *) unfold pause. destruct (negb _); now split.
  - (* resume *) unfold resume. destruct (negb _); now split.
  - (* end *) now split.
  - (* reset *) cbn. split; constructor.
  - (* difficulty *) now split.
Qed.

(** Every run from the freshly mounted hook keeps the arrow ids distinct. *)
Lemma run_ids_distinct d ops :
  let e := run (initialEngine d) ops in
  synced e /\ NoDup (map arrow_id (arrows (gameState e))).
Proof.
  cbv zeta.
  assert (H : forall e, synced e -> idsInOrder e ->
                        synced (run e ops) /\ idsInOrder (run e ops)).
  { unfold run. induction ops as [|op ops IH]; intros e Hs Hi; [now split|].
    cbn [fold_left]. apply IH; [apply step_synced|now apply step_idsInOrder]. }
  destruct (H (initialEngine d)) as [Hs [Hnd _]].
  - reflexivity.
  - split; constructor.
  - split; [exact Hs|].
    apply (NoDup_map_inv id_counter). now rewrite map_map.
Qed.

(** What [processGesture] does on a rendered hook with distinct arrow ids. *)
Lemma processGesture_spec (g : GestureEvent) (e : Engine) :
  synced e ->
  status (gameState e) = Playing ->
  NoDup (map arrow_id (arrows (gameState e))) ->
  let gs := gameState e in
  let l := GESTURE_TO_LANE (ev_type g) in
  let res := fst (processGesture g e) in
  let e' := snd (processGesture g e) in
  ((forall a, ~ Candidate gs l a) -> res = noHit /\ e' = e)
  /\ ((exists a, Candidate gs l a) ->
      exists pre h post,
        arrows gs = pre ++ h :: post
        /\ Candidate gs l h
        /\ (forall c, Candidate gs l c ->
              Qabs (position h - (95 # 100)) <= Qabs (position c - (95 # 100)))
        /\ hr_hit res = true
        /\ hr_arrow res = Some h
        /\ arrows (gameState e')
           = pre ++ asHit h (getHitRating (position h)) :: post).
Proof.
  unfold synced. intros Hs Hst Hnd. cbv zeta.
  unfold processGesture. rewrite Hs, Hst. cbn [status_eqb negb]. cbv zeta.
  destruct (sortByDistance (filter (isTarget (GESTURE_TO_LANE (ev_type g)))
                              (arrows (gameState e)))) as [|h t] eqn:Hsort.
  - (* no target *)
    apply sortByDistance_nil in Hsort. split.
    + intros _. split; reflexivity.
    + intros [a Ha]. apply isTarget_Candidate in Ha.
      rewrite Hsort in Ha. destruct Ha.
  - (* the head of the sorted targets *)
    apply sortByDistance_head in Hsort. destruct Hsort as [Hin Hmin].
    pose proof (proj1 (isTarget_Candidate _ _ _) Hin) as Hcand.
    assert (Hrate : getHitRating (position h) <> Miss).
    { destruct Hcand as (_ & _ & _ & _ & Hlo & Hhi).
      now apply rating_in_hit_zone. }
    split.
    + intro Hnone. exfalso. exact (Hnone h Hcand).
    + intros _.
      destruct Hcand as (Hinh & Hrest).
      destruct (mark_hit_unique _ h (getHitRating (position h)) Hnd Hinh)
        as [pre [post [Hsplit Hmap]]].
      exists pre, h, post.
      split; [exact Hsplit|].
      split; [exact (conj Hinh Hrest)|].
      split.
      { intros c Hc. apply isTarget_Candidate in Hc.
        exact (Hmin c Hc). }
      destruct (getHitRating (position h)) eqn:Hr; try congruence;
        cbn [fst snd hr_hit hr_arrow notify setGameState gameState arrows];
        repeat split; exact Hmap.
Qed.

(** The end-to-end example of the specification: start, the countdown, an
    arrow spawned in lane 0 and advanced to 0.97, then a [wave-left]: a
    perfect hit worth 100 points, combo 1. *)
Example first_arrow_perfect_hit :
  let e := run (initialEngine Easy) Scenarios.firstArrowAt97 in
  let r := processGesture Scenarios.waveLeft e in
  hr_rating (fst r) = Some Perfect
  /\ hr_score (fst r) = Some 100%Z
  /\ combo (gameState (snd r)) = 1%Z
  /\ score (gameState (snd r)) = 100%Z.
Proof. cbv zeta. repeat split; vm_compute; reflexivity. Qed.

(** The example of the specification: of two eligible arrows of one lane
    at 0.90 and 0.97, the gesture resolves the one at 0.97, as perfect,
    and a second gesture resolves the one at 0.90, as good. *)
Example two_in_lane_closest_first :
  let first := processGesture Scenarios.waveLeft Scenarios.twoInLane in
  let second := processGesture Scenarios.waveLeft (commit (snd first)) in
  hr_arrow (fst first) = Some (Scenarios.arrowAt 2 0 0 (97 # 100))
  /\ hr_rating (fst first) = Some Perfect
  /\ hr_score (fst first) = Some 100%Z
  /\ hr_arrow (fst second) = Some (Scenarios.arrowAt 1 0 0 (90 # 100))
  /\ hr_rating (fst second) = Some Good
  /\ combo (gameState (snd second)) = 2%Z
  /\ score (gameState (snd second)) = 150%Z.
Proof. cbv zeta. repeat split; vm_compute; reflexivity. Qed.

(** *** Gestures and frames of one animation frame *)

(** The answer of [processGesture] is computed from [gameStateRef] alone:
    the session in the state cell plays no part in it. *)
Lemma processGesture_answer_from_ref g e e' :
  gameStateRef e = gameStateRef e' ->
  fst (processGesture g e) = fst (processGesture g e').
Proof.
  intro H. unfold processGesture. rewrite H.
  destruct (negb _); [reflexivity|]. cbv zeta.
  destruct (sortByDistance _) as [|h t]; [reflexivity|].
  destruct (getHitRating (position h)); reflexivity.
Qed.

(** C1.  A gesture in the animation frame in which its arrow is missed.
    After [Scenarios.arrowMissedThisFrame] the session is playing and its
    only arrow of lane 0, arrow 1, is missed, at 1.0003: the session has no
    candidate for a [wave-left], and one miss.  [gameStateRef] still
    holds the session of the last render, with arrow 1 unresolved at
    0.9947.  [processGesture] answers the [wave-left] with a perfect hit
    worth 100 points, and the session afterwards has arrow 1 both hit and
    missed, rated perfect, counted as one perfect hit and one miss.
    After [Scenarios.arrowGoneThisFrame], where the frame has removed
    arrow 1 from the session, the answer is the same perfect hit, counted
    and scored, and no arrow of the session is marked hit. *)
Theorem gesture_hits_arrow_missed_in_same_frame :
  let e := exec (initialEngine Easy) Scenarios.arrowMissedThisFrame in
  let r := processGesture Scenarios.waveLeft e in
  let e2 := exec (initialEngine Easy) Scenarios.arrowGoneThisFrame in
  let r2 := processGesture Scenarios.waveLeft e2 in
  status (gameState e) = Playing
  /\ shows false true (Some Miss) (3001 # 3000)
         (arrowNumbered 1 (gameState e)) = true
  /\ misses (gameState e) = 1%Z
  /\ (forall a, ~ Candidate (gameState e) 0 a)
  /\ shows false false None (2984 # 3000)
         (arrowNumbered 1 (gameStateRef e)) = true
  /\ hr_hit (fst r) = true
  /\ hr_rating (fst r) = Some Perfect
  /\ hr_score (fst r) = Some 100%Z
  /\ shows true true (Some Perfect) (3001 # 3000)
       (arrowNumbered 1 (gameState (snd r))) = true
  /\ perfectHits (gameState (snd r)) = 1%Z
  /\ misses (gameState (snd r)) = 1%Z
  /\ score (gameState (snd r)) = 100%Z
  /\ status (gameState e2) = Playing
  /\ arrowNumbered 1 (gameState e2) = None
  /\ hr_hit (fst r2) = true
  /\ hr_rating (fst r2) = Some Perfect
  /\ existsb hit (arrows (gameState (snd r2))) = false
  /\ perfectHits (gameState (snd r2)) = 1%Z
  /\ score (gameState (snd r2)) = 100%Z.
Proof.
  cbv zeta.
  split; [vm_compute; reflexivity|].
  split; [vm_compute; reflexivity|].
  split; [vm_compute; reflexivity|].
  split.
  { assert (Hnone : filter (isTarget 0)
                      (arrows (gameState
                                 (exec (initialEngine Easy)
                                    Scenarios.arrowMissedThisFrame))) = [])
      by (vm_compute; reflexivity).
    intros a Ha. apply isTarget_Candidate in Ha. rewrite Hnone in Ha.
    destruct Ha. }
  split; [vm_compute; reflexivity|].
  split; [vm_compute; reflexivity|].
  split; [vm_compute; reflexivity|].
  split; [vm_compute; reflexivity|].
  split; [vm_compute; reflexivity|].
  repeat split; vm_compute; reflexivity.
Qed.

(** *** Combo *)

(** A hit leaves the combo at the combo of [gameStateRef] plus 1. *)
Lemma processGesture_hit_combo g e :
  hr_hit (fst (processGesture g e)) = true ->
  combo (gameState (snd (processGesture g e))) = (combo (gameStateRef e) + 1)%Z.
Proof.
  unfold processGesture.
  destruct (negb (status_eqb (status (gameStateRef e)) Playing)); [discriminate|].
  cbv zeta.
  destruct (sortByDistance _) as [|h t]; [discriminate|].
  destruct (getHitRating (position h)); cbn; congruence.
Qed.

(** A frame of a playing game in which at least one arrow becomes missed
    leaves the combo of the session at 0, whatever it was, and adds the
    number of such arrows to the misses; on every hook, rendered or not. *)
Lemma gameLoop_miss_resets_combo timestamp random random2 dateNow e :
  status (gameStateRef e) = Playing ->
  existsb becomesMissed (frameArrows timestamp random random2 dateNow e) = true ->
  let e' := gameLoop timestamp random random2 dateNow e in
  combo (gameState e') = 0%Z
  /\ misses (gameState e')
     = (misses (gameState e)
        + Z.of_nat (length (filter becomesMissed
                              (frameArrows timestamp random random2 dateNow e))))%Z.
Proof.
  intros Hst Hex. cbv zeta.
  destruct (gameLoop_playing timestamp random random2 dateNow e Hst)
    as (_ & Hcombo & Hmiss & _ & _).
  assert (Hpos : (Z.of_nat (length (filter becomesMissed
                    (frameArrows timestamp random random2 dateNow e))) >? 0)%Z = true).
  { apply existsb_exists in Hex. destruct Hex as [a [Ha Hb]].
    assert (Hf : In a (filter becomesMissed
                         (frameArrows timestamp random random2 dateNow e)))
      by (apply filter_In; split; assumption).
    destruct (filter becomesMissed _) as [|x xs]; [destruct Hf|].
    reflexivity. }
  rewrite Hpos in Hcombo. split; [exact Hcombo|exact Hmiss].
Qed.

(** C5.  A miss and a hit in one animation frame.  After
    [Scenarios.missThisFrame] the frame callback has marked arrow 2
    missed and reset the combo of the session to 0, with one miss;
    [gameStateRef] still holds the session of the last render, with combo
    1.  The [wave-right] of the same animation frame is answered with a
    good hit on arrow 3, which is unresolved at 0.9337, and the combo of
    the session becomes 2, the combo of the ref plus 1, not 0 plus 1; the
    render that follows shows a combo of 2. *)
Theorem hit_after_miss_builds_on_stale_combo :
  let e := exec (initialEngine Easy) Scenarios.missThisFrame in
  let r := processGesture Scenarios.waveRight e in
  shows false true (Some Miss) (3001 # 3000)
      (arrowNumbered 2 (gameState e)) = true
  /\ combo (gameState e) = 0%Z
  /\ misses (gameState e) = 1%Z
  /\ combo (gameStateRef e) = 1%Z
  /\ shows false false None (2801 # 3000) (arrowNumbered 3 (gameState e)) = true
  /\ hr_hit (fst r) = true
  /\ hr_rating (fst r) = Some Good
  /\ shows true false (Some Good) (2801 # 3000)
       (arrowNumbered 3 (gameState (snd r))) = true
  /\ combo (gameState (snd r)) = 2%Z
  /\ maxCombo (gameState (snd r)) = 2%Z
  /\ combo (gameState (commit (snd r))) = 2%Z
  /\ combo (gameStateRef (commit (snd r))) = 2%Z.
Proof.
  cbv zeta.
  split; [vm_compute; reflexivity|].
  split; [vm_compute; reflexivity|].
  split; [vm_compute; reflexivity|].
  split; [vm_compute; reflexivity|].
  split; [vm_compute; reflexivity|].
  split; [vm_compute; reflexivity|].
  split; [vm_compute; reflexivity|].
  split; [vm_compute; reflexivity|].
  repeat split; vm_compute; reflexivity.
Qed.

(** *** Resolved arrows *)

Lemma markIfMissed_resolved a : resolved a = true -> markIfMissed a = a.
Proof. intro H. unfold markIfMissed, becomesMissed. now rewrite H. Qed.

Lemma updateArrowPositions_resolved a l t d :
  In a l -> resolved a = true -> In a (updateArrowPositions l t d).
Proof.
  intros Hin Hr. unfold updateArrowPositions. apply in_map_iff.
  exists a. split; [|exact Hin]. unfold resolved in Hr. now rewrite Hr.
Qed.

Lemma cleanupArrows_In a l :
  In a l -> position a <= 15 # 10 -> In a (cleanupArrows l).
Proof.
  intros Hin Hp. unfold cleanupArrows. apply filter_In. split; [exact Hin|].
  now rewrite (proj2 (NumFacts.ltb_ge _ _) Hp).
Qed.

(** On a rendered hook, a frame keeps a resolved arrow that is not past
    1.5 in the collection, as it is. *)
Lemma gameLoop_keeps_resolved timestamp random random2 dateNow e a :
  synced e ->
  In a (arrows (gameState e)) -> resolved a = true -> position a <= 15 # 10 ->
  In a (arrows (gameState (gameLoop timestamp random random2 dateNow e))).
Proof.
  unfold synced. intros Hs Hin Hr Hp.
  destruct (status_eqb (status (gameStateRef e)) Playing) eqn:Hst.
  - apply status_eqb_eq in Hst.
    destruct (gameLoop_playing timestamp random random2 dateNow e Hst) as [-> _].
    apply cleanupArrows_In; [|exact Hp].
    rewrite <- (markIfMissed_resolved a Hr). apply in_map.
    unfold frameArrows. apply updateArrowPositions_resolved; [|exact Hr].
    apply in_or_app. left. now rewrite Hs.
  - apply status_eqb_neq in Hst. now rewrite gameLoop_not_playing.
Qed.

Lemma Kept_of_same_arrows a e e' :
  arrows (gameState e') = arrows (gameState e) -> Kept a e -> Kept a e'.
Proof. unfold Kept. intros ->. exact (fun H => H). Qed.

Lemma commit_Kept a e : Kept a (commit e) <-> Kept a e.
Proof. reflexivity. Qed.

Lemma step_Kept a e op :
  synced e -> position a <= 15 # 10 -> clearsArrows op = false ->
  Kept a e -> Kept a (step e op).
Proof.
  intros Hs Hp Hop Hk. unfold step. apply commit_Kept.
  destruct op; try discriminate Hop; cbn [handle].
  - (* countdown tick *)
    apply (Kept_of_same_arrows a e); [|exact Hk].
    unfold countdownTick. destruct (countdownIntervalRef e); [|reflexivity].
    destruct (_ >? 0)%Z; reflexivity.
  - (* tick of a leaked interval *)
    apply (Kept_of_same_arrows a e); [|exact Hk].
    unfold leakedTick. destruct (nth_error _ _); [|reflexivity].
    destruct (_ >? 0)%Z; reflexivity.
  - (* frame *)
    destruct Hk as (a' & Hin & Hid & Hpos & Hr).
    exists a'. repeat split; try assumption.
    apply gameLoop_keeps_resolved; try assumption.
    now rewrite Hpos.
  - (* gesture *)
    destruct (processGesture_arrows g e) as [Heq|(h & r & Heq)].
    + exact (Kept_of_same_arrows a e _ Heq Hk).
    + destruct Hk as (a' & Hin & Hid & Hpos & Hr).
      unfold Kept. rewrite Heq.
      exists (if id_eqb (arrow_id a') (arrow_id h) then asHit a' r else a').
      split; [apply (in_map (fun arrow => if id_eqb (arrow_id arrow) (arrow_id h)
                                          then asHit arrow r else arrow));
              exact Hin|].
      destruct (id_eqb (arrow_id a') (arrow_id h)); repeat split; assumption.
  - (* pause *)
    apply (Kept_of_same_arrows a e); [|exact Hk].
    unfold pause. destruct (negb _); reflexivity.
  - (* resume *)
    apply (Kept_of_same_arrows a e); [|exact Hk].
    unfold resume. destruct (negb _); reflexivity.
  - (* end *)
    apply (Kept_of_same_arrows a e); [reflexivity|exact Hk].
  - (* difficulty *)
    apply (Kept_of_same_arrows a e); [reflexivity|exact Hk].
Qed.

(** On a rendered hook, and with a render after every event, events that
    neither start nor reset the session keep such an arrow. *)
Lemma run_Kept a ops :
  position a <= 15 # 10 -> keepsArrows ops ->
  forall e, synced e -> Kept a e -> Kept a (run e ops).
Proof.
  intros Hp Hops. unfold run.
  induction Hops as [|op ops Hop _ IH]; intros e Hs Hk; [exact Hk|].
  cbn [fold_left]. apply IH; [apply step_synced|].
  now apply step_Kept.
Qed.

(** On a rendered hook, the arrow that a hit returns lay in the hit zone,
    and the session afterwards holds it marked hit. *)
Lemma processGesture_hit_arrow g e h :
  synced e ->
  hr_arrow (fst (processGesture g e)) = Some h ->
  position h <= 1
  /\ In (asHit h (getHitRating (position h)))
        (arrows (gameState (snd (processGesture g e)))).
Proof.
  unfold synced. intro Hs. unfold processGesture.
  destruct (negb (status_eqb (status (gameStateRef e)) Playing)); [discriminate|].
  cbv zeta.
  destruct (sortByDistance _) as [|h0 t] eqn:Hsort; [discriminate|].
  apply sortByDistance_head in Hsort. destruct Hsort as [Hin _].
  apply isTarget_Candidate in Hin.
  destruct Hin as (Hin & _ & _ & _ & _ & Hhi).
  destruct (getHitRating (position h0)) eqn:Hr; cbn; intro H;
    try discriminate H; injection H as <-; (split; [exact Hhi|]);
    rewrite Hr;
    match goal with
    | |- In (asHit h0 ?r) _ =>
        apply (in_map_iff
                 (fun arrow => if id_eqb (arrow_id arrow) (arrow_id h0)
                               then asHit arrow r else arrow));
        exists h0; split;
        [ now rewrite (proj2 (id_eqb_eq _ _) eq_refl)
        | rewrite <- Hs; exact Hin ]
    end.
Qed.

(** The advance and miss-detection steps of a frame leave a resolved
    arrow as it is. *)
Lemma resolved_arrow_fixed a t d :
  resolved a = true ->
  updateArrowPositions [a] t d = [a]
  /\ fst (fst (checkMissedArrows [a])) = [a].
Proof.
  intro Hr. split.
  - unfold updateArrowPositions. cbn [map].
    unfold resolved in Hr. now rewrite Hr.
  - rewrite checkMissedArrows_spec. cbn [fst map].
    now rewrite markIfMissed_resolved.
Qed.

(** On the rendered hook [Scenarios.withMissedArrow], along
    [Scenarios.someEvents], each followed by a render: the wave hits the
    second arrow at 0.96, the arrow spawned by the first frame is missed
    by the last one, and the three resolved arrows are in the collection
    at the end. *)
Example run_keeps_resolved_arrows :
  let e := run Scenarios.withMissedArrow Scenarios.someEvents in
  status (gameState e) = Ended
  /\ perfectHits (gameState e) = 1%Z
  /\ map (fun a => (id_counter (arrow_id a), hit a, missed a))
         (filter resolved (arrows (gameState e)))
     = [(1%Z, false, true); (2%Z, true, false); (3%Z, false, true)].
Proof. cbv zeta. repeat split; vm_compute; reflexivity. Qed.

(** *** A frame after a hit, in one animation frame *)

(** The arrows that a frame of a playing game leaves in the session are
    computed from [gameStateRef] and the spawn refs alone: the arrows of
    the state cell, and so a hit queued since the last render, play no
    part in them. *)
Lemma gameLoop_arrows_from_ref timestamp random random2 dateNow e gs :
  status (gameStateRef e) = Playing ->
  arrows (gameState (gameLoop timestamp random random2 dateNow (setGameState e gs)))
  = arrows (gameState (gameLoop timestamp random random2 dateNow e)).
Proof.
  intro Hst.
  destruct (gameLoop_playing timestamp random random2 dateNow e Hst) as [-> _].
  destruct (gameLoop_playing timestamp random random2 dateNow (setGameState e gs) Hst)
    as [-> _].
  reflexivity.
Qed.

(** C10.  A frame that follows a hit before the hook has rendered.  After
    [Scenarios.hitThisFrame] arrow 1 is hit, rated perfect, at 0.97, and
    one perfect hit is counted.  The frame callback of the same animation
    frame rebuilds the arrows from [gameStateRef], where arrow 1 is not
    hit yet: in the session it is unresolved again, moved on to 0.9757,
    with the perfect hit still counted.  With the later frames it moves
    on: the frame at 8010 ms marks it missed at 1.0033, so that it counts
    as a perfect hit and as a miss; or, when the next frame comes only at
    9600 ms, it is past 1.5 and the cleanup removes it from the
    collection, with no reset and no start in between. *)
Theorem frame_after_hit_unfreezes_arrow :
  let hitDone := exec (initialEngine Easy) Scenarios.hitThisFrame in
  let next := react hitDone Scenarios.frameOfSameAnimationFrame in
  let missedLater :=
    exec next [Render; Handle (OpFrame 8010 0 0 1700000008010); Render] in
  let goneLater :=
    exec next [Render; Handle (OpFrame 9600 0 0 1700000009600); Render] in
  shows true false (Some Perfect) (97 # 100)
      (arrowNumbered 1 (gameState hitDone)) = true
  /\ perfectHits (gameState hitDone) = 1%Z
  /\ shows false false None (2927 # 3000)
         (arrowNumbered 1 (gameState next)) = true
  /\ perfectHits (gameState next) = 1%Z
  /\ shows false true (Some Miss) (3010 # 3000)
       (arrowNumbered 1 (gameState missedLater)) = true
  /\ perfectHits (gameState missedLater) = 1%Z
  /\ misses (gameState missedLater) = 1%Z
  /\ status (gameState goneLater) = Playing
  /\ arrowNumbered 1 (gameState goneLater) = None
  /\ perfectHits (gameState goneLater) = 1%Z.
Proof.
  cbv zeta.
  split; [vm_compute; reflexivity|].
  split; [vm_compute; reflexivity|].
  split; [vm_compute; reflexivity|].
  split; [vm_compute; reflexivity|].
  split; [vm_compute; reflexivity|].
  repeat split; vm_compute; reflexivity.
Qed.

(** With the render between the hit and the frame, the arrow stays hit
    where it was. *)
Example render_between_hit_and_frame :
  let hitDone := exec (initialEngine Easy) Scenarios.hitThisFrame in
  let next := exec hitDone [Render; Scenarios.frameOfSameAnimationFrame] in
  shows true false (Some Perfect) (97 # 100)
      (arrowNumbered 1 (gameState next)) = true
  /\ perfectHits (gameState next) = 1%Z.
Proof. cbv zeta. split; [vm_compute; reflexivity|vm_compute; reflexivity]. Qed.

End EngineFacts.

(* ================================================================== *)
(** * Part III: further properties of the code                         *)
(* ================================================================== *)

(** ** Scoring policy and lane tables *)

Module PolicyFacts.

Import GameConstants LaneTables PolicySpec.
Open Scope Q_scope.

(** X1.  The three hit-zone predicates agree: [isInHitZone] holds exactly
    where [getHitRating] is not a miss, where the rating is then perfect or
    good; and a position that [hasMissedHitZone] is rated a miss and is
    outside the hit zone. *)
Theorem hit_zone_predicates_agree (p : Q) :
  (isInHitZone p = true <-> getHitRating p <> Miss)
  /\ (isInHitZone p = true -> getHitRating p = Perfect \/ getHitRating p = Good)
  /\ (hasMissedHitZone p = true -> getHitRating p = Miss /\ isInHitZone p = false).
Proof.
  unfold isInHitZone, hasMissedHitZone, getHitRating,
    PERFECT_START, PERFECT_END, GOOD_START.
  destruct (NumFacts.leb_spec (95 # 100) p), (NumFacts.leb_spec p 1),
    (NumFacts.leb_spec (85 # 100) p), (NumFacts.ltb_spec p (95 # 100)),
    (NumFacts.ltb_spec 1 p);
    cbn [andb]; try lra;
    (split; [split; intro Hx; congruence|]);
    (split; intro Hx; try discriminate Hx; auto).
Qed.

Lemma hit_zone_predicates_agree_witness :
  isInHitZone (9 # 10) = true /\ getHitRating (9 # 10) = Good.
Proof.
  split; [reflexivity|].
  destruct (proj1 (proj2 (hit_zone_predicates_agree (9 # 10))) eq_refl) as [H|H];
    [discriminate H|exact H].
Defined.

(** X2.  A hit is worth its base points times the combo multiplier: a
    perfect hit between 100 and 400 points, a good hit between 50 and 200,
    a perfect hit twice a good one at the same combo, and neither ever
    less at a higher combo. *)
Theorem calculateHitScore_range :
  (forall c,
      (100 <= calculateHitScore Perfect c <= 400)%Z
      /\ (50 <= calculateHitScore Good c <= 200)%Z
      /\ calculateHitScore Perfect c = (2 * calculateHitScore Good c)%Z)
  /\ (forall r c d, (c <= d)%Z -> (calculateHitScore r c <= calculateHitScore r d)%Z).
Proof.
  assert (Hm : forall c, (1 <= getComboMultiplier c <= 4)%Z).
  { intro c. rewrite ScoringFacts.getComboMultiplier_cases.
    destruct (50 <=? c)%Z, (25 <=? c)%Z, (10 <=? c)%Z; lia. }
  split.
  - intro c. unfold calculateHitScore, PERFECT_POINTS, GOOD_POINTS.
    specialize (Hm c). lia.
  - intros r c d Hcd. unfold calculateHitScore.
    assert (Hmono : (getComboMultiplier c <= getComboMultiplier d)%Z).
    { rewrite !ScoringFacts.getComboMultiplier_cases.
      destruct (Z.leb_spec 50 c), (Z.leb_spec 25 c), (Z.leb_spec 10 c),
        (Z.leb_spec 50 d), (Z.leb_spec 25 d), (Z.leb_spec 10 d); lia. }
    destruct r; unfold PERFECT_POINTS, GOOD_POINTS; lia.
Qed.

Lemma calculateHitScore_range_witness :
  (9 <= 10)%Z /\ (calculateHitScore Perfect 9 <= calculateHitScore Perfect 10)%Z.
Proof.
  split; [lia|].
  apply (proj2 calculateHitScore_range Perfect 9%Z 10%Z). lia.
Defined.

(** The floor of a draw scaled to [n] choices is an index below [n]. *)
Lemma scaled_draw_index (r : Q) (n : nat) :
  0 <= r -> r < 1 -> (0 < n)%nat ->
  (Z.to_nat (Qfloor (r * inject_Z (Z.of_nat n))) < n)%nat.
Proof.
  intros H0 H1 Hn.
  set (x := r * inject_Z (Z.of_nat n)).
  assert (Hn' : 0 < inject_Z (Z.of_nat n)).
  { change 0 with (inject_Z 0). rewrite <- Zlt_Qlt. lia. }
  assert (Hx0 : 0 <= x) by (unfold x; nra).
  assert (Hx1 : x < inject_Z (Z.of_nat n)) by (unfold x; nra).
  pose proof (Qfloor_le x) as Hfl.
  pose proof (Qlt_floor x) as Hfu.
  assert (Hlo : (0 <= Qfloor x)%Z).
  { assert (H : inject_Z 0 < inject_Z (Qfloor x + 1))
      by (change (inject_Z 0) with 0; lra).
    rewrite <- Zlt_Qlt in H. lia. }
  assert (Hhi : (Qfloor x < Z.of_nat n)%Z).
  { rewrite Zlt_Qlt. lra. }
  lia.
Qed.

Lemma ARROW_PATTERNS_playable : Forall playable ARROW_PATTERNS.
Proof.
  unfold ARROW_PATTERNS.
  repeat (constructor;
          [ unfold playable; split; [cbn; lia|];
            split; [cbn; repeat (constructor; [cbn; intuition discriminate|]); constructor|];
            split; [repeat (constructor; [cbn; split; [lia|split; unfold Qle; cbn; lia]|]);
                    constructor|];
            eexists; eexists; reflexivity
          | ]).
  constructor.
Qed.

(** X3.  With its second draw in [0, 1), [selectRandomPattern] returns one
    of the eight patterns of [ARROW_PATTERNS] (never the [undefined] of an
    index out of range), so one to three arrows in distinct lanes 0..2 with
    delays from 0 to 600 ms, the first without delay; on [Easy], with the
    first draw below 1, it never returns a triple. *)
Theorem selectRandomPattern_playable (d : Difficulty) (random random2 : Q) :
  0 <= random2 -> random2 < 1 ->
  In (selectRandomPattern d random random2) ARROW_PATTERNS
  /\ playable (selectRandomPattern d random random2)
  /\ (d = Easy -> random < 1 ->
      (length (selectRandomPattern d random random2) <= 2)%nat).
Proof.
  intros H0 H1.
  assert (Hin : In (selectRandomPattern d random random2) ARROW_PATTERNS
                /\ (d = Easy -> random < 1 ->
                    (length (selectRandomPattern d random random2) <= 2)%nat)).
  { unfold selectRandomPattern.
    destruct (NumFacts.ltb_spec random (weightSingle d)) as [Hs|Hs].
    - pose proof (scaled_draw_index random2 3 H0 H1 ltac:(lia)) as Hi.
      cbn [length] in *.
      destruct (Z.to_nat _) as [|[|[|k]]]; [| | |lia];
        (split; [cbn; tauto|intros _ _; cbn; lia]).
    - destruct (NumFacts.ltb_spec random (weightSingle d + weightDouble d)) as [Hd|Hd].
      + pose proof (scaled_draw_index random2 3 H0 H1 ltac:(lia)) as Hi.
        cbn [length] in *.
        destruct (Z.to_nat _) as [|[|[|k]]]; [| | |lia];
          (split; [cbn; tauto|intros _ _; cbn; lia]).
      + pose proof (scaled_draw_index random2 2 H0 H1 ltac:(lia)) as Hi.
        cbn [length] in *.
        destruct (Z.to_nat _) as [|[|k]]; [| |lia];
          (split; [cbn; tauto|]);
          intros -> Hr; exfalso; cbn in Hd; lra. }
  destruct Hin as [Hin Heasy].
  split; [exact Hin|]. split; [|exact Heasy].
  pose proof ARROW_PATTERNS_playable as Hall.
  rewrite Forall_forall in Hall. now apply Hall.
Qed.

Lemma selectRandomPattern_playable_witness :
  0 <= 7 # 10 /\ 7 # 10 < 1
  /\ playable (selectRandomPattern Hard (95 # 100) (7 # 10))
  /\ selectRandomPattern Hard (95 # 100) (7 # 10) = tripleReverse.
Proof.
  assert (H0 : 0 <= 7 # 10) by (unfold Qle; cbn; lia).
  assert (H1 : 7 # 10 < 1) by (unfold Qlt; cbn; lia).
  split; [exact H0|]. split; [exact H1|].
  split; [|reflexivity].
  exact (proj1 (proj2 (selectRandomPattern_playable Hard (95 # 100) (7 # 10) H0 H1))).
Defined.

(** X4.  The two lane tables are inverse to each other and
    [getGestureLane] agrees with them: the gesture of a gesture's lane is
    that gesture, a lane with a gesture is that gesture's lane, a lane
    number from 3 on has no gesture, and no gesture has no lane. *)
Theorem lane_tables_inverse :
  (forall g, LANE_TO_GESTURE (GESTURE_TO_LANE g) = Some g)
  /\ (forall l g, LANE_TO_GESTURE l = Some g -> GESTURE_TO_LANE g = l)
  /\ (forall l, (3 <= l)%nat -> LANE_TO_GESTURE l = None)
  /\ (forall g, getGestureLane (Some g) = Some (GESTURE_TO_LANE g))
  /\ getGestureLane None = None.
Proof.
  split; [intros []; reflexivity|].
  split.
  { intros [|[|[|l]]] g H; cbn in H; try discriminate H;
      injection H as <-; reflexivity. }
  split.
  { intros [|[|[|l]]] H; try lia. reflexivity. }
  split; [intros []; reflexivity|reflexivity].
Qed.

Lemma lane_tables_inverse_witness :
  LANE_TO_GESTURE 1 = Some Jump /\ GESTURE_TO_LANE Jump = 1%nat.
Proof.
  split; [reflexivity|].
  exact (proj1 (proj2 lane_tables_inverse) 1%nat Jump eq_refl).
Defined.

End PolicyFacts.

(** ** Gesture classifier, further *)

Module ClassifierFacts.

Import GameConstants Types GestureDetection GameEngine ClassifierSpec SequenceSpec.
Open Scope Q_scope.

(** *** detectWave *)

Lemma scanSample_extrema seen e a :
  extremaOf seen e -> extremaOf (seen ++ [a]) (scanSample e a).
Proof.
  intro H. destruct seen as [|s0 seen].
  - cbn in H. subst e. cbn. exists a, a.
    repeat split; try (now left); destruct H as [<-|[]]; lra.
  - cbn [extremaOf] in H. destruct H as (lo & hi & Hlo & Hhi & Hmin & Hmint & Hmax & Hmaxt & Hall).
    assert (Hlh : ps_y lo <= ps_y hi) by (apply (Hall lo Hlo)).
    change ((s0 :: seen) ++ [a]) with (s0 :: (seen ++ [a])).
    cbn [extremaOf]. unfold scanSample. rewrite Hmin.
    assert (Hin : forall s, In s (s0 :: seen) -> In s (s0 :: seen ++ [a])).
    { intros s Hs. change (In s ((s0 :: seen) ++ [a])). apply in_or_app. now left. }
    assert (Hina : In a (s0 :: seen ++ [a])).
    { change (In a ((s0 :: seen) ++ [a])). apply in_or_app. right. now left. }
    assert (Hsplit : forall s, In s (s0 :: seen ++ [a]) -> In s (s0 :: seen) \/ s = a).
    { intros s Hs. change (In s ((s0 :: seen) ++ [a])) in Hs.
      apply in_app_or in Hs. destruct Hs as [Hs|[Hs|[]]]; auto. }
    destruct (NumFacts.ltb_spec (ps_y a) (ps_y lo)) as [Hlt|Hge].
    + cbn [maxY minY minTime maxTime]. rewrite Hmax.
      rewrite (proj2 (NumFacts.ltb_ge (ps_y hi) (ps_y a))) by lra.
      exists a, hi. cbn [maxY minY minTime maxTime].
      repeat split; auto.
      * destruct (Hsplit s H) as [Hs| ->]; [|lra].
        destruct (Hall s Hs). lra.
      * destruct (Hsplit s H) as [Hs| ->]; [|lra].
        destruct (Hall s Hs). lra.
    + rewrite Hmax.
      destruct (NumFacts.ltb_spec (ps_y hi) (ps_y a)) as [Hgt|Hle].
      * exists lo, a. cbn [maxY minY minTime maxTime].
        repeat split; auto.
        -- destruct (Hsplit s H) as [Hs| ->]; [|lra].
           destruct (Hall s Hs). lra.
        -- destruct (Hsplit s H) as [Hs| ->]; [|lra].
           destruct (Hall s Hs). lra.
      * exists lo, hi.
        repeat split; auto.
        -- destruct (Hsplit s H) as [Hs| ->]; [|lra].
           destruct (Hall s Hs). lra.
        -- destruct (Hsplit s H) as [Hs| ->]; [|lra].
           destruct (Hall s Hs). lra.
Qed.

Lemma scan_extrema l : forall seen e,
  extremaOf seen e -> extremaOf (seen ++ l) (fold_left scanSample l e).
Proof.
  induction l as [|a l IH]; intros seen e H.
  - now rewrite app_nil_r.
  - cbn [fold_left].
    replace (seen ++ a :: l) with ((seen ++ [a]) ++ l)
      by (now rewrite <- app_assoc).
    apply IH. now apply scanSample_extrema.
Qed.

Lemma half_le_ratio (a thr : Q) :
  0 < thr -> thr <= a -> 1 # 2 <= a / (thr * 2).
Proof.
  intros Hthr Ha. apply Qle_shift_div_l; [lra|]. lra.
Qed.

Lemma min_one_range (x : Q) : 1 # 2 <= x -> 1 # 2 <= Num.min 1 x /\ Num.min 1 x <= 1.
Proof.
  intro H. unfold Num.min. destruct (NumFacts.leb_spec 1 x); lra.
Qed.

(** The outcomes of [detectWave]. *)
Lemma detectWave_cases (samples : list PositionSample) (threshold : Q) :
  0 < threshold ->
  let r := detectWave samples threshold in
  (wave_detected r = true ->
     (3 <= length samples)%nat
     /\ (exists lo hi,
           In lo samples /\ In hi samples
           /\ (forall s, In s samples -> ps_y lo <= ps_y s /\ ps_y s <= ps_y hi)
           /\ threshold <= ps_y hi - ps_y lo
           /\ 50 < Qabs (ps_timestamp lo - ps_timestamp hi))
     /\ 1 # 2 <= wave_confidence r /\ wave_confidence r <= 1)
  /\ (wave_detected r = false -> wave_confidence r = 0)
  /\ ((length samples < 3)%nat -> wave_detected r = false).
Proof.
  intros Hthr. cbv zeta. unfold detectWave.
  destruct (Nat.ltb_spec (length samples) 3) as [Hshort|Hlong].
  { cbn. repeat split; try discriminate; reflexivity. }
  pose proof (scan_extrema samples [] initialExtrema eq_refl) as Hex.
  cbn [app] in Hex.
  destruct samples as [|s0 samples]; [cbn in Hlong; lia|].
  cbn [extremaOf] in Hex.
  destruct Hex as (lo & hi & Hlo & Hhi & Hmin & Hmint & Hmax & Hmaxt & Hall).
  rewrite Hmin, Hmax, Hmint, Hmaxt. cbv zeta.
  destruct (NumFacts.ltb_spec (ps_y hi - ps_y lo) threshold) as [Hsmall|Hamp].
  { cbn. repeat split; try discriminate; try reflexivity; try lia. }
  unfold Num.abs.
  destruct (NumFacts.ltb_spec 50 (Qabs (ps_timestamp lo - ps_timestamp hi)))
    as [Hspan|Hnear]; cbn [negb wave_detected wave_confidence].
  - split; [|split; [discriminate|intro; lia]].
    intros _. split; [exact Hlong|]. split.
    + exists lo, hi. repeat split; auto; apply (Hall s); assumption.
    + apply min_one_range. now apply half_le_ratio.
  - repeat split; try discriminate; try reflexivity; try lia.
Qed.

(** X5.  With a positive threshold, a wave that [detectWave] reports rests
    on at least three samples, among them a lowest and a highest one whose
    heights differ by the threshold or more and whose time stamps are more
    than 50 ms apart, and its confidence lies in [0.5, 1]; a negative
    answer has confidence 0, and fewer than three samples always give a
    negative answer. *)
Theorem detectWave_sound (samples : list PositionSample) (threshold : Q) :
  0 < threshold ->
  let r := detectWave samples threshold in
  (wave_detected r = true ->
     (3 <= length samples)%nat
     /\ (exists lo hi,
           In lo samples /\ In hi samples
           /\ (forall s, In s samples -> ps_y lo <= ps_y s /\ ps_y s <= ps_y hi)
           /\ threshold <= ps_y hi - ps_y lo
           /\ 50 < Qabs (ps_timestamp lo - ps_timestamp hi))
     /\ 1 # 2 <= wave_confidence r /\ wave_confidence r <= 1)
  /\ (wave_detected r = false -> wave_confidence r = 0)
  /\ ((length samples < 3)%nat -> wave_detected r = false).
Proof. exact (detectWave_cases samples threshold). Qed.

Lemma detectWave_sound_witness :
  0 < 5 # 100
  /\ wave_detected (detectWave Scenarios.riseThenFall (5 # 100)) = true
  /\ 1 # 2 <= wave_confidence (detectWave Scenarios.riseThenFall (5 # 100)).
Proof.
  assert (Ht : 0 < 5 # 100) by (unfold Qlt; cbn; lia).
  split; [exact Ht|]. split; [vm_compute; reflexivity|].
  apply (proj1 (detectWave_sound Scenarios.riseThenFall (5 # 100) Ht)).
  vm_compute. reflexivity.
Defined.

(** *** detectJump *)

(** [detectJump] on a frame whose hips are up. *)
Lemma detectJump_risen lms cal st thr dateNow :
  0 < thr -> risen cal thr lms ->
  let r := detectJump lms cal st thr dateNow in
  jump_detected r = negb (isInJump st)
  /\ isInJump (jump_newState r) = true
  /\ (jump_detected r = true ->
      1 # 2 <= jump_confidence r /\ jump_confidence r <= 1).
Proof.
  intros Hthr (lHip & rHip & Hl & Hr & Hvis & Hrise). cbv zeta.
  unfold detectJump. rewrite Hl, Hr.
  assert (Hv : negb (visible lHip) && negb (visible rHip) = false)
    by (destruct Hvis as [-> | ->]; [reflexivity|apply andb_false_r]).
  rewrite Hv. cbv zeta.
  rewrite (proj2 (NumFacts.ltb_lt _ _) Hrise). cbn [andb negb].
  destruct (isInJump st) eqn:Hin; cbn [negb jump_detected jump_newState isInJump jump_confidence].
  - split; [reflexivity|]. split; [exact Hin|]. discriminate.
  - split; [reflexivity|]. split; [reflexivity|]. intros _.
    assert (Hj : 1 # 2 <= Num.min 1
                   ((hipCenterY cal - (lm_y lHip + lm_y rHip) / 2) / (thr * 2))).
    { apply min_one_range. apply half_le_ratio; lra. }
    match goal with
    | |- context [Num.min 1 (?jc + ?bonus)] =>
        assert (Hb : 0 <= bonus) by (destruct (Num.ltb _ _); lra);
        generalize dependent bonus; generalize dependent jc
    end.
    intros jc Hjc bonus Hb. unfold Num.min.
    destruct (NumFacts.leb_spec 1 (jc + bonus)); lra.
Qed.

(** [detectJump] on a frame whose hips are back at the baseline. *)
Lemma detectJump_landed lms cal st thr dateNow :
  landed cal thr lms ->
  let r := detectJump lms cal st thr dateNow in
  jump_detected r = false /\ isInJump (jump_newState r) = false.
Proof.
  intros (lHip & rHip & Hl & Hr & Hvis & Hrise). cbv zeta.
  unfold detectJump. rewrite Hl, Hr.
  assert (Hv : negb (visible lHip) && negb (visible rHip) = false)
    by (destruct Hvis as [-> | ->]; [reflexivity|apply andb_false_r]).
  rewrite Hv. cbv zeta.
  rewrite (proj2 (NumFacts.ltb_ge _ _) Hrise). cbn [andb negb].
  destruct (isInJump st) eqn:Hin; cbn; auto.
Qed.

(** X6.  Over successive frames, each call of [detectJump] on the state
    the call before returned, with a positive threshold: a sustained rise
    (every frame with the hips more than the threshold above the baseline)
    entered from the ground is detected in its first frame and in no later
    one; and once a frame has the hips back within the threshold, the next
    rise is detected again. *)
Theorem detectJump_fires_once_per_rise (cal : CalibrationData) (thr : Q) :
  0 < thr ->
  (forall first rest st,
      isInJump st = false ->
      Forall (fun f => risen cal thr (fst f)) (first :: rest) ->
      fst (detectJumps (first :: rest) cal st thr)
      = true :: repeat false (length rest))
  /\ (forall rise back again st,
        Forall (fun f => risen cal thr (fst f)) rise ->
        landed cal thr (fst back) ->
        risen cal thr (fst again) ->
        exists before,
          fst (detectJumps (rise ++ [back; again]) cal st thr)
          = before ++ [false; true]).
Proof.
  intro Hthr.
  assert (Hheld : forall frames st,
             isInJump st = true ->
             Forall (fun f => risen cal thr (fst f)) frames ->
             fst (detectJumps frames cal st thr) = repeat false (length frames)
             /\ isInJump (snd (detectJumps frames cal st thr)) = true).
  { induction frames as [|[lms now] frames IH]; intros st Hin Hall.
    - cbn. auto.
    - inversion Hall as [|f fs Hf Hfs]; subst. cbn [fst] in Hf.
      destruct (detectJump_risen lms cal st thr now Hthr Hf) as (Hd & Hn & _).
      cbn [detectJumps].
      destruct (IH (jump_newState (detectJump lms cal st thr now)) Hn Hfs)
        as [Hds Hfin].
      destruct (detectJumps frames cal _ thr) as [ds final].
      cbn [fst snd] in *. rewrite Hd, Hin, Hds. cbn. auto. }
  split.
  - intros [lms now] rest st Hin Hall.
    inversion Hall as [|f fs Hf Hfs]; subst. cbn [fst] in Hf.
    destruct (detectJump_risen lms cal st thr now Hthr Hf) as (Hd & Hn & _).
    cbn [detectJumps].
    destruct (Hheld rest (jump_newState (detectJump lms cal st thr now)) Hn Hfs)
      as [Hds _].
    destruct (detectJumps rest cal _ thr) as [ds final].
    cbn [fst] in *. now rewrite Hd, Hin, Hds.
  - intros rise [blms bnow] [almsg anow] st Hrise Hback Hagain.
    cbn [fst] in Hback, Hagain.
    assert (Htail : forall st0,
               fst (detectJumps [(blms, bnow); (almsg, anow)] cal st0 thr)
               = [false; true]).
    { intro st0. cbn [detectJumps fst].
      destruct (detectJump_landed blms cal st0 thr bnow Hback) as [Hd Hn].
      destruct (detectJump_risen almsg cal
                  (jump_newState (detectJump blms cal st0 thr bnow)) thr anow
                  Hthr Hagain) as (Hd2 & _ & _).
      rewrite Hd, Hd2, Hn. reflexivity. }
    clear Hback Hagain. revert st.
    induction rise as [|[lms now] rise IH]; intro st.
    + exists []. apply Htail.
    + inversion Hrise as [|f fs Hf Hfs]; subst.
      destruct (IH Hfs (jump_newState (detectJump lms cal st thr now)))
        as [before Hb].
      exists (jump_detected (detectJump lms cal st thr now) :: before).
      change (((lms, now) :: rise) ++ [(blms, bnow); (almsg, anow)])
        with ((lms, now) :: (rise ++ [(blms, bnow); (almsg, anow)])).
      cbn [detectJumps].
      destruct (detectJumps (rise ++ _) cal _ thr) as [ds final].
      cbn [fst] in *. now rewrite Hb.
Qed.

Lemma jumpFrame_risen : risen Scenarios.baseline (8 # 100) Scenarios.jumpFrame.
Proof.
  exists (Scenarios.at_height (4 # 10) (9 # 10)), (Scenarios.at_height (4 # 10) (9 # 10)).
  split; [reflexivity|]. split; [reflexivity|].
  split; [left; reflexivity|]. vm_compute. reflexivity.
Qed.

Lemma detectJump_fires_once_per_rise_witness :
  0 < 8 # 100
  /\ fst (detectJumps
            [ (Scenarios.jumpFrame, 0); (Scenarios.jumpFrame, 16);
              (Scenarios.jumpFrame, 33) ]
            Scenarios.baseline {| isInJump := false; jump_lastGestureTime := 0 |}
            (8 # 100))
     = [true; false; false].
Proof.
  assert (Ht : 0 < 8 # 100) by (unfold Qlt; cbn; lia).
  split; [exact Ht|].
  apply (proj1 (detectJump_fires_once_per_rise Scenarios.baseline (8 # 100) Ht)
           (Scenarios.jumpFrame, 0)
           [ (Scenarios.jumpFrame, 16); (Scenarios.jumpFrame, 33) ]).
  - reflexivity.
  - repeat (constructor; [exact jumpFrame_risen|]). constructor.
Defined.

Lemma detectJump_quiet lms cal st thr dateNow :
  jump_detected (detectJump lms cal st thr dateNow) = false ->
  jump_confidence (detectJump lms cal st thr dateNow) = 0
  /\ jump_lastGestureTime (jump_newState (detectJump lms cal st thr dateNow))
     = jump_lastGestureTime st.
Proof.
  unfold detectJump.
  destruct (nth_error lms LEFT_HIP) as [lHip|]; [|now split].
  destruct (nth_error lms RIGHT_HIP) as [rHip|]; [|now split].
  destruct (negb (visible lHip) && negb (visible rHip)); [now split|].
  cbv zeta.
  destruct (Num.ltb thr _ && negb (isInJump st)); [discriminate|].
  destruct (negb (Num.ltb thr _) && isInJump st); now split.
Qed.

(** X7.  [detectJump] degrades to no detection: when a hip landmark is
    missing from the frame, or neither hip has visibility above 0.5, it
    reports nothing and returns the tracking state it was given; and when
    it reports nothing, the confidence is 0 and the time of the last
    gesture is kept. *)
Theorem detectJump_without_hips lms cal st thr dateNow :
  let r := detectJump lms cal st thr dateNow in
  ((nth_error lms LEFT_HIP = None \/ nth_error lms RIGHT_HIP = None
    \/ (forall lm, (nth_error lms LEFT_HIP = Some lm \/ nth_error lms RIGHT_HIP = Some lm)
                   -> visible lm = false)) ->
   r = {| jump_detected := false; jump_newState := st; jump_confidence := 0 |})
  /\ (jump_detected r = false ->
      jump_confidence r = 0
      /\ jump_lastGestureTime (jump_newState r) = jump_lastGestureTime st).
Proof.
  cbv zeta. unfold detectJump. split.
  - intros [H|[H|H]].
    + now rewrite H.
    + rewrite H. now destruct (nth_error lms LEFT_HIP).
    + destruct (nth_error lms LEFT_HIP) as [lHip|]; [|reflexivity].
      destruct (nth_error lms RIGHT_HIP) as [rHip|]; [|reflexivity].
      rewrite (H lHip) by now left. rewrite (H rHip) by now right.
      reflexivity.
  - apply detectJump_quiet.
Qed.

Lemma detectJump_without_hips_witness :
  nth_error (@nil Landmark) LEFT_HIP = None
  /\ detectJump [] Scenarios.baseline {| isInJump := true; jump_lastGestureTime := 7 |}
       (8 # 100) 0
     = {| jump_detected := false;
          jump_newState := {| isInJump := true; jump_lastGestureTime := 7 |};
          jump_confidence := 0 |}.
Proof.
  split; [reflexivity|].
  apply (proj1 (detectJump_without_hips [] Scenarios.baseline
                  {| isInJump := true; jump_lastGestureTime := 7 |} (8 # 100) 0)).
  left. reflexivity.
Defined.

(** *** processGestureFrame: what a report means *)

(** The two outcomes of a wrist block. *)
Lemma wristBlock_cases wrist ws t opts :
  match wristBlock wrist ws t opts with
  | (ws', Some c) =>
      debounceTime opts < t - wrist_lastGestureTime ws
      /\ ws' = {| samples := []; wrist_lastGestureTime := t |}
      /\ exists lm,
           wrist = Some lm /\ visible lm = true
           /\ wave_detected
                (detectWave
                   (samples (addPositionSample ws (lm_y lm) t (waveTimeWindow opts)))
                   (waveThreshold opts)) = true
           /\ c = wave_confidence
                    (detectWave
                       (samples (addPositionSample ws (lm_y lm) t (waveTimeWindow opts)))
                       (waveThreshold opts))
  | (ws', None) => wrist_lastGestureTime ws' = wrist_lastGestureTime ws
  end.
Proof.
  unfold wristBlock. destruct wrist as [lm|]; [|reflexivity].
  destruct (visible lm) eqn:Hv; [|reflexivity]. cbv zeta.
  destruct (NumFacts.ltb_spec (debounceTime opts) (t - wrist_lastGestureTime ws));
    [|reflexivity].
  destruct (wave_detected _) eqn:Hd; [|reflexivity].
  split; [assumption|]. split; [reflexivity|].
  exists lm. repeat split; assumption.
Qed.

(** The four outcomes of [processGestureFrame]. *)
Lemma processGestureFrame_cases lms cal st t opts now :
  let r := processGestureFrame lms cal st t opts now in
  (gesture r = Some WaveLeft ->
     debounceTime opts < t - wrist_lastGestureTime (st_leftWrist st)
     /\ st_leftWrist (newState r) = {| samples := []; wrist_lastGestureTime := t |}
     /\ st_rightWrist (newState r) = st_rightWrist st
     /\ st_jump (newState r) = st_jump st)
  /\ (gesture r = Some WaveRight ->
      debounceTime opts < t - wrist_lastGestureTime (st_rightWrist st)
      /\ st_rightWrist (newState r) = {| samples := []; wrist_lastGestureTime := t |}
      /\ wrist_lastGestureTime (st_leftWrist (newState r))
         = wrist_lastGestureTime (st_leftWrist st)
      /\ st_jump (newState r) = st_jump st)
  /\ (gesture r = Some Jump ->
      debounceTime opts < t - jump_lastGestureTime (st_jump st)
      /\ isInJump (st_jump st) = false
      /\ st_jump (newState r) = {| isInJump := true; jump_lastGestureTime := now |}
      /\ wrist_lastGestureTime (st_leftWrist (newState r))
         = wrist_lastGestureTime (st_leftWrist st)
      /\ wrist_lastGestureTime (st_rightWrist (newState r))
         = wrist_lastGestureTime (st_rightWrist st))
  /\ (gesture r = None ->
      confidence r = 0
      /\ wrist_lastGestureTime (st_leftWrist (newState r))
         = wrist_lastGestureTime (st_leftWrist st)
      /\ wrist_lastGestureTime (st_rightWrist (newState r))
         = wrist_lastGestureTime (st_rightWrist st)
      /\ jump_lastGestureTime (st_jump (newState r))
         = jump_lastGestureTime (st_jump st)).
Proof.
  cbv zeta. unfold processGestureFrame.
  pose proof (wristBlock_cases (nth_error lms LEFT_WRIST) (st_leftWrist st) t opts) as HL.
  pose proof (wristBlock_cases (nth_error lms RIGHT_WRIST) (st_rightWrist st) t opts) as HR.
  destruct (wristBlock (nth_error lms LEFT_WRIST) _ t opts) as [nl [cl|]].
  { destruct HL as (Hdeb & -> & _).
    cbn [gesture newState st_leftWrist st_rightWrist st_jump].
    split; [intros _; repeat split; assumption|].
    split; [discriminate|]. split; discriminate. }
  destruct (wristBlock (nth_error lms RIGHT_WRIST) _ t opts) as [nr [cr|]].
  { destruct HR as (Hdeb & -> & _).
    cbn [gesture newState st_leftWrist st_rightWrist st_jump].
    split; [discriminate|].
    split; [intros _; repeat split; assumption|].
    split; discriminate. }
  cbv zeta.
  destruct (NumFacts.ltb_spec (debounceTime opts)
              (t - jump_lastGestureTime (st_jump st))) as [Hdeb|Hdeb].
  - cbn [gesture newState st_leftWrist st_rightWrist st_jump confidence].
    destruct (jump_detected (detectJump lms cal (st_jump st) (jumpThreshold opts) now))
      eqn:Hd.
    + split; [discriminate|]. split; [discriminate|].
      split; [|discriminate]. intros _.
      split; [exact Hdeb|].
      revert Hd. unfold detectJump.
      destruct (nth_error lms LEFT_HIP) as [lHip|]; [|discriminate].
      destruct (nth_error lms RIGHT_HIP) as [rHip|]; [|discriminate].
      destruct (negb (visible lHip) && negb (visible rHip)); [discriminate|].
      cbv zeta.
      destruct (Num.ltb _ _ && negb (isInJump st.(st_jump))) eqn:Hj.
      * intros _. apply andb_true_iff in Hj. destruct Hj as [_ Hj].
        apply negb_true_iff in Hj. repeat split; assumption.
      * destruct (negb (Num.ltb _ _) && isInJump (st_jump st)); discriminate.
    + split; [discriminate|]. split; [discriminate|].
      split; [discriminate|]. intros _.
      split; [reflexivity|]. split; [exact HL|]. split; [exact HR|].
      exact (proj2 (detectJump_quiet lms cal (st_jump st)
                      (jumpThreshold opts) now Hd)).
  - cbn [gesture newState st_leftWrist st_rightWrist st_jump confidence
         jump_lastGestureTime].
    split; [discriminate|]. split; [discriminate|].
    split; [discriminate|]. intros _. repeat split; assumption.
Qed.

(** X8.  What a result of [processGestureFrame] says about the tracking
    state.  A left wave: the debounce time had passed since the last left
    wave, the left window is emptied and stamped with the frame's time, and
    the right wrist and the jump state are not touched.  A right wave: the
    same on the right, with the jump state untouched.  A jump: the debounce
    time had passed since the stored jump time, the player was not in a
    jump, and the jump state becomes in-jump, stamped with [Date.now()].
    No gesture: the confidence is 0 and none of the three stored times
    changes. *)
Theorem gesture_report_meaning lms cal st t opts now :
  let r := processGestureFrame lms cal st t opts now in
  (gesture r = Some WaveLeft ->
     debounceTime opts < t - wrist_lastGestureTime (st_leftWrist st)
     /\ st_leftWrist (newState r) = {| samples := []; wrist_lastGestureTime := t |}
     /\ st_rightWrist (newState r) = st_rightWrist st
     /\ st_jump (newState r) = st_jump st)
  /\ (gesture r = Some WaveRight ->
      debounceTime opts < t - wrist_lastGestureTime (st_rightWrist st)
      /\ st_rightWrist (newState r) = {| samples := []; wrist_lastGestureTime := t |}
      /\ wrist_lastGestureTime (st_leftWrist (newState r))
         = wrist_lastGestureTime (st_leftWrist st)
      /\ st_jump (newState r) = st_jump st)
  /\ (gesture r = Some Jump ->
      debounceTime opts < t - jump_lastGestureTime (st_jump st)
      /\ isInJump (st_jump st) = false
      /\ st_jump (newState r) = {| isInJump := true; jump_lastGestureTime := now |}
      /\ wrist_lastGestureTime (st_leftWrist (newState r))
         = wrist_lastGestureTime (st_leftWrist st)
      /\ wrist_lastGestureTime (st_rightWrist (newState r))
         = wrist_lastGestureTime (st_rightWrist st))
  /\ (gesture r = None ->
      confidence r = 0
      /\ wrist_lastGestureTime (st_leftWrist (newState r))
         = wrist_lastGestureTime (st_leftWrist st)
      /\ wrist_lastGestureTime (st_rightWrist (newState r))
         = wrist_lastGestureTime (st_rightWrist st)
      /\ jump_lastGestureTime (st_jump (newState r))
         = jump_lastGestureTime (st_jump st)).
Proof. exact (processGestureFrame_cases lms cal st t opts now). Qed.

Lemma gesture_report_meaning_witness :
  let r :=
    processGestureFrame Scenarios.jumpFrame Scenarios.baseline
      createInitialGestureState 1000 DEFAULT_GESTURE_OPTIONS 1700000000000 in
  gesture r = Some Jump
  /\ st_jump (newState r)
     = {| isInJump := true; jump_lastGestureTime := 1700000000000 |}.
Proof.
  cbv zeta.
  assert (Hg : gesture (processGestureFrame Scenarios.jumpFrame Scenarios.baseline
                          createInitialGestureState 1000 DEFAULT_GESTURE_OPTIONS
                          1700000000000) = Some Jump)
    by (vm_compute; reflexivity).
  split; [exact Hg|].
  exact (proj1 (proj2 (proj2 (proj1 (proj2 (proj2
           (gesture_report_meaning Scenarios.jumpFrame Scenarios.baseline
              createInitialGestureState 1000 DEFAULT_GESTURE_OPTIONS
              1700000000000))) Hg)))).
Defined.

(** *** Successive frames *)

(** X9.  Over any sequence of frames, each processed on the state the
    frame before returned, and from any tracking state: consecutive
    reports of the left wave are more than the debounce time apart in
    frame time, and so are those of the right wave; a jump, however, is
    reported only at a frame time more than the debounce time above the
    wall-clock reading taken when the jump before it was reported. *)
Theorem reports_spaced (frames : list Frame) (cal : CalibrationData)
    (opts : GestureOptions) :
  forall st,
    let log := processFrames frames cal st opts in
    wavesSpaced (debounceTime opts) WaveLeft
      (wrist_lastGestureTime (st_leftWrist st)) log
    /\ wavesSpaced (debounceTime opts) WaveRight
         (wrist_lastGestureTime (st_rightWrist st)) log
    /\ jumpsSpaced (debounceTime opts) (jump_lastGestureTime (st_jump st)) log.
Proof.
  induction frames as [|f frames IH]; intro st; [cbn; auto|].
  cbn [processFrames]. cbv zeta.
  set (r := processGestureFrame (f_landmarks f) cal st (f_timestamp f) opts (f_dateNow f)).
  destruct (IH (newState r)) as (IL & IR & IJ). cbv zeta in IL, IR, IJ.
  destruct (processGestureFrame_cases (f_landmarks f) cal st (f_timestamp f) opts
              (f_dateNow f)) as (HWL & HWR & HJ & HN).
  fold r in HWL, HWR, HJ, HN.
  cbn [wavesSpaced jumpsSpaced]. unfold reports.
  destruct (gesture r) as [[| |]|] eqn:Hg.
  - destruct (HWL eq_refl) as (Hd & Hl & Hr & Hj).
    rewrite Hl in IL. rewrite Hr in IR. rewrite Hj in IJ.
    cbn [wrist_lastGestureTime] in IL. repeat split; assumption.
  - destruct (HWR eq_refl) as (Hd & Hr & Hl & Hj).
    rewrite Hl in IL. rewrite Hr in IR. rewrite Hj in IJ.
    cbn [wrist_lastGestureTime] in IR. repeat split; assumption.
  - destruct (HJ eq_refl) as (Hd & _ & Hj & Hl & Hr).
    rewrite Hl in IL. rewrite Hr in IR. rewrite Hj in IJ.
    cbn [jump_lastGestureTime] in IJ. repeat split; assumption.
  - destruct (HN eq_refl) as (_ & Hl & Hr & Hj).
    rewrite Hl in IL. rewrite Hr in IR. rewrite Hj in IJ.
    repeat split; assumption.
Qed.

(** X10.  A frame in which no landmark has visibility above 0.5 (an empty
    or short landmark list included) yields no gesture, confidence 0, and
    the tracking state it was given. *)
Theorem frame_without_visible_landmarks lms cal st t opts now :
  (forall i lm, nth_error lms i = Some lm -> visible lm = false) ->
  processGestureFrame lms cal st t opts now
  = {| gesture := None; newState := st; confidence := 0 |}.
Proof.
  intro Hinv.
  assert (Hw : forall i,
             match nth_error lms i with
             | Some lm => visible lm = false | None => True end).
  { intro i. destruct (nth_error lms i) as [lm|] eqn:E; [|exact I].
    exact (Hinv i lm E). }
  assert (Hj : detectJump lms cal (st_jump st) (jumpThreshold opts) now
               = {| jump_detected := false; jump_newState := st_jump st;
                    jump_confidence := 0 |}).
  { unfold detectJump.
    destruct (nth_error lms LEFT_HIP) as [lHip|] eqn:El; [|reflexivity].
    destruct (nth_error lms RIGHT_HIP) as [rHip|] eqn:Er; [|reflexivity].
    now rewrite (Hinv _ _ El), (Hinv _ _ Er). }
  unfold processGestureFrame.
  rewrite (GestureFacts.wristBlock_unseen _ _ _ _ (Hw LEFT_WRIST)).
  rewrite (GestureFacts.wristBlock_unseen _ _ _ _ (Hw RIGHT_WRIST)).
  cbv zeta. rewrite Hj. cbn [jump_detected jump_newState jump_confidence].
  destruct st as [l r [inJump last]]. cbn.
  destruct (Num.ltb _ _); reflexivity.
Qed.

Lemma frame_without_visible_landmarks_witness :
  let lms := repeat (Scenarios.at_height (1 # 2) (5 # 10)) 33 in
  (forall i lm, nth_error lms i = Some lm -> visible lm = false)
  /\ processGestureFrame lms Scenarios.baseline createInitialGestureState 1000
       DEFAULT_GESTURE_OPTIONS 0
     = {| gesture := None; newState := createInitialGestureState; confidence := 0 |}.
Proof.
  cbv zeta.
  assert (H : forall i lm,
             nth_error (repeat (Scenarios.at_height (1 # 2) (5 # 10)) 33) i = Some lm ->
             visible lm = false).
  { intros i lm E. apply nth_error_In in E. apply repeat_spec in E.
    subst lm. reflexivity. }
  split; [exact H|].
  exact (frame_without_visible_landmarks _ Scenarios.baseline
           createInitialGestureState 1000 DEFAULT_GESTURE_OPTIONS 0 H).
Defined.

(** *** Confidence of a report *)

Lemma detectJump_confidence lms cal st thr dateNow :
  0 < thr ->
  jump_detected (detectJump lms cal st thr dateNow) = true ->
  1 # 2 <= jump_confidence (detectJump lms cal st thr dateNow)
  /\ jump_confidence (detectJump lms cal st thr dateNow) <= 1.
Proof.
  intro Hthr. unfold detectJump.
  destruct (nth_error lms LEFT_HIP) as [lHip|]; [|discriminate].
  destruct (nth_error lms RIGHT_HIP) as [rHip|]; [|discriminate].
  destruct (negb (visible lHip) && negb (visible rHip)); [discriminate|].
  cbv zeta.
  destruct (NumFacts.ltb_spec thr (hipCenterY cal - (lm_y lHip + lm_y rHip) / 2))
    as [Hrise|Hrise]; cbn [andb negb].
  - destruct (isInJump st); cbn [negb]; [discriminate|]. intros _.
    cbn [jump_confidence].
    assert (Hj : 1 # 2 <= Num.min 1
                   ((hipCenterY cal - (lm_y lHip + lm_y rHip) / 2) / (thr * 2))).
    { apply min_one_range. apply half_le_ratio; lra. }
    match goal with
    | |- context [Num.min 1 (?jc + ?bonus)] =>
        assert (Hb : 0 <= bonus) by (destruct (Num.ltb _ _); lra);
        generalize dependent bonus; generalize dependent jc
    end.
    intros jc Hjc bonus Hb. unfold Num.min.
    destruct (NumFacts.leb_spec 1 (jc + bonus)); lra.
  - destruct (isInJump st); discriminate.
Qed.

(** Every gesture that [processGestureFrame] reports, with positive
    thresholds, has a confidence in [0.5, 1]. *)
Lemma report_confidence lms cal st t opts now g :
  0 < waveThreshold opts -> 0 < jumpThreshold opts ->
  gesture (processGestureFrame lms cal st t opts now) = Some g ->
  1 # 2 <= confidence (processGestureFrame lms cal st t opts now)
  /\ confidence (processGestureFrame lms cal st t opts now) <= 1.
Proof.
  intros Hw Hj. unfold processGestureFrame.
  pose proof (wristBlock_cases (nth_error lms LEFT_WRIST) (st_leftWrist st) t opts) as HL.
  pose proof (wristBlock_cases (nth_error lms RIGHT_WRIST) (st_rightWrist st) t opts) as HR.
  destruct (wristBlock (nth_error lms LEFT_WRIST) _ t opts) as [nl [cl|]].
  { destruct HL as (_ & _ & lm & _ & _ & Hd & ->). intros _. cbn [confidence].
    exact (proj2 (proj2 (proj1 (detectWave_cases _ _ Hw) Hd))). }
  destruct (wristBlock (nth_error lms RIGHT_WRIST) _ t opts) as [nr [cr|]].
  { destruct HR as (_ & _ & lm & _ & _ & Hd & ->). intros _. cbn [confidence].
    exact (proj2 (proj2 (proj1 (detectWave_cases _ _ Hw) Hd))). }
  cbv zeta. destruct (Num.ltb _ _); cbn [gesture confidence]; [|discriminate].
  destruct (jump_detected _) eqn:Hd; [|discriminate].
  intros _. now apply detectJump_confidence.
Qed.

End ClassifierFacts.

(** ** The gesture hook *)

Module HookFacts.

Import GameConstants Types GestureDetection GameEngine ClassifierSpec.
Import UseGestureDetection GestureRecognizer HookSpec.
Open Scope Q_scope.

Section Hook.

Variable calibration : option CalibrationData.
Variable options : GestureDetectionOptions.


Lemma hookStep_booked h op : booked h -> booked (hookStep calibration options h op).
Proof.
  intros (Hc & Hz & Hl & Hg). destruct op; cbn [hookStep].
  - unfold processPose.
    destruct calibration as [cal|]; [|repeat split; tauto].
    destruct pose as [p|]; [|repeat split; tauto].
    destruct (negb (isEnabled h)); [repeat split; tauto|]. cbv zeta.
    destruct (gesture _) as [g|].
    + unfold booked. cbn. rewrite length_app. cbn [length].
      split; [lia|]. split; [split; [lia|discriminate]|].
      split.
      * intros ev E. injection E as <-. eexists. reflexivity.
      * intros g' E. injection E as <-. eexists. split; reflexivity.
    + repeat split; tauto.
  - unfold gestureTimeout. destruct (gestureTimeoutPending h); [|repeat split; tauto].
    unfold booked. cbn. repeat split; try tauto. discriminate.
  - unfold booked. cbn. split; [lia|]. split; [tauto|].
    split; discriminate.
  - repeat split; tauto.
  - unfold booked. cbn. repeat split; try tauto. discriminate.
Qed.

Lemma run_booked (enabled : bool) (ops : list HookOp) :
  booked (hookRun calibration options (initialHook enabled) ops).
Proof.
  assert (Hb : forall h, booked h -> booked (hookRun calibration options h ops)).
  { unfold hookRun. induction ops as [|op l IH]; intros h Hh; [exact Hh|].
    cbn [fold_left]. apply IH. now apply hookStep_booked. }
  apply Hb. unfold booked. cbn. split; [lia|]. split; [tauto|].
  split; discriminate.
Qed.

(** X12.  On every run of the hook from its mount: [gestureCount] is
    between 0 and the number of gestures delivered to [onGesture], and
    equal to it as long as the hook was never reset; it is 0 exactly when
    there is no [lastGestureEvent]; a [lastGestureEvent] is the event
    delivered last; and a [currentGesture] is the type of that event. *)
Theorem hook_bookkeeping (enabled : bool) (ops : list HookOp) :
  let h := hookRun calibration options (initialHook enabled) ops in
  (0 <= gestureCount h <= Z.of_nat (length (delivered h)))%Z
  /\ (gestureCount h = 0%Z <-> lastGestureEvent h = None)
  /\ (forall ev, lastGestureEvent h = Some ev ->
        exists before, delivered h = before ++ [ev])
  /\ (forall g, currentGesture h = Some g ->
        exists ev, lastGestureEvent h = Some ev /\ ev_type ev = g)
  /\ (noReset ops -> gestureCount h = Z.of_nat (length (delivered h))).
Proof.
  cbv zeta.
  assert (Hn : forall h, noReset ops ->
             gestureCount h = Z.of_nat (length (delivered h)) ->
             gestureCount (hookRun calibration options h ops)
             = Z.of_nat (length (delivered (hookRun calibration options h ops)))).
  { unfold hookRun. induction ops as [|op l IH]; intros h Hno Hh; [exact Hh|].
    cbn [fold_left]. inversion Hno as [|x xs Hop Hrest]; subst.
    apply IH; [exact Hrest|].
    destruct op; cbn [hookStep]; try exact Hh; try congruence.
    - unfold processPose.
      destruct calibration as [cal|]; [|exact Hh].
      destruct pose as [p|]; [|exact Hh].
      destruct (negb (isEnabled h)); [exact Hh|]. cbv zeta.
      destruct (gesture _) as [g|]; cbn; [|exact Hh].
      rewrite length_app. cbn [length]. lia.
    - unfold gestureTimeout. destruct (gestureTimeoutPending h); exact Hh. }
  destruct (run_booked enabled ops) as (H1 & H2 & H3 & H4).
  split; [exact H1|]. split; [exact H2|]. split; [exact H3|].
  split; [exact H4|].
  intro Hno. now apply Hn.
Qed.

Hypothesis waveThreshold_positive : 0 < waveThreshold (withDefaults options).
Hypothesis jumpThreshold_positive : 0 < jumpThreshold (withDefaults options).

Lemma hookStep_confident h op :
  Forall confident (delivered h) ->
  Forall confident (delivered (hookStep calibration options h op)).
Proof.
  intro H. destruct op; cbn [hookStep]; try exact H.
  - unfold processPose.
    destruct calibration as [cal|]; [|exact H].
    destruct pose as [p|]; [|exact H].
    destruct (negb (isEnabled h)); [exact H|]. cbv zeta.
    destruct (gesture _) as [g|] eqn:Hg; cbn; [|exact H].
    apply Forall_app. split; [exact H|].
    constructor; [|constructor]. unfold confident. cbn [ev_confidence].
    exact (ClassifierFacts.report_confidence _ _ _ _ _ _ g
             waveThreshold_positive jumpThreshold_positive Hg).
  - unfold gestureTimeout. destruct (gestureTimeoutPending h); exact H.
Qed.

End Hook.


Lemma hook_bookkeeping_witness :
  let h :=
    hookRun (Some Scenarios.baseline) MoreScenarios.noOptions (initialHook true)
      MoreScenarios.leftWaveOps in
  noReset MoreScenarios.leftWaveOps
  /\ currentGesture h = Some WaveLeft
  /\ gestureCount h = Z.of_nat (length (delivered h)).
Proof.
  cbv zeta.
  assert (H : noReset MoreScenarios.leftWaveOps)
    by (repeat (constructor; [discriminate|]); constructor).
  split; [exact H|]. split; [vm_compute; reflexivity|].
  exact (proj2 (proj2 (proj2 (proj2
           (hook_bookkeeping (Some Scenarios.baseline) MoreScenarios.noOptions
              true MoreScenarios.leftWaveOps)))) H).
Defined.

End HookFacts.

(** ** The hook and the recognizer *)

Module RecognizerFacts.

Import GameConstants Types GestureDetection GameEngine ClassifierSpec.
Import UseGestureDetection GestureRecognizer HookSpec.
Import String.
Open Scope Q_scope.

(** X13.  With positive thresholds, every event the hook delivers has a
    confidence in [0.5, 1]; so the confidence level that
    [GestureRecognizer] derives from [lastGestureEvent] is never ["low"]. *)
Theorem delivered_confidence_never_low
    (calibration : option CalibrationData) (options : GestureDetectionOptions)
    (enabled : bool) (ops : list HookOp) :
  0 < waveThreshold (withDefaults options) ->
  0 < jumpThreshold (withDefaults options) ->
  let h := hookRun calibration options (initialHook enabled) ops in
  Forall (fun ev => 1 # 2 <= ev_confidence ev /\ ev_confidence ev <= 1) (delivered h)
  /\ confidenceLevel (lastGestureEvent h) <> Some "low"%string.
Proof.
  intros Hw Hj. cbv zeta.
  assert (Hc : forall h, Forall confident (delivered h) ->
                         Forall confident (delivered (hookRun calibration options h ops))).
  { unfold hookRun. induction ops as [|op l IH]; intros h Hh; [exact Hh|].
    cbn [fold_left]. apply IH. now apply HookFacts.hookStep_confident. }
  specialize (Hc (initialHook enabled) (Forall_nil _)).
  split; [exact Hc|].
  destruct (HookFacts.run_booked calibration options enabled ops) as (_ & _ & Hl & _).
  destruct (lastGestureEvent _) as [ev|] eqn:E; [|discriminate].
  destruct (Hl ev eq_refl) as [before Hd].
  rewrite Hd in Hc. apply Forall_app in Hc. destruct Hc as [_ Hc].
  inversion Hc as [|x xs [Hlo Hhi] _]; subst.
  unfold confidenceLevel.
  destruct (Num.leb (8 # 10) (ev_confidence ev)); [discriminate|].
  rewrite (proj2 (NumFacts.leb_le _ _)) by lra. discriminate.
Qed.

Lemma delivered_confidence_never_low_witness :
  let h :=
    hookRun (Some Scenarios.baseline) MoreScenarios.noOptions (initialHook true)
      MoreScenarios.leftWaveOps in
  0 < waveThreshold (withDefaults MoreScenarios.noOptions)
  /\ 0 < jumpThreshold (withDefaults MoreScenarios.noOptions)
  /\ confidenceLevel (lastGestureEvent h) = Some "high"%string
  /\ confidenceLevel (lastGestureEvent h) <> Some "low"%string.
Proof.
  cbv zeta.
  assert (Hw : 0 < waveThreshold (withDefaults MoreScenarios.noOptions))
    by (vm_compute; reflexivity).
  assert (Hj : 0 < jumpThreshold (withDefaults MoreScenarios.noOptions))
    by (vm_compute; reflexivity).
  split; [exact Hw|]. split; [exact Hj|]. split; [vm_compute; reflexivity|].
  exact (proj2 (delivered_confidence_never_low (Some Scenarios.baseline)
                  MoreScenarios.noOptions true MoreScenarios.leftWaveOps Hw Hj)).
Defined.

End RecognizerFacts.

(** ** Game engine, further *)

Module SessionFacts.

Import GameConstants GameEngine EngineSpec SessionSpec PolicySpec.
Open Scope Q_scope.

(** *** One gesture *)

(** The two outcomes of [processGesture]: nothing, or the hit of a target
    of the ref's collection with the session update written out. *)
Lemma processGesture_outcome (g : GestureEvent) (e : Engine) :
  processGesture g e = (noHit, e)
  \/ exists h,
       In h (filter (isTarget (GESTURE_TO_LANE (ev_type g))) (arrows (gameStateRef e)))
       /\ status (gameStateRef e) = Playing
       /\ getHitRating (position h) <> Miss
       /\ let rating := getHitRating (position h) in
          let newCombo := (combo (gameStateRef e) + 1)%Z in
          let points := calculateHitScore rating newCombo in
          let prev := gameState e in
          let result :=
            {| hr_hit := true; hr_arrow := Some h;
               hr_rating := Some rating; hr_score := Some points |} in
          processGesture g e
          = (result,
             notify
               (setGameState e
                  {| status := status prev;
                     score := (score prev + points)%Z;
                     combo := newCombo;
                     maxCombo := Z.max (maxCombo prev) newCombo;
                     perfectHits :=
                       match rating with
                       | Perfect => (perfectHits prev + 1)%Z
                       | _ => perfectHits prev
                       end;
                     goodHits :=
                       match rating with
                       | Good => (goodHits prev + 1)%Z
                       | _ => goodHits prev
                       end;
                     misses := misses prev;
                     arrows :=
                       map (fun arrow =>
                              if id_eqb (arrow_id arrow) (arrow_id h)
                              then asHit arrow rating
                              else arrow)
                           (arrows prev);
                     difficulty := difficulty prev |})
               [OnHit result;
                OnComboChange newCombo (getComboMultiplier newCombo)]).
Proof.
  unfold processGesture.
  destruct (status_eqb (status (gameStateRef e)) Playing) eqn:Hst;
    cbn [negb]; [|now left].
  apply EngineFacts.status_eqb_eq in Hst. cbv zeta.
  destruct (sortByDistance _) as [|h t] eqn:Hsort; [now left|].
  apply EngineFacts.sortByDistance_head in Hsort. destruct Hsort as [Hin _].
  destruct (getHitRating (position h)) eqn:Hr; [right|right|now left];
    exists h; (split; [exact Hin|]); (split; [exact Hst|]);
    rewrite Hr; (split; [discriminate|]); reflexivity.
Qed.

(** *** One frame *)

(** Whatever the draws, the pattern is one of the table or, for a second
    draw outside [0, 1), empty. *)
Lemma selectRandomPattern_any d random random2 :
  selectRandomPattern d random random2 = []
  \/ In (selectRandomPattern d random random2) ARROW_PATTERNS.
Proof.
  unfold selectRandomPattern, ARROW_PATTERNS.
  destruct (Num.ltb random (weightSingle d)).
  - destruct (Z.to_nat _) as [|[|[|k]]];
      [right; cbn; auto 10 .. | left; destruct k; reflexivity].
  - destruct (Num.ltb random (weightSingle d + weightDouble d)).
    + destruct (Z.to_nat _) as [|[|[|k]]];
        [right; cbn; auto 10 .. | left; destruct k; reflexivity].
    + destruct (Z.to_nat _) as [|[|k]];
        [right; cbn; auto 10 .. | left; destruct k; reflexivity].
Qed.

Lemma makeArrows_fresh pattern t dateNow :
  Forall (fun entry => (fst entry < 3)%nat /\ 0 <= snd entry /\ snd entry <= 600) pattern ->
  forall c, Forall (fresh t) (makeArrows pattern t c dateNow).
Proof.
  induction 1 as [|[l delay] rest (Hl & Hd & _) _ IH]; intro c; cbn [makeArrows].
  - constructor.
  - constructor; [|apply IH].
    unfold fresh. cbn in *. repeat split; try reflexivity; try assumption. lra.
Qed.

Lemma spawnArrows_fresh lastSpawn c total t d random random2 dateNow :
  let sp := spawnArrows lastSpawn c total t d random random2 dateNow in
  Forall (fresh t) (fst sp)
  /\ snd (fst (snd sp)) = (c + Z.of_nat (length (fst sp)))%Z
  /\ snd (snd sp) = (total + Z.of_nat (length (fst sp)))%Z.
Proof.
  cbv zeta. unfold spawnArrows. destruct (Num.ltb _ _); cbn [fst snd].
  - split; [constructor|]. cbn. lia.
  - split; [|split; reflexivity].
    apply makeArrows_fresh.
    destruct (selectRandomPattern_any d random random2) as [-> | Hin];
      [constructor|].
    pose proof PolicyFacts.ARROW_PATTERNS_playable as Hall.
    rewrite Forall_forall in Hall. exact (proj1 (proj2 (proj2 (Hall _ Hin)))).
Qed.

Lemma updateArrowPositions_map l t d :
  updateArrowPositions l t d = map (advance t d) l.
Proof. reflexivity. Qed.

(** The whole hook after a frame of a playing game. *)
Lemma gameLoop_playing_full timestamp random random2 dateNow e :
  status (gameStateRef e) = Playing ->
  exists new,
    let e' := gameLoop timestamp random random2 dateNow e in
    let fa := map (advance timestamp (difficulty (gameStateRef e)))
                  (arrows (gameStateRef e) ++ new) in
    let k := Z.of_nat (length (filter becomesMissed fa)) in
    Forall (fresh timestamp) new
    /\ arrows (gameState e') = cleanupArrows (map markIfMissed fa)
    /\ combo (gameState e') = (if (k >? 0)%Z then 0%Z else combo (gameState e))
    /\ misses (gameState e') = (misses (gameState e) + k)%Z
    /\ score (gameState e') = score (gameState e)
    /\ maxCombo (gameState e') = maxCombo (gameState e)
    /\ perfectHits (gameState e') = perfectHits (gameState e)
    /\ goodHits (gameState e') = goodHits (gameState e)
    /\ status (gameState e') = status (gameState e)
    /\ difficulty (gameState e') = difficulty (gameState e)
    /\ totalArrowsSpawnedRef e'
       = (totalArrowsSpawnedRef e + Z.of_nat (length new))%Z
    /\ arrowIdCounterRef e' = (arrowIdCounterRef e + Z.of_nat (length new))%Z.
Proof.
  intro Hst.
  pose proof (spawnArrows_fresh (lastSpawnTimeRef e) (arrowIdCounterRef e)
                (totalArrowsSpawnedRef e) timestamp (difficulty (gameStateRef e))
                random random2 dateNow) as Hsp.
  cbv zeta in Hsp. unfold gameLoop. rewrite Hst. cbn [status_eqb negb].
  destruct (spawnArrows _ _ _ _ _ _ _ _) as [new [[ls ic] tot]].
  cbn [fst snd] in Hsp. destruct Hsp as (Hfresh & Hic & Htot).
  exists new. cbv zeta. rewrite EngineFacts.checkMissedArrows_spec.
  rewrite updateArrowPositions_map. cbn. subst ic tot.
  repeat split; assumption.
Qed.

(** *** Arrows stay well formed *)

Lemma travelTime_positive d : 0 < arrowTravelTime d.
Proof. destruct d; reflexivity. Qed.

Lemma max_zero_nonneg x : 0 <= Num.max 0 x.
Proof. unfold Num.max. destruct (NumFacts.leb_spec 0 x); lra. Qed.

Lemma fresh_wellFormed t a : fresh t a -> wellFormedArrow a.
Proof.
  intros (Hh & Hm & Hr & Hp & Hl & _). unfold wellFormedArrow.
  rewrite Hh, Hm, Hp. repeat split; try assumption; lra.
Qed.

Lemma advance_mark_wellFormed t d a :
  wellFormedArrow a -> wellFormedArrow (markIfMissed (advance t d a)).
Proof.
  intros (Hl & Hp & Hcase). unfold advance.
  destruct (hit a) eqn:Hh, (missed a) eqn:Hm; cbn [orb].
  - destruct Hcase.
  - rewrite EngineFacts.markIfMissed_resolved
      by (unfold resolved; now rewrite Hh).
    unfold wellFormedArrow. rewrite Hh, Hm. auto.
  - rewrite EngineFacts.markIfMissed_resolved
      by (unfold resolved; rewrite Hh, Hm; reflexivity).
    unfold wellFormedArrow. rewrite Hh, Hm. auto.
  - destruct Hcase as [Hr _].
    set (p := Num.max 0 ((t - spawnTime a) / arrowTravelTime d)).
    assert (Hp0 : 0 <= p) by apply max_zero_nonneg.
    unfold markIfMissed, becomesMissed, resolved.
    cbn [withPosition hit missed position orb negb andb]. rewrite Hh, Hm.
    cbn [orb negb andb].
    destruct (NumFacts.ltb_spec 1 p) as [Hover|Hin].
    + unfold wellFormedArrow. cbn. rewrite Hh. repeat split; assumption.
    + unfold wellFormedArrow. cbn. rewrite Hh, Hm. repeat split; assumption.
Qed.

(** *** Counting arrows over a frame *)

(** What one arrow contributes to the counts after a frame. *)
Lemma frame_counts_one t d a :
  wellFormedArrow a ->
  let x := markIfMissed (advance t d a) in
  let kept := if Num.ltb (15 # 10) (position x) then false else true in
  (Nat.b2n (kept && unresolved x) + Nat.b2n (becomesMissed (advance t d a))
   = Nat.b2n (unresolved a))%nat
  /\ kept && hit x = hit a.
Proof.
  intros (Hl & Hp & Hcase). cbv zeta. unfold advance.
  destruct (hit a) eqn:Hh, (missed a) eqn:Hm; cbn [orb].
  - destruct Hcase.
  - rewrite EngineFacts.markIfMissed_resolved
      by (unfold resolved; now rewrite Hh).
    destruct Hcase as (_ & Hhi & _).
    rewrite (proj2 (NumFacts.ltb_ge (15 # 10) (position a))) by lra.
    unfold becomesMissed, unresolved, resolved. rewrite Hh. cbn. auto.
  - rewrite EngineFacts.markIfMissed_resolved
      by (unfold resolved; rewrite Hh, Hm; reflexivity).
    unfold becomesMissed, unresolved, resolved. rewrite Hh, Hm.
    destruct (Num.ltb (15 # 10) (position a)); cbn; auto.
  - set (p := Num.max 0 ((t - spawnTime a) / arrowTravelTime d)).
    unfold markIfMissed, becomesMissed, unresolved, resolved.
    cbn [withPosition hit missed position]. rewrite Hh, Hm. cbn [orb negb andb].
    destruct (NumFacts.ltb_spec 1 p) as [Hover|Hin]; cbn [asMissed hit missed position].
    + cbn [withPosition hit position]. rewrite Hh, orb_true_r.
      cbn [negb]. rewrite !andb_false_r. cbn. auto.
    + cbn [withPosition hit missed position].
      rewrite (proj2 (NumFacts.ltb_ge (15 # 10) p)) by lra.
      rewrite Hh, Hm. cbn. auto.
Qed.

Lemma frame_counts t d l :
  Forall wellFormedArrow l ->
  let fa := map (advance t d) l in
  let after := cleanupArrows (map markIfMissed fa) in
  (length (filter unresolved after) + length (filter becomesMissed fa)
   = length (filter unresolved l))%nat
  /\ length (filter hit after) = length (filter hit l).
Proof.
  induction 1 as [|a l Ha _ IH]; [cbn; auto|].
  cbv zeta in *. destruct IH as [IHu IHh].
  destruct (frame_counts_one t d a Ha) as [Hu Hh]. cbv zeta in Hu, Hh.
  cbn [map]. unfold cleanupArrows in *. cbn [filter].
  set (x := markIfMissed (advance t d a)) in *.
  destruct (Num.ltb (15 # 10) (position x)); cbn [andb] in Hu, Hh.
  - rewrite <- Hh.
    destruct (becomesMissed (advance t d a)), (unresolved a);
      cbn [Nat.b2n length] in *; try discriminate Hu; split; lia.
  - cbn [filter]. rewrite Hh.
    destruct (unresolved x), (becomesMissed (advance t d a)), (unresolved a),
      (hit a); cbn [Nat.b2n length] in *; try discriminate Hu; split; lia.
Qed.

Lemma fresh_counts t new :
  Forall (fresh t) new ->
  length (filter unresolved new) = length new
  /\ length (filter hit new) = 0%nat.
Proof.
  induction 1 as [|a l (Hh & Hm & _) _ [IHu IHh]]; [cbn; auto|].
  cbn [filter]. unfold unresolved at 1. unfold resolved.
  rewrite Hh, Hm. cbn. auto.
Qed.

(** *** The invariant along a run *)

Lemma multiplier_range c : (1 <= getComboMultiplier c <= 4)%Z.
Proof.
  rewrite ScoringFacts.getComboMultiplier_cases.
  destruct (50 <=? c)%Z, (25 <=? c)%Z, (10 <=? c)%Z; lia.
Qed.

Lemma counts_replace_hit pre h post r :
  hit h = false -> missed h = false ->
  (length (filter unresolved (pre ++ asHit h r :: post)) + 1
   = length (filter unresolved (pre ++ h :: post)))%nat
  /\ (length (filter hit (pre ++ asHit h r :: post))
      = length (filter hit (pre ++ h :: post)) + 1)%nat.
Proof.
  intros Hh Hm. rewrite !filter_app, !length_app. cbn [filter].
  unfold unresolved, resolved. cbn [asHit hit missed]. rewrite Hh, Hm.
  cbn [orb negb length]. lia.
Qed.

Lemma frame_sound timestamp random random2 dateNow e :
  sound e -> status (gameState e) = Playing ->
  let e' := gameLoop timestamp random random2 dateNow e in
  Forall wellFormedArrow (arrows (gameState e'))
  /\ tallied (gameState e')
  /\ accounted e'.
Proof.
  intros (Hs & Hids & Hwf & Htal & Hacc) Hst. cbv zeta.
  unfold synced in Hs.
  assert (Hst' : status (gameStateRef e) = Playing) by (now rewrite Hs).
  destruct (gameLoop_playing_full timestamp random random2 dateNow e Hst')
    as (new & H). cbv zeta in H.
  destruct H as (Hfresh & Harr & Hcombo & Hmiss & Hscore & Hmax & HP & HG
                 & _ & _ & Htot & Hctr).
  rewrite Hs in Harr, Hcombo, Hmiss.
  set (old := arrows (gameState e)) in *.
  set (d := difficulty (gameState e)) in *.
  assert (Hall : Forall wellFormedArrow (old ++ new)).
  { apply Forall_app. split; [exact Hwf|].
    eapply Forall_impl; [|exact Hfresh]. intros a Ha.
    exact (fresh_wellFormed timestamp a Ha). }
  destruct (frame_counts timestamp d (old ++ new) Hall) as [Hu Hh].
  cbv zeta in Hu, Hh. rewrite <- Harr in Hu, Hh.
  rewrite !filter_app, !length_app in Hu, Hh.
  destruct (fresh_counts timestamp new Hfresh) as [Hnu Hnh].
  rewrite Hnu in Hu. rewrite Hnh in Hh.
  set (k := length (filter becomesMissed (map (advance timestamp d) (old ++ new)))) in *.
  destruct Htal as (Hc & HP0 & HG0 & HM0 & HcPG & HmPG & Hlo & Hhi).
  destruct Hacc as (Ha1 & Ha2 & Ha3). cbv zeta in Ha1, Ha2.
  unfold unresolvedCount, hitCount in *. fold old in Ha1, Ha2.
  split; [|split].
  - rewrite Harr. apply Forall_forall. intros x Hx.
    unfold cleanupArrows in Hx. apply filter_In in Hx. destruct Hx as [Hx _].
    apply in_map_iff in Hx. destruct Hx as (y & <- & Hy).
    apply in_map_iff in Hy. destruct Hy as (a & <- & Ha).
    apply advance_mark_wellFormed.
    rewrite Forall_forall in Hall. now apply Hall.
  - unfold tallied. rewrite Hcombo, Hmiss, Hscore, Hmax, HP, HG.
    destruct (Z.of_nat k >? 0)%Z; repeat split; lia.
  - unfold accounted. cbv zeta. unfold unresolvedCount, hitCount.
    rewrite Htot, Hctr, Hmiss, HP, HG. repeat split; lia.
Qed.

Lemma gesture_sound g e :
  sound e ->
  let e' := snd (processGesture g e) in
  Forall wellFormedArrow (arrows (gameState e'))
  /\ tallied (gameState e')
  /\ accounted e'.
Proof.
  intros (Hs & Hids & Hwf & Htal & Hacc). cbv zeta.
  destruct (processGesture_outcome g e) as [-> | (h & Hin & Hst & Hrate & Heq)];
    [cbn [snd]; auto|].
  cbv zeta in Heq. rewrite Heq. cbn [snd]. clear Heq.
  unfold synced in Hs. rewrite Hs in Hin |- *.
  apply filter_In in Hin. destruct Hin as [Hin Htarget].
  unfold isTarget in Htarget.
  rewrite !andb_true_iff, !negb_true_iff in Htarget.
  destruct Htarget as (((Hlane & Hhit) & Hmissed) & Hzone).
  unfold isInHitZone, GOOD_START, PERFECT_END in Hzone.
  rewrite andb_true_iff, !NumFacts.leb_le in Hzone. destruct Hzone as [Hlo Hhi].
  assert (Hnd : NoDup (map arrow_id (arrows (gameState e)))).
  { destruct Hids as [Hnd _]. apply (NoDup_map_inv id_counter).
    now rewrite map_map. }
  destruct (EngineFacts.mark_hit_unique _ h (getHitRating (position h)) Hnd Hin)
    as (pre & post & Hsplit & Hmap).
  cbn [notify setGameState gameState arrows totalArrowsSpawnedRef arrowIdCounterRef].
  rewrite Hmap.
  destruct (counts_replace_hit pre h post (getHitRating (position h)) Hhit Hmissed)
    as [Hu Hh].
  destruct Htal as (Hc & HP0 & HG0 & HM0 & HcPG & HmPG & Hslo & Hshi).
  destruct Hacc as (Ha1 & Ha2 & Ha3). cbv zeta in Ha1, Ha2.
  unfold unresolvedCount, hitCount in *. rewrite Hsplit in Ha1, Ha2, Hwf.
  pose proof (multiplier_range (combo (gameState e) + 1)) as Hmul.
  split; [|split].
  - apply Forall_app in Hwf. destruct Hwf as [Hpre Hrest].
    inversion Hrest as [|x xs (Hl & Hp & _) Hpost]; subst.
    apply Forall_app. split; [exact Hpre|]. constructor; [|exact Hpost].
    unfold wellFormedArrow. cbn [asHit lane position hit missed hitRating].
    rewrite Hmissed. repeat split; assumption.
  - unfold tallied, calculateHitScore, PERFECT_POINTS, GOOD_POINTS.
    cbn [combo maxCombo perfectHits goodHits misses score gameState notify
         setGameState].
    remember (getHitRating (position h)) as r eqn:Hr.
    destruct r; try congruence; repeat split; nia.
  - unfold accounted. cbv zeta. unfold unresolvedCount, hitCount.
    cbn [perfectHits goodHits misses arrows gameState notify setGameState
         totalArrowsSpawnedRef arrowIdCounterRef].
    remember (getHitRating (position h)) as r eqn:Hr.
    destruct r; try congruence; repeat split; lia.
Qed.

Lemma step_sound e op : sound e -> sound (step e op).
Proof.
  intro Hsound.
  pose proof Hsound as (Hs & Hids & Hwf & Htal & Hacc).
  pose proof (EngineFacts.step_idsInOrder e op Hs Hids) as Hids'.
  split; [apply EngineFacts.step_synced|]. split; [exact Hids'|].
  unfold step.
  change (gameState (commit ?x)) with (gameState x).
  unfold accounted.
  change (totalArrowsSpawnedRef (commit ?x)) with (totalArrowsSpawnedRef x).
  change (arrowIdCounterRef (commit ?x)) with (arrowIdCounterRef x).
  change (let gs := gameState ?x in _) with (accounted x).
  destruct op; cbn [handle].
  - (* start *)
    cbn. repeat split; try constructor; try lia; discriminate.
  - (* countdown tick *)
    unfold countdownTick. destruct (countdownIntervalRef e); [|auto].
    destruct (_ >? 0)%Z; auto.
  - (* tick of a leaked interval *)
    unfold leakedTick. destruct (nth_error _ _); [|auto].
    destruct (_ >? 0)%Z; auto.
  - (* frame *)
    destruct (status_eqb (status (gameState e)) Playing) eqn:Hst.
    + apply EngineFacts.status_eqb_eq in Hst.
      exact (frame_sound timestamp random random2 dateNow e Hsound Hst).
    + apply EngineFacts.status_eqb_neq in Hst.
      rewrite EngineFacts.gameLoop_not_playing; [auto|].
      unfold synced in Hs. now rewrite Hs.
  - (* gesture *) exact (gesture_sound g e Hsound).
  - (* pause *) unfold pause. destruct (negb _); auto.
  - (* resume *) unfold resume. destruct (negb _); auto.
  - (* end *) auto.
  - (* reset *)
    cbn. repeat split; try constructor; try lia; discriminate.
  - (* difficulty *) auto.
Qed.

Lemma run_sound ops : forall e, sound e -> sound (run e ops).
Proof.
  unfold run. induction ops as [|op ops IH]; intros e He; [exact He|].
  cbn [fold_left]. apply IH. now apply step_sound.
Qed.

Lemma initialEngine_sound d : sound (initialEngine d).
Proof.
  unfold sound, synced, idsInOrder, tallied, accounted. cbn.
  repeat split; try constructor; try lia; discriminate.
Qed.

(** X14.  On every run of the hook from its mount in which a render
    follows each event, the counters of the session are consistent: none is negative; the combo is at most the
    best combo, which is at most the number of hits; and the score lies
    between 100 points per perfect hit plus 50 per good hit, and four
    times that. *)
Theorem session_counters_consistent (d : Difficulty) (ops : list Op) :
  let gs := gameState (run (initialEngine d) ops) in
  (0 <= combo gs <= maxCombo gs)%Z
  /\ (maxCombo gs <= perfectHits gs + goodHits gs)%Z
  /\ (0 <= perfectHits gs)%Z /\ (0 <= goodHits gs)%Z /\ (0 <= misses gs)%Z
  /\ (100 * perfectHits gs + 50 * goodHits gs <= score gs)%Z
  /\ (score gs <= 400 * perfectHits gs + 200 * goodHits gs)%Z.
Proof.
  cbv zeta.
  destruct (run_sound ops (initialEngine d) (initialEngine_sound d))
    as (_ & _ & _ & Htal & _).
  destruct Htal as (Hc & HP & HG & HM & _ & Hm & Hlo & Hhi).
  repeat split; lia.
Qed.

(** X15.  On every run of the hook from its mount in which a render
    follows each event, every arrow of the collection is well formed: its lane is 0, 1 or 2, its position is not
    negative, and it is never both hit and missed; an unresolved arrow has
    no rating and is not past the hit line; a hit arrow lies in the hit
    zone and carries the rating of its position, perfect or good; a missed
    arrow is past the hit line and rated miss. *)
Theorem arrows_well_formed (d : Difficulty) (ops : list Op) :
  Forall
    (fun a =>
       (lane a < 3)%nat
       /\ 0 <= position a
       /\ hit a && missed a = false
       /\ (resolved a = false -> hitRating a = None /\ position a <= 1)
       /\ (hit a = true ->
           85 # 100 <= position a /\ position a <= 1
           /\ hitRating a = Some (getHitRating (position a))
           /\ hitRating a <> Some Miss)
       /\ (missed a = true -> hitRating a = Some Miss /\ 1 < position a))
    (arrows (gameState (run (initialEngine d) ops))).
Proof.
  destruct (run_sound ops (initialEngine d) (initialEngine_sound d))
    as (_ & _ & Hwf & _).
  eapply Forall_impl; [|exact Hwf].
  intros a (Hl & Hp & Hcase). unfold resolved.
  destruct (hit a), (missed a); cbn [andb orb]; try destruct Hcase.
  - destruct H0 as (Hhi & Hr & Hne).
    repeat split; try assumption; try discriminate.
    rewrite Hr. congruence.
  - repeat split; try assumption; try discriminate.
  - repeat split; try assumption; try discriminate.
Qed.

Lemma arrows_well_formed_witness :
  let a := EngineScenarios.firstArrowAfter EngineScenarios.firstArrowHit in
  In a (arrows (gameState (run (initialEngine Easy) EngineScenarios.firstArrowHit)))
  /\ hit a = true
  /\ hitRating a = Some (getHitRating (position a)).
Proof.
  cbv zeta.
  pose proof (proj1 (Forall_forall _ _)
                (arrows_well_formed Easy EngineScenarios.firstArrowHit)) as H.
  assert (Hin : In (EngineScenarios.firstArrowAfter EngineScenarios.firstArrowHit)
                   (arrows (gameState (run (initialEngine Easy)
                                         EngineScenarios.firstArrowHit))))
    by (vm_compute; left; reflexivity).
  assert (Hh : hit (EngineScenarios.firstArrowAfter EngineScenarios.firstArrowHit)
               = true) by (vm_compute; reflexivity).
  split; [exact Hin|]. split; [exact Hh|].
  destruct (H _ Hin) as (_ & _ & _ & _ & Hhit & _).
  exact (proj1 (proj2 (proj2 (Hhit Hh)))).
Defined.

(** X16.  On every run of the hook from its mount in which a render
    follows each event, every arrow spawned since the last start is
    accounted for exactly once: the spawn counter
    equals the perfect hits plus the good hits plus the misses plus the
    unresolved arrows still in the collection; the hit counters count the
    hit arrows of the collection (a hit arrow is never cleaned up); and the
    id counter equals the spawn counter. *)
Theorem spawned_arrows_accounted (d : Difficulty) (ops : list Op) :
  let e := run (initialEngine d) ops in
  let gs := gameState e in
  totalArrowsSpawnedRef e
  = (perfectHits gs + goodHits gs + misses gs + unresolvedCount (arrows gs))%Z
  /\ hitCount (arrows gs) = (perfectHits gs + goodHits gs)%Z
  /\ arrowIdCounterRef e = totalArrowsSpawnedRef e.
Proof.
  cbv zeta.
  destruct (run_sound ops (initialEngine d) (initialEngine_sound d))
    as (_ & _ & _ & _ & Hacc).
  exact Hacc.
Qed.

(** *** The statistics of the end *)

Lemma accuracy_range (gs : GameState) (total : Z) (duration : Q) :
  (0 <= perfectHits gs)%Z -> (0 <= goodHits gs)%Z -> (0 <= misses gs)%Z ->
  let s := computeStats gs total duration in
  0 <= stats_accuracy s /\ stats_accuracy s <= 100
  /\ ((perfectHits gs + goodHits gs + misses gs = 0)%Z -> stats_accuracy s = 0)
  /\ ((misses gs = 0)%Z -> (0 < perfectHits gs + goodHits gs)%Z ->
      stats_accuracy s == 100).
Proof.
  intros HP HG HM. cbv zeta. unfold computeStats. cbn [stats_accuracy].
  set (h := (perfectHits gs + goodHits gs)%Z).
  destruct (Z.gtb_spec (h + misses gs) 0) as [Hpos|Hzero].
  - assert (Ha : 0 < inject_Z (h + misses gs)).
    { change 0 with (inject_Z 0). rewrite <- Zlt_Qlt. lia. }
    assert (Hh0 : 0 <= inject_Z h).
    { change 0 with (inject_Z 0). rewrite <- Zle_Qle. unfold h. lia. }
    assert (Hha : inject_Z h <= inject_Z (h + misses gs)).
    { rewrite <- Zle_Qle. lia. }
    assert (Hlo : 0 <= inject_Z h / inject_Z (h + misses gs)).
    { apply Qle_shift_div_l; [exact Ha|]. lra. }
    assert (Hhi : inject_Z h / inject_Z (h + misses gs) <= 1).
    { apply Qle_shift_div_r; [exact Ha|]. lra. }
    split; [lra|]. split; [lra|]. split; [unfold h in *; lia|].
    intros Hm _. rewrite Hm, Z.add_0_r in Ha |- *.
    field. lra.
  - split; [lra|]. split; [lra|]. split; [reflexivity|].
    intros Hm Hh. unfold h in *. lia.
Qed.

(** *** Executions with renders anywhere *)

Lemma handle_ref e op : gameStateRef (handle e op) = gameStateRef e.
Proof.
  destruct op; cbn [handle]; try reflexivity.
  - unfold countdownTick. destruct (countdownIntervalRef e); [|reflexivity].
    destruct (_ >? 0)%Z; reflexivity.
  - unfold leakedTick. destruct (nth_error _ _); [|reflexivity].
    destruct (_ >? 0)%Z; reflexivity.
  - unfold gameLoop. destruct (negb _); [reflexivity|].
    destruct (spawnArrows _ _ _ _ _ _ _ _) as [new [[ls ic] tot]].
    destruct (checkMissedArrows _) as [[updated k] missedArrows]. reflexivity.
  - destruct (processGesture_outcome g e) as [-> | (h & _ & _ & _ & Heq)];
      [reflexivity|].
    cbv zeta in Heq. rewrite Heq. reflexivity.
  - unfold pause. destruct (negb _); reflexivity.
  - unfold resume. destruct (negb _); reflexivity.
Qed.

(** An event keeps the counters of the session in order, whatever session
    [gameStateRef] holds, as long as that one is in order too. *)
Lemma handle_counted e op :
  counted (gameState e) -> counted (gameStateRef e) ->
  counted (gameState (handle e op)).
Proof.
  intros Hc Hr. destruct op; cbn [handle].
  - (* start *) unfold counted. cbn. lia.
  - (* countdown tick *)
    unfold countdownTick. destruct (countdownIntervalRef e); [|exact Hc].
    destruct (_ >? 0)%Z; exact Hc.
  - (* tick of a leaked interval *)
    unfold leakedTick. destruct (nth_error _ _); [|exact Hc].
    destruct (_ >? 0)%Z; exact Hc.
  - (* frame *)
    destruct (status_eqb (status (gameStateRef e)) Playing) eqn:Hst.
    + apply EngineFacts.status_eqb_eq in Hst.
      destruct (gameLoop_playing_full timestamp random random2 dateNow e Hst)
        as (new & H). cbv zeta in H.
      destruct H as (_ & _ & Hcombo & Hmiss & Hscore & Hmax & HP & HG & _).
      unfold counted in *. rewrite Hcombo, Hmiss, Hscore, Hmax, HP, HG.
      destruct (_ >? 0)%Z; lia.
    + apply EngineFacts.status_eqb_neq in Hst.
      rewrite EngineFacts.gameLoop_not_playing by exact Hst. exact Hc.
  - (* gesture *)
    destruct (processGesture_outcome g e) as [-> | (h & _ & _ & Hrate & Heq)];
      [exact Hc|].
    cbv zeta in Heq. rewrite Heq.
    pose proof (multiplier_range (combo (gameStateRef e) + 1)) as Hmul.
    unfold counted in *.
    cbn [snd notify setGameState gameState score combo maxCombo perfectHits
         goodHits misses].
    unfold calculateHitScore, PERFECT_POINTS, GOOD_POINTS.
    destruct (getHitRating (position h)); try congruence; nia.
  - (* pause *) unfold pause. destruct (negb _); exact Hc.
  - (* resume *) unfold resume. destruct (negb _); exact Hc.
  - (* end *) exact Hc.
  - (* reset *) unfold counted. cbn. lia.
  - (* difficulty *) exact Hc.
Qed.

Lemma exec_counted evs :
  forall e, counted (gameState e) -> counted (gameStateRef e) ->
            counted (gameState (exec e evs)) /\ counted (gameStateRef (exec e evs)).
Proof.
  unfold exec. induction evs as [|ev evs IH]; intros e Hc Hr; [now split|].
  cbn [fold_left]. destruct ev as [op|]; cbn [react].
  - apply IH; [now apply handle_counted|now rewrite handle_ref].
  - apply IH; exact Hc.
Qed.

Lemma initialEngine_counted d :
  counted (gameState (initialEngine d)) /\ counted (gameStateRef (initialEngine d)).
Proof. unfold counted. cbn. lia. Qed.

(** X29.  On every execution of the hook from its mount, with the renders
    wherever they fall among the events, the counters are in order, in the
    session of the state cell and in the one [gameStateRef] holds: none is
    negative, the combo is at most the best combo, and the score lies
    between 100 points per perfect hit plus 50 per good hit, and four
    times that. *)
Theorem counters_in_order_on_every_execution (d : Difficulty) (evs : list Event) :
  let e := exec (initialEngine d) evs in
  forall gs, gs = gameState e \/ gs = gameStateRef e ->
    (0 <= combo gs <= maxCombo gs)%Z
    /\ (0 <= perfectHits gs)%Z /\ (0 <= goodHits gs)%Z /\ (0 <= misses gs)%Z
    /\ (100 * perfectHits gs + 50 * goodHits gs <= score gs)%Z
    /\ (score gs <= 400 * perfectHits gs + 200 * goodHits gs)%Z.
Proof.
  cbv zeta. intros gs Hgs.
  destruct (initialEngine_counted d) as [Hc Hr].
  destruct (exec_counted evs (initialEngine d) Hc Hr) as [Hc' Hr'].
  destruct Hgs as [-> | ->]; assumption.
Qed.

Lemma counters_in_order_on_every_execution_witness :
  let gs := gameState (exec (initialEngine Easy) Scenarios.missThisFrame) in
  (0 <= combo gs <= maxCombo gs)%Z /\ (0 <= misses gs)%Z.
Proof.
  cbv zeta.
  destruct (counters_in_order_on_every_execution Easy Scenarios.missThisFrame
              _ (or_introl eq_refl)) as (Hcombo & _ & _ & Hm & _).
  split; assumption.
Defined.

(** X17.  Ending the game after any execution of the hook from its mount,
    rendered or not, publishes statistics, to [finalStats] and to
    [onGameEnd], that carry the counters of the session [gameStateRef]
    holds and the spawn counter, and whose accuracy lies between 0 and
    100; it is 0 when these counters have no hit and no miss, and 100 when
    they have hits and no miss. *)
Theorem end_statistics (d : Difficulty) (evs : list Event) :
  let e := exec (initialEngine d) evs in
  exists s,
    finalStats (end_ e) = Some s
    /\ notifications (end_ e) = notifications e ++ [OnGameEnd s]
    /\ stats_perfectHits s = perfectHits (gameStateRef e)
    /\ stats_goodHits s = goodHits (gameStateRef e)
    /\ stats_misses s = misses (gameStateRef e)
    /\ stats_score s = score (gameStateRef e)
    /\ stats_totalArrows s = totalArrowsSpawnedRef e
    /\ 0 <= stats_accuracy s /\ stats_accuracy s <= 100
    /\ ((stats_perfectHits s + stats_goodHits s + stats_misses s = 0)%Z ->
        stats_accuracy s = 0)
    /\ ((stats_misses s = 0)%Z -> (0 < stats_perfectHits s + stats_goodHits s)%Z ->
        stats_accuracy s == 100).
Proof.
  cbv zeta.
  destruct (initialEngine_counted d) as [Hc Hr].
  destruct (exec_counted evs (initialEngine d) Hc Hr)
    as [_ (_ & HP & HG & HM & _)].
  eexists. split; [reflexivity|]. split; [reflexivity|].
  destruct (accuracy_range (gameStateRef (exec (initialEngine d) evs))
              (totalArrowsSpawnedRef (exec (initialEngine d) evs))
              (gameDuration (exec (initialEngine d) evs)) HP HG HM)
    as (H0 & H100 & Hnone & Hall).
  repeat split; try assumption; reflexivity.
Qed.

Lemma end_statistics_witness :
  exists s,
    finalStats (end_ (exec (initialEngine Easy) Scenarios.hitThisFrame)) = Some s
    /\ stats_accuracy s = 0
    /\ perfectHits (gameState (exec (initialEngine Easy) Scenarios.hitThisFrame))
       = 1%Z.
Proof.
  destruct (end_statistics Easy Scenarios.hitThisFrame)
    as (s & Hf & _ & HP & HG & HM & _ & _ & _ & _ & Hnone & _).
  exists s. split; [exact Hf|].
  split; [|vm_compute; reflexivity].
  apply Hnone. rewrite HP, HG, HM. vm_compute. reflexivity.
Defined.

(** *** Life cycle, composed *)

Lemma commit_synced e : synced e -> commit e = e.
Proof. unfold synced. destruct e. cbn. intros ->. reflexivity. Qed.

(** X18.  From any state of the hook in which no countdown is running,
    [start] followed by the ticks of its interval: the session is in
    countdown, showing 3, 2 and 1, through the first two ticks, and the
    third tick makes it playing, on a fresh session of the same
    difficulty, with the game clock and the spawn clock set to the time of
    that tick; the interval is then cleared, so further ticks change
    nothing. *)
Theorem countdown_takes_three_ticks (e : Engine) (t1 t2 t3 : Q) :
  countdownIntervalRef e = None ->
  let e0 := step e OpStart in
  let e1 := step e0 (OpCountdownTick t1) in
  let e2 := step e1 (OpCountdownTick t2) in
  let e3 := step e2 (OpCountdownTick t3) in
  (status (gameState e0) = Countdown /\ countdown e0 = Some 3%Z)
  /\ (status (gameState e1) = Countdown /\ countdown e1 = Some 2%Z)
  /\ (status (gameState e2) = Countdown /\ countdown e2 = Some 1%Z)
  /\ gameState e3
     = withStatus (createInitialGameState (difficulty (gameState e))) Playing
  /\ countdown e3 = None
  /\ gameStartTimeRef e3 = t3 /\ lastSpawnTimeRef e3 = t3
  /\ totalArrowsSpawnedRef e3 = 0%Z
  /\ (forall ticks, Forall countdownTicks ticks -> run e3 ticks = e3).
Proof.
  intros _. cbv zeta. repeat split.
  intros ticks Hticks. unfold run.
  set (e3 := step (step (step (step e OpStart) (OpCountdownTick t1))
                     (OpCountdownTick t2)) (OpCountdownTick t3)).
  assert (Hnone : countdownIntervalRef e3 = None) by reflexivity.
  assert (Hs : synced e3) by reflexivity.
  clearbody e3.
  induction Hticks as [|op ops Hop _ IH]; [reflexivity|].
  cbn [fold_left].
  assert (Hstep : step e3 op = e3).
  { destruct op; try destruct Hop. unfold step, handle, countdownTick.
    rewrite Hnone. now apply commit_synced. }
  now rewrite Hstep.
Qed.

Lemma countdown_takes_three_ticks_witness :
  countdownIntervalRef (initialEngine Hard) = None
  /\ Forall countdownTicks [OpCountdownTick 3000; OpCountdownTick 4000]
  /\ run (run (initialEngine Hard)
              [OpStart; OpCountdownTick 0; OpCountdownTick 1000; OpCountdownTick 2000])
         [OpCountdownTick 3000; OpCountdownTick 4000]
     = run (initialEngine Hard)
           [OpStart; OpCountdownTick 0; OpCountdownTick 1000; OpCountdownTick 2000].
Proof.
  assert (H : Forall countdownTicks [OpCountdownTick 3000; OpCountdownTick 4000])
    by (repeat constructor).
  split; [reflexivity|]. split; [exact H|].
  exact (proj2 (proj2 (proj2 (proj2 (proj2 (proj2 (proj2 (proj2
           (countdown_takes_three_ticks (initialEngine Hard) 0 1000 2000
              eq_refl))))))))
           _ H).
Defined.



(** X20.  While the session is not playing (idle, countdown, paused or
    ended), frames and gestures change nothing: after any sequence of
    them a rendered hook is the same, with no arrow spawned or moved, no
    miss counted, no score given and no collaborator notified. *)
Theorem frames_and_gestures_ignored_unless_playing (e : Engine) (ops : list Op) :
  synced e ->
  status (gameState e) <> Playing ->
  Forall frameOrGesture ops ->
  run e ops = e.
Proof.
  intros Hs Hst Hops. unfold run.
  induction Hops as [|op ops Hop _ IH]; [reflexivity|].
  cbn [fold_left].
  assert (Hstep : step e op = e).
  { assert (Href : status (gameStateRef e) <> Playing)
      by (unfold synced in Hs; now rewrite Hs).
    destruct op; try destruct Hop; unfold step, handle.
    - rewrite EngineFacts.gameLoop_not_playing by exact Href.
      now apply commit_synced.
    - unfold processGesture. apply EngineFacts.status_eqb_neq in Href.
      rewrite Href. cbn [negb snd]. now apply commit_synced. }
  now rewrite Hstep.
Qed.

Lemma frames_and_gestures_ignored_unless_playing_witness :
  synced EngineScenarios.countingDown
  /\ status (gameState EngineScenarios.countingDown) <> Playing
  /\ run EngineScenarios.countingDown
         [OpFrame 5000 0 0 0; OpGesture Scenarios.waveLeft; OpFrame 9000 0 0 0]
     = EngineScenarios.countingDown.
Proof.
  assert (Hs : synced EngineScenarios.countingDown) by reflexivity.
  assert (Hst : status (gameState EngineScenarios.countingDown) <> Playing)
    by discriminate.
  split; [exact Hs|]. split; [exact Hst|].
  apply (frames_and_gestures_ignored_unless_playing _ _ Hs Hst).
  repeat constructor.
Defined.

(** *** Counters only grow *)

Lemma notBelow_refl e : notBelow e e.
Proof. unfold notBelow. repeat split; lia. Qed.

Lemma notBelow_trans a b c : notBelow a b -> notBelow b c -> notBelow a c.
Proof. unfold notBelow. intros H1 H2. repeat split; lia. Qed.

(** An event other than [start] and [reset] lowers no counter, on any
    hook, rendered or not. *)
Lemma handle_notBelow e op :
  clearsArrows op = false -> notBelow e (handle e op).
Proof.
  intro Hop. unfold notBelow.
  destruct op; try discriminate Hop; cbn [handle].
  - unfold countdownTick. destruct (countdownIntervalRef e); [|repeat split; lia].
    destruct (_ >? 0)%Z; cbn; repeat split; lia.
  - unfold leakedTick. destruct (nth_error _ _); [|repeat split; lia].
    destruct (_ >? 0)%Z; cbn; repeat split; lia.
  - destruct (status_eqb (status (gameStateRef e)) Playing) eqn:Hst.
    + apply EngineFacts.status_eqb_eq in Hst.
      destruct (gameLoop_playing_full timestamp random random2 dateNow e Hst)
        as (new & H). cbv zeta in H.
      destruct H as (_ & _ & _ & Hmiss & Hscore & Hmax & HP & HG & _ & _ & Htot & _).
      rewrite Hmiss, Hscore, Hmax, HP, HG, Htot. repeat split; lia.
    + apply EngineFacts.status_eqb_neq in Hst.
      rewrite EngineFacts.gameLoop_not_playing by exact Hst. repeat split; lia.
  - destruct (processGesture_outcome g e) as [-> | (h & _ & _ & Hrate & Heq)];
      [cbn [snd]; repeat split; lia|].
    cbv zeta in Heq. rewrite Heq.
    cbn [snd notify setGameState gameState score maxCombo perfectHits goodHits
         misses totalArrowsSpawnedRef].
    pose proof (multiplier_range (combo (gameStateRef e) + 1)) as Hmul.
    unfold calculateHitScore, PERFECT_POINTS, GOOD_POINTS.
    destruct (getHitRating (position h)); try congruence; repeat split; nia.
  - unfold pause. destruct (negb _); cbn; repeat split; lia.
  - unfold resume. destruct (negb _); cbn; repeat split; lia.
  - cbn. repeat split; lia.
  - cbn. repeat split; lia.
Qed.

Lemma step_notBelow e op :
  sound e -> clearsArrows op = false -> notBelow e (step e op).
Proof. intros _ Hop. exact (handle_notBelow e op Hop). Qed.

Lemma exec_notBelow evs :
  keepsSession evs -> forall e, notBelow e (exec e evs).
Proof.
  unfold exec. induction 1 as [|ev evs Hev _ IH]; intro e; [apply notBelow_refl|].
  cbn [fold_left]. apply (notBelow_trans e (react e ev)); [|apply IH].
  destruct ev as [op|]; cbn [react];
    [exact (handle_notBelow e op Hev)|unfold notBelow; cbn; repeat split; lia].
Qed.

(** X30.  On any hook, rendered or not, an execution that neither starts
    nor resets the session, with the renders wherever they fall among the
    events, lowers no counter of the session: the score, the best combo,
    the perfect hits, the good hits, the misses and the number of arrows
    spawned are afterwards at least what they were. *)
Theorem counters_never_decrease_on_any_execution (e : Engine) (evs : list Event) :
  keepsSession evs ->
  let e' := exec e evs in
  (score (gameState e) <= score (gameState e'))%Z
  /\ (maxCombo (gameState e) <= maxCombo (gameState e'))%Z
  /\ (perfectHits (gameState e) <= perfectHits (gameState e'))%Z
  /\ (goodHits (gameState e) <= goodHits (gameState e'))%Z
  /\ (misses (gameState e) <= misses (gameState e'))%Z
  /\ (totalArrowsSpawnedRef e <= totalArrowsSpawnedRef e')%Z.
Proof. intro Hevs. exact (exec_notBelow evs Hevs e). Qed.

Lemma counters_never_decrease_on_any_execution_witness :
  let e := exec (initialEngine Easy) Scenarios.hitThisFrame in
  let e' := exec e [Scenarios.frameOfSameAnimationFrame; Render] in
  (perfectHits (gameState e) <= perfectHits (gameState e'))%Z
  /\ (score (gameState e) <= score (gameState e'))%Z.
Proof.
  cbv zeta.
  destruct (counters_never_decrease_on_any_execution
              (exec (initialEngine Easy) Scenarios.hitThisFrame)
              [Scenarios.frameOfSameAnimationFrame; Render])
    as (Hscore & _ & HP & _).
  - repeat constructor.
  - split; assumption.
Defined.

(** X21.  Along a run of the hook from its mount, through events that
    neither start nor reset the session, no counter ever goes down: the
    score, the best combo, the perfect hits, the good hits, the misses and
    the number of arrows spawned afterwards are at least what they were
    before. *)
Theorem counters_never_decrease (d : Difficulty) (before after : list Op) :
  keepsArrows after ->
  let e := run (initialEngine d) before in
  let e' := run e after in
  (score (gameState e) <= score (gameState e'))%Z
  /\ (maxCombo (gameState e) <= maxCombo (gameState e'))%Z
  /\ (perfectHits (gameState e) <= perfectHits (gameState e'))%Z
  /\ (goodHits (gameState e) <= goodHits (gameState e'))%Z
  /\ (misses (gameState e) <= misses (gameState e'))%Z
  /\ (totalArrowsSpawnedRef e <= totalArrowsSpawnedRef e')%Z.
Proof.
  intros Hkeep. cbv zeta.
  pose proof (run_sound before (initialEngine d) (initialEngine_sound d)) as Hsound.
  set (e := run (initialEngine d) before) in *. clearbody e.
  change (notBelow e (run e after)).
  unfold run. revert e Hsound.
  induction Hkeep as [|op ops Hop _ IH]; intros e Hsound; [apply notBelow_refl|].
  cbn [fold_left].
  apply (notBelow_trans e (step e op)).
  - now apply step_notBelow.
  - apply IH. now apply step_sound.
Qed.

Lemma counters_never_decrease_witness :
  keepsArrows [OpGesture Scenarios.waveLeft; OpFrame 9000 0 0 0]
  /\ (score (gameState (run (initialEngine Easy) Scenarios.firstArrowAt97))
      <= score (gameState
                  (run (run (initialEngine Easy) Scenarios.firstArrowAt97)
                       [OpGesture Scenarios.waveLeft; OpFrame 9000 0 0 0])))%Z.
Proof.
  assert (H : keepsArrows [OpGesture Scenarios.waveLeft; OpFrame 9000 0 0 0])
    by (repeat constructor).
  split; [exact H|].
  exact (proj1 (counters_never_decrease Easy Scenarios.firstArrowAt97 _ H)).
Defined.

(** *** The hit window in time *)

Lemma advance_position t d a :
  resolved a = false ->
  position (advance t d a)
  = Num.max 0 ((t - spawnTime a) / arrowTravelTime d).
Proof.
  intro Hr. unfold advance. unfold resolved in Hr. now rewrite Hr.
Qed.

(** X22.  For an unresolved arrow advanced to frame time [t], with [T] the
    travel time of the difficulty: the arrow is in the hit zone exactly
    when [t] lies from 85% of [T] to [T] after its spawn time, it rates
    perfect exactly in the last 5% of [T], and it is marked missed by a
    frame exactly when [t] is more than [T] after its spawn time. *)
Theorem hit_window_in_time (t : Q) (d : Difficulty) (a : Arrow) :
  resolved a = false ->
  let T := arrowTravelTime d in
  let p := position (advance t d a) in
  (isInHitZone p = true
   <-> spawnTime a + (85 # 100) * T <= t /\ t <= spawnTime a + T)
  /\ (getHitRating p = Perfect
      <-> spawnTime a + (95 # 100) * T <= t /\ t <= spawnTime a + T)
  /\ (becomesMissed (advance t d a) = true <-> spawnTime a + T < t).
Proof.
  intro Hr. cbv zeta.
  assert (Hb : becomesMissed (advance t d a)
               = Num.ltb 1 (position (advance t d a))).
  { unfold becomesMissed, advance. unfold resolved in Hr |- *. rewrite Hr.
    cbn [withPosition hit missed]. unfold resolved in Hr.
    apply orb_false_iff in Hr. destruct Hr as [-> ->]. reflexivity. }
  rewrite Hb, (advance_position t d a Hr).
  set (s := spawnTime a).
  assert (Hx : forall c, 0 < c ->
             (t - s) / c == (t - s) * / c) by (intros; reflexivity).
  unfold isInHitZone, getHitRating, GOOD_START, PERFECT_START, PERFECT_END, Num.max.
  destruct d; cbn [arrowTravelTime];
    match goal with
    | |- context [(t - s) / ?c] =>
        assert (Hdiv : (t - s) / c * c == t - s) by (field; discriminate);
        set (x := (t - s) / c) in *
    end;
    destruct (NumFacts.leb_spec 0 x);
    repeat match goal with
           | |- context [Num.leb ?u ?v] => destruct (NumFacts.leb_spec u v)
           | |- context [Num.ltb ?u ?v] => destruct (NumFacts.ltb_spec u v)
           end;
    cbn [andb];
    (split; [|split]); split; intro Hgoal;
    try discriminate Hgoal; try reflexivity; try (split; lra); try lra.
Qed.

Lemma hit_window_in_time_witness :
  resolved (Scenarios.arrowAt 1 0 2000 0) = false
  /\ isInHitZone (position (advance 4910 Easy (Scenarios.arrowAt 1 0 2000 0))) = true.
Proof.
  split; [reflexivity|].
  apply (proj2 (proj1 (hit_window_in_time 4910 Easy (Scenarios.arrowAt 1 0 2000 0)
                         eq_refl))).
  cbn. split; unfold Qle; cbn; lia.
Defined.

End SessionFacts.

(** ** Calibration, further *)

Module CalibrationMoreFacts.

Import Types Calibration CalibrationSpec.
Open Scope Q_scope.

Lemma countQ_succ n : countQ (S n) == countQ n + 1.
Proof.
  unfold countQ. rewrite Nat2Z.inj_succ. unfold Z.succ.
  rewrite inject_Z_plus. reflexivity.
Qed.

Lemma countQ_nonneg n : 0 <= countQ n.
Proof.
  unfold countQ. change 0 with (inject_Z 0). rewrite <- Zle_Qle. lia.
Qed.

(** A sum of values that all lie in [lo, hi] lies between [lo] and [hi]
    times their number. *)
Lemma fold_sum_bounds (f : Landmark -> Q) (lo hi : Q) l :
  (forall lm, In lm l -> lo <= f lm /\ f lm <= hi) ->
  forall acc,
    acc + lo * countQ (length l) <= fold_left (fun a lm => a + f lm) l acc
    /\ fold_left (fun a lm => a + f lm) l acc <= acc + hi * countQ (length l).
Proof.
  induction l as [|x l IH]; intros Hall acc.
  - cbn [fold_left length]. change (countQ 0) with 0. split; lra.
  - cbn [fold_left length].
    destruct (Hall x (or_introl eq_refl)) as [Hlo Hhi].
    destruct (IH (fun lm H => Hall lm (or_intror H)) (acc + f x)) as [IHlo IHhi].
    pose proof (countQ_succ (length l)) as Hs.
    split; [rewrite Hs|rewrite Hs]; lra.
Qed.

(** The same with every value strictly above [lo], for a sum of at least
    one value. *)
Lemma fold_sum_above (f : Landmark -> Q) (lo : Q) l :
  l <> [] ->
  (forall lm, In lm l -> lo < f lm) ->
  forall acc,
    acc + lo * countQ (length l) < fold_left (fun a lm => a + f lm) l acc.
Proof.
  induction l as [|x l IH]; intros Hne Hall acc; [congruence|].
  cbn [fold_left length].
  pose proof (Hall x (or_introl eq_refl)) as Hx.
  pose proof (countQ_succ (length l)) as Hs.
  destruct l as [|y l'].
  - cbn [fold_left length] in *. change (countQ 0) with 0 in Hs. rewrite Hs. lra.
  - pose proof (IH ltac:(discriminate) (fun lm H => Hall lm (or_intror H))
                  (acc + f x)) as IHlt.
    rewrite Hs. lra.
Qed.

Lemma mean_bounds (f : Landmark -> Q) (lo hi : Q) l :
  l <> [] ->
  (forall lm, In lm l -> lo <= f lm /\ f lm <= hi) ->
  lo <= total f l / countQ (length l) /\ total f l / countQ (length l) <= hi.
Proof.
  intros Hne Hall.
  assert (Hn : 0 < countQ (length l)).
  { destruct l as [|x l']; [congruence|]. cbn [length].
    pose proof (countQ_succ (length l')). pose proof (countQ_nonneg (length l')). lra. }
  destruct (fold_sum_bounds f lo hi l Hall 0) as [Hlo Hhi].
  unfold total. split.
  - apply Qle_shift_div_l; [exact Hn|]. lra.
  - apply Qle_shift_div_r; [exact Hn|]. lra.
Qed.

(** X23.  A coordinate of an averaged baseline landmark lies within the
    range of that coordinate over the landmark's qualifying samples: when
    every sample has it between [lo] and [hi], so has the average; in
    particular frames that agree on the landmark give back its
    coordinates. *)
Theorem average_within_samples (poses : list PoseResult) (i : nat) (lo hi : Q) :
  qualifyingSamples poses i <> [] ->
  ((forall lm, In lm (qualifyingSamples poses i) -> lo <= lm_x lm /\ lm_x lm <= hi) ->
   lo <= lm_x (averageLandmark poses i) /\ lm_x (averageLandmark poses i) <= hi)
  /\ ((forall lm, In lm (qualifyingSamples poses i) -> lo <= lm_y lm /\ lm_y lm <= hi) ->
      lo <= lm_y (averageLandmark poses i) /\ lm_y (averageLandmark poses i) <= hi)
  /\ ((forall lm, In lm (qualifyingSamples poses i) -> lo <= lm_z lm /\ lm_z lm <= hi) ->
      lo <= lm_z (averageLandmark poses i) /\ lm_z (averageLandmark poses i) <= hi).
Proof.
  intro Hne. rewrite CalibrationFacts.averageLandmark_spec.
  destruct (qualifyingSamples poses i) as [|x l] eqn:E; [congruence|].
  cbn [averageOf lm_x lm_y lm_z].
  split; [|split]; intro Hall; apply mean_bounds; solve [discriminate | exact Hall].
Qed.

Lemma average_within_samples_witness :
  qualifyingSamples Scenarios.capturedFrames LEFT_HIP <> []
  /\ 6 # 10 <= lm_y (averageLandmark Scenarios.capturedFrames LEFT_HIP)
  /\ lm_y (averageLandmark Scenarios.capturedFrames LEFT_HIP) <= 6 # 10.
Proof.
  assert (Hne : qualifyingSamples Scenarios.capturedFrames LEFT_HIP <> [])
    by (vm_compute; discriminate).
  split; [exact Hne|].
  apply (proj1 (proj2 (average_within_samples Scenarios.capturedFrames LEFT_HIP
                         (6 # 10) (6 # 10) Hne))).
  intros lm Hin. vm_compute in Hin.
  destruct Hin as [<-|[<-|[]]]; split; vm_compute; discriminate.
Defined.

(** X24.  The visibility of an averaged baseline landmark tells whether
    the landmark was ever seen: it is above 0.5 when at least one frame
    had the landmark with visibility above 0.5, and the landmark is the
    default, of visibility 0, otherwise. *)
Theorem averaged_visibility_tells_seen (poses : list PoseResult) (i : nat) :
  (qualifyingSamples poses i <> [] -> visible (averageLandmark poses i) = true)
  /\ (qualifyingSamples poses i = [] ->
      averageLandmark poses i = defaultLandmark
      /\ visible (averageLandmark poses i) = false)
  /\ (visible (averageLandmark poses i) = true <-> qualifyingSamples poses i <> []).
Proof.
  rewrite CalibrationFacts.averageLandmark_spec.
  assert (Hseen : qualifyingSamples poses i <> [] ->
                  visible (averageOf (qualifyingSamples poses i)) = true).
  { intro Hne.
    assert (Hall : forall lm, In lm (qualifyingSamples poses i) ->
                              1 # 2 < visibilityOf lm).
    { intros lm Hin. apply CalibrationFacts.qualifyingSamples_In in Hin.
      destruct Hin as (pose & v & _ & _ & Hv & Hlt).
      unfold visibilityOf. now rewrite Hv. }
    destruct (qualifyingSamples poses i) as [|x l] eqn:E; [congruence|].
    cbn [averageOf]. unfold visible. cbn [lm_visibility].
    apply NumFacts.ltb_lt.
    assert (Hn : 0 < countQ (length (x :: l))).
    { cbn [length]. pose proof (countQ_succ (length l)).
      pose proof (countQ_nonneg (length l)). lra. }
    apply Qlt_shift_div_l; [exact Hn|].
    pose proof (fold_sum_above visibilityOf (1 # 2) (x :: l) ltac:(discriminate)
                  Hall 0) as Hsum.
    unfold total. lra. }
  split; [exact Hseen|]. split.
  - intros ->. cbn. split; reflexivity.
  - split; [|exact Hseen].
    intros Hv Hnil. rewrite Hnil in Hv. cbn in Hv. discriminate Hv.
Qed.

Lemma averaged_visibility_tells_seen_witness :
  qualifyingSamples Scenarios.noVisibleLandmark NOSE = []
  /\ visible (averageLandmark Scenarios.noVisibleLandmark NOSE) = false.
Proof.
  split; [reflexivity|].
  exact (proj2 (proj1 (proj2 (averaged_visibility_tells_seen
                                 Scenarios.noVisibleLandmark NOSE)) eq_refl)).
Defined.

End CalibrationMoreFacts.

(** ** The rating shown when the game is over *)

Module RatingFacts.

Import String.
Import GameConstants Types GameEngine GameOverModal.
Open Scope Q_scope.

(** Comparing the accuracy [hits / attempts * 100] with a whole number is
    comparing whole numbers. *)
Lemma accuracy_threshold (c h a : Z) :
  (0 < a)%Z ->
  (inject_Z c <= inject_Z h / inject_Z a * 100 <-> (c * a <= 100 * h)%Z).
Proof.
  intro Ha.
  assert (HA : 0 < inject_Z a).
  { change 0 with (inject_Z 0). rewrite <- Zlt_Qlt. exact Ha. }
  assert (Hq : inject_Z h == inject_Z h / inject_Z a * inject_Z a).
  { field. lra. }
  rewrite Zle_Qle, !inject_Z_mult. change (inject_Z 100) with 100.
  set (q := inject_Z h / inject_Z a) in *.
  split; intro H.
  - rewrite Hq. 
    assert (Hm : inject_Z c * inject_Z a <= q * 100 * inject_Z a).
    { apply Qmult_le_compat_r; [exact H|lra]. }
    lra.
  - rewrite Hq in H.
    apply (Qmult_le_r _ _ (inject_Z a)); [exact HA|]. lra.
Qed.

Lemma rating_by_counts (gs : GameState) (total : Z) (duration : Q) :
  (0 <= perfectHits gs)%Z -> (0 <= goodHits gs)%Z -> (0 <= misses gs)%Z ->
  let h := (perfectHits gs + goodHits gs)%Z in
  let a := (h + misses gs)%Z in
  let message :=
    fst (getRatingMessage (stats_accuracy (computeStats gs total duration))) in
  (message = "PERFECT!"%string <-> (0 < a /\ 19 * a <= 20 * h)%Z)
  /\ (message = "AMAZING!"%string <-> (17 * a <= 20 * h /\ 20 * h < 19 * a)%Z)
  /\ (message = "GREAT!"%string <-> (7 * a <= 10 * h /\ 20 * h < 17 * a)%Z)
  /\ (message = "GOOD!"%string <-> (a <= 2 * h /\ 10 * h < 7 * a)%Z)
  /\ (message = "KEEP TRYING!"%string <-> (2 * h < a \/ a = 0)%Z).
Proof.
  intros HP HG HM. cbv zeta. unfold computeStats. cbn [stats_accuracy].
  set (h := (perfectHits gs + goodHits gs)%Z).
  set (a := (h + misses gs)%Z).
  assert (Hh : (0 <= h)%Z) by (unfold h; lia).
  assert (Hha : (h <= a)%Z) by (unfold a; lia).
  destruct (Z.gtb_spec a 0) as [Hpos|Hzero].
  - pose proof (accuracy_threshold 95 h a Hpos) as T95.
    pose proof (accuracy_threshold 85 h a Hpos) as T85.
    pose proof (accuracy_threshold 70 h a Hpos) as T70.
    pose proof (accuracy_threshold 50 h a Hpos) as T50.
    change (inject_Z 95) with 95 in T95. change (inject_Z 85) with 85 in T85.
    change (inject_Z 70) with 70 in T70. change (inject_Z 50) with 50 in T50.
    unfold getRatingMessage.
    set (q := inject_Z h / inject_Z a * 100) in *.
    destruct (NumFacts.leb_spec 95 q) as [H95|H95];
      [|destruct (NumFacts.leb_spec 85 q) as [H85|H85];
        [|destruct (NumFacts.leb_spec 70 q) as [H70|H70];
          [|destruct (NumFacts.leb_spec 50 q) as [H50|H50]]]];
      cbn [fst];
      try (apply T95 in H95); try (apply T85 in H85);
      try (apply T70 in H70); try (apply T50 in H50);
      try (assert (N95 : ~ (95 * a <= 100 * h)%Z)
             by (intro N; apply T95 in N; lra));
      try (assert (N85 : ~ (85 * a <= 100 * h)%Z)
             by (intro N; apply T85 in N; lra));
      try (assert (N70 : ~ (70 * a <= 100 * h)%Z)
             by (intro N; apply T70 in N; lra));
      try (assert (N50 : ~ (50 * a <= 100 * h)%Z)
             by (intro N; apply T50 in N; lra));
      (split; [|split; [|split; [|split]]]);
      (split; [intro E; solve [discriminate E | lia] | intro E; solve [reflexivity | lia]]).
  - assert (Ha : a = 0%Z) by lia.
    unfold getRatingMessage.
    change (Num.leb 95 0) with false. change (Num.leb 85 0) with false.
    change (Num.leb 70 0) with false. change (Num.leb 50 0) with false.
    cbn [fst].
    (split; [|split; [|split; [|split]]]);
      (split; [intro E; solve [discriminate E | lia] | intro E; solve [reflexivity | lia]]).
Qed.

(** X25.  The rating of the game-over screen, in terms of the counts the
    statistics are computed from, with [h] the hits (perfect and good) and
    [a] the attempts (hits and misses): PERFECT! when a > 0 and h/a is at
    least 19/20, AMAZING! from 17/20, GREAT! from 7/10, GOOD! from 1/2, and
    KEEP TRYING! below one half or when nothing was attempted. *)
Theorem rating_message_by_counts (gs : GameState) (total : Z) (duration : Q) :
  (0 <= perfectHits gs)%Z -> (0 <= goodHits gs)%Z -> (0 <= misses gs)%Z ->
  let h := (perfectHits gs + goodHits gs)%Z in
  let a := (h + misses gs)%Z in
  let message :=
    fst (getRatingMessage (stats_accuracy (computeStats gs total duration))) in
  (message = "PERFECT!"%string <-> (0 < a /\ 19 * a <= 20 * h)%Z)
  /\ (message = "AMAZING!"%string <-> (17 * a <= 20 * h /\ 20 * h < 19 * a)%Z)
  /\ (message = "GREAT!"%string <-> (7 * a <= 10 * h /\ 20 * h < 17 * a)%Z)
  /\ (message = "GOOD!"%string <-> (a <= 2 * h /\ 10 * h < 7 * a)%Z)
  /\ (message = "KEEP TRYING!"%string <-> (2 * h < a \/ a = 0)%Z).
Proof. exact (rating_by_counts gs total duration). Qed.

Lemma rating_message_by_counts_witness :
  fst (getRatingMessage
         (stats_accuracy
            (computeStats (createInitialGameState Easy) 0 0)))
  = "KEEP TRYING!"%string.
Proof.
  apply (proj2 (proj2 (proj2 (proj2
           (rating_message_by_counts (createInitialGameState Easy) 0 0
              ltac:(cbn; lia) ltac:(cbn; lia) ltac:(cbn; lia)))))).
  right. reflexivity.
Defined.

End RatingFacts.

(** ** The capture of the calibration screen *)

Module CaptureFacts.

Import Types Calibration CalibrationSpec CalibrationScreen CaptureSpec.
Open Scope Q_scope.

Ltac screen_fields :=
  cbn [step cameraState countdown poseDetected captureProgress capturedPosesRef
       countdownIntervalRef calibrations
       setStep setCameraState setCountdown setPoseDetected setCaptureProgress
       setCapturedPoses setCountdownInterval calibrationComplete] in *.

Lemma step_eqb_eq a b : step_eqb a b = true <-> a = b.
Proof. destruct a, b; cbn; split; congruence. Qed.

(** What one pose update does to the capture buffer and to the log of
    calibrations: it appends the frame when the callback sees the capturing
    step, the pose is full and the buffer is short of [CAPTURE_FRAMES], and
    reports the calibration when that frame fills the buffer; otherwise it
    touches neither. *)
Lemma handlePoseUpdate_capture stepSeen pose dateNow s :
  let s' := handlePoseUpdate stepSeen pose dateNow s in
  (exists p,
      pose = Some p /\ fullPose p /\ stepSeen = Capturing
      /\ (length (capturedPosesRef s) < CAPTURE_FRAMES)%nat
      /\ capturedPosesRef s' = capturedPosesRef s ++ [p]
      /\ captureProgress s'
         = countQ (length (capturedPosesRef s ++ [p])) / countQ CAPTURE_FRAMES
      /\ ((length (capturedPosesRef s ++ [p]) < CAPTURE_FRAMES)%nat
          /\ calibrations s' = calibrations s /\ step s' = step s
          \/ (CAPTURE_FRAMES <= length (capturedPosesRef s ++ [p]))%nat
             /\ calibrations s'
                = calibrations s
                    ++ [calculateCalibration (capturedPosesRef s ++ [p]) dateNow]
             /\ step s' = Complete))
  \/ (capturedPosesRef s' = capturedPosesRef s
      /\ captureProgress s' = captureProgress s
      /\ calibrations s' = calibrations s
      /\ (hasPose pose = false \/ stepSeen <> Capturing
          \/ (CAPTURE_FRAMES <= length (capturedPosesRef s))%nat)).
Proof.
  cbv zeta. unfold handlePoseUpdate.
  destruct pose as [p|].
  - destruct (hasPose (Some p)) eqn:Hp.
    + assert (Hfull : fullPose p).
      { unfold fullPose. unfold hasPose in Hp. apply Nat.leb_le in Hp. exact Hp. }
      destruct stepSeen; cbn [step_eqb andb]; rewrite ?andb_false_r;
        try (right; screen_fields;
             repeat match goal with
                    | |- context [if ?b then _ else _] => destruct b
                    end; screen_fields;
             repeat split; try reflexivity; right; left; discriminate).
      screen_fields.
      destruct (length (capturedPosesRef s) <? CAPTURE_FRAMES)%nat eqn:Hlt.
      * apply Nat.ltb_lt in Hlt. left. exists p.
        split; [reflexivity|]. split; [exact Hfull|]. split; [reflexivity|].
        split; [exact Hlt|].
        destruct (CAPTURE_FRAMES <=? length (capturedPosesRef s ++ [p]))%nat eqn:Hge;
          screen_fields.
        -- apply Nat.leb_le in Hge.
           split; [reflexivity|]. split; [reflexivity|].
           right. split; [exact Hge|]. split; reflexivity.
        -- apply Nat.leb_gt in Hge.
           split; [reflexivity|]. split; [reflexivity|].
           left. split; [exact Hge|]. split; reflexivity.
      * apply Nat.ltb_ge in Hlt. right.
        split; [reflexivity|]. split; [reflexivity|]. split; [reflexivity|].
        right. right. exact Hlt.
    + right. destruct (step_eqb stepSeen Countdown); screen_fields;
        (split; [reflexivity|]; split; [reflexivity|]; split; [reflexivity|]);
        left; reflexivity.
  - right. destruct (step_eqb stepSeen Countdown); screen_fields;
      (split; [reflexivity|]; split; [reflexivity|]; split; [reflexivity|]);
      left; reflexivity.
Qed.

Lemma other_events_keep_capture s ev :
  match ev with EvCamera _ | EvEffect _ => True | _ => False end ->
  capturedPosesRef (screenStep s ev) = capturedPosesRef s
  /\ captureProgress (screenStep s ev) = captureProgress s
  /\ calibrations (screenStep s ev) = calibrations s.
Proof.
  destruct ev as [seen pose now|state|seen|]; intro H; try contradiction.
  - cbn [screenStep]. unfold handleCameraStateChange.
    destruct state; screen_fields; repeat split; reflexivity.
  - cbn [screenStep]. unfold countdownEffect.
    destruct (step_eqb seen Countdown); screen_fields; repeat split; reflexivity.
Qed.

Lemma step_captureInvariant s ev :
  captureInvariant s -> captureInvariant (screenStep s ev).
Proof.
  intros (Hlen & Hfull & Hprog & Hcal).
  destruct ev as [seen pose now|state|seen|].
  - cbn [screenStep].
    destruct (handlePoseUpdate_capture seen pose now s)
      as [(p & _ & Hp & _ & Hlt & Hbuf & Hpr & Hres)|(Hbuf & Hpr & Hc & _)].
    + unfold captureInvariant. rewrite Hbuf, Hpr.
      assert (Hlen' : (length (capturedPosesRef s ++ [p]) <= CAPTURE_FRAMES)%nat).
      { rewrite length_app. cbn [length]. lia. }
      assert (Hfull' : Forall fullPose (capturedPosesRef s ++ [p])).
      { apply Forall_app. split; [exact Hfull|]. constructor; [exact Hp|constructor]. }
      split; [exact Hlen'|]. split; [exact Hfull'|]. split; [reflexivity|].
      destruct Hres as [(_ & -> & _)|(Hge & -> & _)]; [exact Hcal|].
      apply Forall_app. split; [exact Hcal|].
      constructor; [|constructor].
      exists (capturedPosesRef s ++ [p]), now.
      split; [reflexivity|]. split; [lia|exact Hfull'].
    + unfold captureInvariant. rewrite Hbuf, Hpr, Hc. repeat split; assumption.
  - destruct (other_events_keep_capture s (EvCamera state) I) as (Hb & Hp & Hc).
    unfold captureInvariant. rewrite Hb, Hp, Hc. repeat split; assumption.
  - destruct (other_events_keep_capture s (EvEffect seen) I) as (Hb & Hp & Hc).
    unfold captureInvariant. rewrite Hb, Hp, Hc. repeat split; assumption.
  - cbn [screenStep]. unfold countdownTick.
    destruct (countdown s <=? 1)%Z; screen_fields.
    + unfold captureInvariant. screen_fields. cbn [length].
      split; [unfold CAPTURE_FRAMES; lia|]. split; [constructor|].
      split; [reflexivity|exact Hcal].
    + unfold captureInvariant. screen_fields. repeat split; assumption.
Qed.

Lemma initialScreen_captureInvariant : captureInvariant initialScreen.
Proof.
  unfold captureInvariant, initialScreen. screen_fields. cbn [length].
  split; [unfold CAPTURE_FRAMES; lia|]. split; [constructor|].
  split; [reflexivity|constructor].
Qed.

Lemma run_captureInvariant evs :
  forall s, captureInvariant s -> captureInvariant (screenRun s evs).
Proof.
  induction evs as [|ev evs IH]; intros s Hs; [exact Hs|].
  cbn [screenRun fold_left]. apply IH. apply step_captureInvariant. exact Hs.
Qed.

(** X26.  Whatever pose updates (seen by whatever render), camera changes,
    effects and countdown ticks reach the calibration screen after its
    mount: the capture buffer never holds more than [CAPTURE_FRAMES] = 15
    frames, every frame in it has at least 33 landmarks, the displayed
    progress is the filled fraction of the buffer, and every calibration
    handed to [onCalibrationComplete] was computed from exactly 15 frames
    of at least 33 landmarks. *)
Theorem capture_buffer_bounded (evs : list ScreenEvent) :
  let s := screenRun initialScreen evs in
  (length (capturedPosesRef s) <= 15)%nat
  /\ Forall fullPose (capturedPosesRef s)
  /\ captureProgress s == countQ (length (capturedPosesRef s)) / 15
  /\ 0 <= captureProgress s /\ captureProgress s <= 1
  /\ Forall fromFullCapture (calibrations s).
Proof.
  cbv zeta.
  destruct (run_captureInvariant evs initialScreen initialScreen_captureInvariant)
    as (Hlen & Hfull & Hprog & Hcal).
  change (countQ CAPTURE_FRAMES) with 15 in Hprog.
  change CAPTURE_FRAMES with 15%nat in Hlen.
  split; [exact Hlen|]. split; [exact Hfull|]. split; [exact Hprog|].
  assert (Hn : 0 <= countQ (length (capturedPosesRef (screenRun initialScreen evs)))
               /\ countQ (length (capturedPosesRef (screenRun initialScreen evs))) <= 15).
  { unfold countQ. change 0 with (inject_Z 0). change 15 with (inject_Z 15).
    rewrite <- !Zle_Qle. lia. }
  split; [|split; [|exact Hcal]]; rewrite Hprog.
  - apply Qle_shift_div_l; lra.
  - apply Qle_shift_div_r; lra.
Qed.

(** One event other than a tick reports at most one calibration, and
    reports one only by filling the buffer. *)
Lemma step_reports s ev :
  keepsBuffer ev ->
  ((CAPTURE_FRAMES <= length (capturedPosesRef s))%nat ->
   calibrations (screenStep s ev) = calibrations s
   /\ capturedPosesRef (screenStep s ev) = capturedPosesRef s)
  /\ (calibrations (screenStep s ev) = calibrations s
      \/ (exists c, calibrations (screenStep s ev) = calibrations s ++ [c])
         /\ (CAPTURE_FRAMES <= length (capturedPosesRef (screenStep s ev)))%nat).
Proof.
  intro Hk. destruct ev as [seen pose now|state|seen|]; [| | |contradiction].
  - cbn [screenStep].
    destruct (handlePoseUpdate_capture seen pose now s)
      as [(p & _ & _ & _ & Hlt & Hbuf & _ & Hres)|(Hbuf & _ & Hc & _)].
    + split; [intro Hge; lia|].
      destruct Hres as [(_ & Hc & _)|(Hge & Hc & _)]; [left; exact Hc|].
      right. split; [eexists; exact Hc|]. rewrite Hbuf. exact Hge.
    + split; [intros _; split; assumption|left; exact Hc].
  - destruct (other_events_keep_capture s (EvCamera state) I) as (Hb & _ & Hc).
    split; [intros _; split; assumption|left; exact Hc].
  - destruct (other_events_keep_capture s (EvEffect seen) I) as (Hb & _ & Hc).
    split; [intros _; split; assumption|left; exact Hc].
Qed.

Lemma run_full_buffer evs :
  forall s, Forall keepsBuffer evs ->
            (CAPTURE_FRAMES <= length (capturedPosesRef s))%nat ->
            calibrations (screenRun s evs) = calibrations s
            /\ capturedPosesRef (screenRun s evs) = capturedPosesRef s.
Proof.
  induction evs as [|ev evs IH]; intros s Hall Hge; [split; reflexivity|].
  inversion Hall as [|? ? Hk Hrest]; subst.
  cbn [screenRun fold_left].
  destruct (proj1 (step_reports s ev Hk) Hge) as [Hc Hb].
  destruct (IH (screenStep s ev) Hrest ltac:(rewrite Hb; exact Hge)) as [Hc' Hb'].
  unfold screenRun in *. rewrite Hc', Hb', Hc, Hb. split; reflexivity.
Qed.

Lemma run_reports_once evs :
  forall s, Forall keepsBuffer evs ->
            (length (calibrations (screenRun s evs))
             <= length (calibrations s) + 1)%nat.
Proof.
  induction evs as [|ev evs IH]; intros s Hall; [cbn; lia|].
  inversion Hall as [|? ? Hk Hrest]; subst.
  cbn [screenRun fold_left].
  destruct (proj2 (step_reports s ev Hk)) as [Hc|[[c Hc] Hge]].
  - specialize (IH (screenStep s ev) Hrest). unfold screenRun in IH.
    rewrite Hc in IH. exact IH.
  - destruct (run_full_buffer evs (screenStep s ev) Hrest Hge) as [Hc' _].
    unfold screenRun in Hc'. rewrite Hc', Hc, length_app. cbn [length]. lia.
Qed.

(** X27.  Between two ticks of the countdown, which alone empty the
    capture buffer, [onCalibrationComplete] is called at most once,
    whatever step the renders of the pose callbacks saw; and once the
    buffer is full, no pose update adds a frame or reports a calibration
    again. *)
Theorem calibration_reported_once_per_capture (s : Screen) (evs : list ScreenEvent) :
  Forall keepsBuffer evs ->
  (length (calibrations (screenRun s evs)) <= length (calibrations s) + 1)%nat
  /\ ((15 <= length (capturedPosesRef s))%nat ->
      calibrations (screenRun s evs) = calibrations s
      /\ capturedPosesRef (screenRun s evs) = capturedPosesRef s).
Proof.
  intro Hall. split.
  - apply run_reports_once. exact Hall.
  - intro Hge. apply run_full_buffer; assumption.
Qed.

Lemma calibration_reported_once_per_capture_witness :
  (length (calibrations
             (screenRun capturing
                (captureOf (fourteenHidden ++ fourteenHidden))))
   <= length (calibrations capturing) + 1)%nat.
Proof.
  apply (calibration_reported_once_per_capture capturing
           (captureOf (fourteenHidden ++ fourteenHidden))).
  unfold captureOf. apply Forall_forall. intros ev Hin.
  apply in_map_iff in Hin. destruct Hin as (f & <- & _). exact I.
Defined.

(** Frames captured while the buffer stays short of [CAPTURE_FRAMES]. *)
Lemma capture_prefix frames :
  forall s,
    Forall fullPose (map fst frames) ->
    (length (capturedPosesRef s) + length frames < CAPTURE_FRAMES)%nat ->
    capturedPosesRef (screenRun s (captureOf frames))
    = capturedPosesRef s ++ map fst frames
    /\ calibrations (screenRun s (captureOf frames)) = calibrations s
    /\ step (screenRun s (captureOf frames)) = step s.
Proof.
  induction frames as [|[p now] frames IH]; intros s Hfull Hlen.
  - cbn. rewrite app_nil_r. repeat split; reflexivity.
  - cbn [captureOf map screenRun fold_left screenStep fst snd length] in *.
    inversion Hfull as [|? ? Hp Hrest]; subst.
    destruct (handlePoseUpdate_capture Capturing (Some p) now s)
      as [(p' & Hpe & _ & _ & _ & Hbuf & _ & Hres)|(_ & _ & _ & Hno)].
    + injection Hpe as <-.
      destruct Hres as [(_ & Hc & Hst)|(Hge & _)];
        [|rewrite length_app in Hge; cbn [length] in Hge; lia].
      destruct (IH (handlePoseUpdate Capturing (Some p) now s) Hrest) as (Hb' & Hc' & Hs').
      { rewrite Hbuf, length_app. cbn [length]. lia. }
      unfold screenRun, captureOf in *.
      rewrite Hb', Hc', Hs', Hbuf, Hc, Hst, <- app_assoc.
      repeat split; reflexivity.
    + exfalso. destruct Hno as [Hno|[Hno|Hno]].
      * unfold fullPose in Hp. unfold hasPose in Hno. apply Nat.leb_gt in Hno. lia.
      * congruence.
      * lia.
Qed.

Lemma hidden_landmark_default poses i :
  (forall q, In q poses -> visibleAt q i = false) ->
  averageLandmark poses i = defaultLandmark.
Proof.
  intro Hall. rewrite CalibrationFacts.averageLandmark_spec.
  assert (Hq : qualifyingSamples poses i = []).
  { unfold qualifyingSamples. induction poses as [|q poses IH]; [reflexivity|].
    cbn [flat_map].
    rewrite IH by (intros q' Hin; apply Hall; right; exact Hin).
    pose proof (Hall q (or_introl eq_refl)) as Hv. unfold visibleAt in Hv.
    destruct (nth_error (landmarks q) i) as [lm|]; [|reflexivity].
    rewrite Hv. reflexivity. }
  rewrite Hq. reflexivity.
Qed.

(** X28.  Fifteen pose updates with at least 33 landmarks each, seen in
    the capturing step from an empty buffer, end the capture: the step is
    complete, the progress is 1, and [onCalibrationComplete] receives once
    the calibration computed from exactly these frames, stamped with the
    clock of the fifteenth update.  The capture does not look at the key
    landmarks: when no frame shows either hip with visibility above 0.5,
    the calibration is handed over all the same, with the default hips and
    a hip centre of 0.5. *)
Theorem capture_of_fifteen_frames (s : Screen) (firsts : list (PoseResult * Q))
    (p : PoseResult) (dateNow : Q) :
  capturedPosesRef s = [] ->
  length firsts = 14%nat ->
  Forall fullPose (map fst firsts ++ [p]) ->
  let frames := map fst firsts ++ [p] in
  let s' := screenRun s (captureOf (firsts ++ [(p, dateNow)])) in
  step s' = Complete
  /\ capturedPosesRef s' = frames
  /\ captureProgress s' == 1
  /\ calibrations s' = calibrations s ++ [calculateCalibration frames dateNow]
  /\ ((forall q, In q frames ->
                 visibleAt q LEFT_HIP = false /\ visibleAt q RIGHT_HIP = false) ->
      leftHip (calculateCalibration frames dateNow) = defaultLandmark
      /\ rightHip (calculateCalibration frames dateNow) = defaultLandmark
      /\ hipCenterY (calculateCalibration frames dateNow) == 1 # 2).
Proof.
  intros Hempty Hlen Hfull. cbv zeta.
  apply Forall_app in Hfull. destruct Hfull as [Hfirsts Hp].
  inversion Hp as [|? ? Hp' _]; subst.
  destruct (capture_prefix firsts s Hfirsts) as (Hb & Hc & _).
  { rewrite Hempty, Hlen. unfold CAPTURE_FRAMES. cbn. lia. }
  unfold captureOf, screenRun in *. rewrite map_app, fold_left_app.
  cbn [map fold_left screenStep fst snd].
  set (s1 := fold_left screenStep _ s) in *.
  rewrite Hempty in Hb. cbn [app] in Hb.
  assert (Hl1 : length (capturedPosesRef s1 ++ [p]) = 15%nat).
  { rewrite Hb, length_app, length_map, Hlen. reflexivity. }
  destruct (handlePoseUpdate_capture Capturing (Some p) dateNow s1)
    as [(p' & Hpe & _ & _ & _ & Hbuf & Hpr & Hres)|(_ & _ & _ & Hno)].
  - injection Hpe as <-.
    destruct Hres as [(Hlt & _)|(_ & Hcal & Hst)];
      [unfold CAPTURE_FRAMES in Hlt; lia|].
    rewrite Hst, Hbuf, Hpr, Hcal, Hl1, Hb, Hc.
    split; [reflexivity|]. split; [reflexivity|]. split; [reflexivity|].
    split; [reflexivity|].
    intro Hhid.
    assert (HL : averageLandmark (map fst firsts ++ [p]) LEFT_HIP = defaultLandmark)
      by (apply hidden_landmark_default; intros q Hq; apply (Hhid q Hq)).
    assert (HR : averageLandmark (map fst firsts ++ [p]) RIGHT_HIP = defaultLandmark)
      by (apply hidden_landmark_default; intros q Hq; apply (Hhid q Hq)).
    unfold calculateCalibration. cbv zeta. cbn [leftHip rightHip hipCenterY].
    rewrite HL, HR. split; [reflexivity|]. split; reflexivity.
  - exfalso. destruct Hno as [Hno|[Hno|Hno]].
    + unfold fullPose in Hp'. unfold hasPose in Hno. apply Nat.leb_gt in Hno. lia.
    + congruence.
    + rewrite Hb, length_map, Hlen in Hno. unfold CAPTURE_FRAMES in Hno. lia.
Qed.

Lemma capture_of_fifteen_frames_witness :
  step (screenRun capturing
          (captureOf (fourteenHidden ++ [(uniformPose (1 # 10) 15, 15)])))
  = Complete
  /\ leftHip (calculateCalibration
                (map fst fourteenHidden ++ [uniformPose (1 # 10) 15]) 15)
     = defaultLandmark.
Proof.
  assert (Hfull : Forall fullPose (map fst fourteenHidden ++ [uniformPose (1 # 10) 15])).
  { apply Forall_forall. intros q Hq. vm_compute in Hq.
    repeat (destruct Hq as [<-|Hq]; [unfold fullPose; cbn; lia|]). contradiction. }
  destruct (capture_of_fifteen_frames capturing fourteenHidden
              (uniformPose (1 # 10) 15) 15 eq_refl eq_refl Hfull)
    as (Hst & _ & _ & _ & Hhid).
  split; [exact Hst|].
  apply Hhid. intros q Hq. vm_compute in Hq.
  repeat (destruct Hq as [<-|Hq]; [split; reflexivity|]). contradiction.
Defined.

End CaptureFacts.
